(** * ESDM: DRNG manager and runtime configuration

    A shallow embedding of the runtime configuration facility
    (esdm_config.c) and of the DRNG manager (esdm_drng_mgr.c) of the
    Entropy Source and DRNG Manager, together with the properties of the
    reseed bookkeeping that the specification states about them.

    C integers are modelled as [Z] with the wrap-around of their type
    written out; [time_t] values are modelled as unbounded [Z] (signed
    overflow of a [time_t] is undefined in C and is not modelled).
    Mutable global state is threaded explicitly through a state-and-fault
    monad; a pointer to a [struct esdm_drng] is a reference into that
    state. *)

From Stdlib Require Import ZArith Lia Bool List.
From stdpp Require Import base numbers list.
Import ListNotations.

Local Open Scope Z_scope.

(** ** Machine integers *)

Definition INT_MAX : Z := 2 ^ 31 - 1.
Definition INT_MIN : Z := - 2 ^ 31.
Definition SSIZE_MAX : Z := 2 ^ 63 - 1.

(** Value of an [int] after an operation whose mathematical result is [z]
    (two's complement wrap-around, as the [__sync_*] builtins have it). *)
Definition wrap_int (z : Z) : Z := (z + 2 ^ 31) mod 2 ^ 32 - 2 ^ 31.

(** Conversion to [uint32_t] and to [size_t]. *)
Definition cast_u32 (z : Z) : Z := z mod 2 ^ 32.
Definition cast_size_t (z : Z) : Z := z mod 2 ^ 64.

(** [min_t(uint32_t, a, b)] and [min_t(size_t, a, b)]: both operands are
    converted to the type before they are compared. *)
Definition min_t_u32 (a b : Z) : Z := Z.min (cast_u32 a) (cast_u32 b).
Definition min_t_size_t (a b : Z) : Z := Z.min (cast_size_t a) (cast_size_t b).

#[global] Arguments wrap_int : simpl never.
#[global] Arguments cast_u32 : simpl never.
#[global] Arguments cast_size_t : simpl never.

Definition in_int (z : Z) : Prop := INT_MIN <= z <= INT_MAX.
Definition in_u32 (z : Z) : Prop := 0 <= z < 2 ^ 32.

(** errno.h *)
Definition EFAULT : Z := 14.
Definition EINVAL : Z := 22.
Definition EOPNOTSUPP : Z := 95.

(** ** atomic.h

    An [atomic_t] is its [int] counter.  An operation that changes the
    counter returns the new counter next to its C result. *)

Definition atomic_t : Type := Z.

Definition atomic_read (v : atomic_t) : Z := v.

Definition atomic_set (v : atomic_t) (i : Z) : atomic_t := i.

Definition atomic_add (v : atomic_t) (i : Z) : atomic_t := wrap_int (v + i).

Definition atomic_sub (v : atomic_t) (i : Z) : atomic_t := wrap_int (v - i).

Definition atomic_sub_and_test (v : atomic_t) (i : Z) : bool * atomic_t :=
  let v' := atomic_sub v i in (v' =? 0, v').

Definition atomic_dec_and_test (v : atomic_t) : bool * atomic_t :=
  atomic_sub_and_test v 1.

(** Modelled from the spec: [atomic_read_u32] is not part of the atomic.h
    at hand; the counters it reads are "unsigned counters", so it is the
    counter converted to [uint32_t]. *)
Definition atomic_read_u32 (v : atomic_t) : Z := cast_u32 (atomic_read v).

(** ** Build configuration

    config.h and esdm_definitions.h are not among the sources: their
    constants are parameters of the development. *)

Class esdm_definitions := {
  ESDM_DRNG_SECURITY_STRENGTH_BITS : Z;
  ESDM_DRNG_SECURITY_STRENGTH_BYTES : Z;
  ESDM_DRNG_RESEED_THRESH : Z;
  ESDM_DRNG_MAX_WITHOUT_RESEED : Z;
  ESDM_DRNG_MAX_REQSIZE : Z;
  ESDM_CPU_ENTROPY_RATE : Z;
  ESDM_JENT_ENTROPY_RATE : Z;
  ESDM_KERNEL_RNG_ENTROPY_RATE : Z;
  ESDM_SCHED_ENTROPY_RATE : Z
}.

(** ** esdm_config.c: the configuration record *)

Inductive esdm_config_force_fips :=
  | esdm_config_force_fips_unset
  | esdm_config_force_fips_disabled
  | esdm_config_force_fips_enabled.

Record esdm_config := {
  esdm_es_cpu_entropy_rate_bits : Z;
  esdm_es_jent_entropy_rate_bits : Z;
  esdm_es_krng_entropy_rate_bits : Z;
  esdm_es_sched_entropy_rate_bits : Z;
  esdm_drng_max_wo_reseed : Z;
  esdm_max_nodes : Z;
  force_fips : esdm_config_force_fips
}.

Definition set_cpu_rate (v : Z) (c : esdm_config) : esdm_config :=
  {| esdm_es_cpu_entropy_rate_bits := v;
     esdm_es_jent_entropy_rate_bits := esdm_es_jent_entropy_rate_bits c;
     esdm_es_krng_entropy_rate_bits := esdm_es_krng_entropy_rate_bits c;
     esdm_es_sched_entropy_rate_bits := esdm_es_sched_entropy_rate_bits c;
     esdm_drng_max_wo_reseed := esdm_drng_max_wo_reseed c;
     esdm_max_nodes := esdm_max_nodes c;
     force_fips := force_fips c |}.

Definition set_jent_rate (v : Z) (c : esdm_config) : esdm_config :=
  {| esdm_es_cpu_entropy_rate_bits := esdm_es_cpu_entropy_rate_bits c;
     esdm_es_jent_entropy_rate_bits := v;
     esdm_es_krng_entropy_rate_bits := esdm_es_krng_entropy_rate_bits c;
     esdm_es_sched_entropy_rate_bits := esdm_es_sched_entropy_rate_bits c;
     esdm_drng_max_wo_reseed := esdm_drng_max_wo_reseed c;
     esdm_max_nodes := esdm_max_nodes c;
     force_fips := force_fips c |}.

Definition set_krng_rate (v : Z) (c : esdm_config) : esdm_config :=
  {| esdm_es_cpu_entropy_rate_bits := esdm_es_cpu_entropy_rate_bits c;
     esdm_es_jent_entropy_rate_bits := esdm_es_jent_entropy_rate_bits c;
     esdm_es_krng_entropy_rate_bits := v;
     esdm_es_sched_entropy_rate_bits := esdm_es_sched_entropy_rate_bits c;
     esdm_drng_max_wo_reseed := esdm_drng_max_wo_reseed c;
     esdm_max_nodes := esdm_max_nodes c;
     force_fips := force_fips c |}.

Definition set_sched_rate (v : Z) (c : esdm_config) : esdm_config :=
  {| esdm_es_cpu_entropy_rate_bits := esdm_es_cpu_entropy_rate_bits c;
     esdm_es_jent_entropy_rate_bits := esdm_es_jent_entropy_rate_bits c;
     esdm_es_krng_entropy_rate_bits := esdm_es_krng_entropy_rate_bits c;
     esdm_es_sched_entropy_rate_bits := v;
     esdm_drng_max_wo_reseed := esdm_drng_max_wo_reseed c;
     esdm_max_nodes := esdm_max_nodes c;
     force_fips := force_fips c |}.

(** The static initialiser of the configuration. *)
Definition esdm_config_initial `{esdm_definitions} : esdm_config :=
  {| esdm_es_cpu_entropy_rate_bits := ESDM_CPU_ENTROPY_RATE;
     esdm_es_jent_entropy_rate_bits := ESDM_JENT_ENTROPY_RATE;
     esdm_es_krng_entropy_rate_bits := ESDM_KERNEL_RNG_ENTROPY_RATE;
     esdm_es_sched_entropy_rate_bits := ESDM_SCHED_ENTROPY_RATE;
     esdm_drng_max_wo_reseed := ESDM_DRNG_MAX_WITHOUT_RESEED;
     esdm_max_nodes := 0xffffffff;
     force_fips := esdm_config_force_fips_unset |}.

Definition esdm_config_entropy_rate_max `{esdm_definitions} (val : Z) : Z :=
  min_t_u32 ESDM_DRNG_SECURITY_STRENGTH_BITS val.

Section Manager.

Context `{defs : esdm_definitions}.

(** The state of a DRBG is owned by the crypto callback ([void *drng]);
    the seed buffer [struct entropy_buf] and the state of the entropy
    source manager (esdm_es_mgr.c: entropy pool, pool lock, seeding state
    machine, wait queue) are owned by collaborators. *)
Context {drbg entropy_buf ES : Type}.

(** ** Crypto callbacks (esdm_crypto.h)

    A function pointer that may be NULL is an [option].  A selftest takes
    no argument: it is the [int] it returns. *)

Record esdm_hash_cb := {
  hash_selftest : option Z
}.

Record esdm_drng_cb := {
  (* int drng_alloc(void **drng, uint32_t sec_strength): given the old
     value of the pointer, the result and the new value of the pointer *)
  drng_alloc : option drbg -> Z -> Z * option drbg;
  (* int drng_seed(void *drng, const uint8_t *inbuf, size_t inbuflen) *)
  drng_seed : drbg -> list Byte.byte -> Z * drbg;
  (* ssize_t drng_generate(void *drng, uint8_t *outbuf, size_t outbuflen) *)
  drng_generate : option drbg -> Z -> Z * list Byte.byte * option drbg;
  (* void drng_dealloc(void *drng) *)
  drng_dealloc : option drbg -> unit;
  drng_selftest : option Z
}.

(** ** struct esdm_drng *)

Record esdm_drng := {
  drng : option drbg;
  drng_cb : option esdm_drng_cb;
  hash_cb : option esdm_hash_cb;
  requests : atomic_t;
  requests_since_fully_seeded : atomic_t;
  last_seeded : Z;
  fully_seeded : bool;
  force_reseed : bool
}.

Definition set_drng (v : option drbg) (d : esdm_drng) : esdm_drng :=
  {| drng := v; drng_cb := drng_cb d; hash_cb := hash_cb d;
     requests := requests d;
     requests_since_fully_seeded := requests_since_fully_seeded d;
     last_seeded := last_seeded d; fully_seeded := fully_seeded d;
     force_reseed := force_reseed d |}.

Definition set_drng_cb (v : option esdm_drng_cb) (d : esdm_drng) : esdm_drng :=
  {| drng := drng d; drng_cb := v; hash_cb := hash_cb d;
     requests := requests d;
     requests_since_fully_seeded := requests_since_fully_seeded d;
     last_seeded := last_seeded d; fully_seeded := fully_seeded d;
     force_reseed := force_reseed d |}.

Definition set_requests (v : atomic_t) (d : esdm_drng) : esdm_drng :=
  {| drng := drng d; drng_cb := drng_cb d; hash_cb := hash_cb d;
     requests := v;
     requests_since_fully_seeded := requests_since_fully_seeded d;
     last_seeded := last_seeded d; fully_seeded := fully_seeded d;
     force_reseed := force_reseed d |}.

Definition set_requests_since_fully_seeded (v : atomic_t) (d : esdm_drng)
  : esdm_drng :=
  {| drng := drng d; drng_cb := drng_cb d; hash_cb := hash_cb d;
     requests := requests d;
     requests_since_fully_seeded := v;
     last_seeded := last_seeded d; fully_seeded := fully_seeded d;
     force_reseed := force_reseed d |}.

Definition set_last_seeded (v : Z) (d : esdm_drng) : esdm_drng :=
  {| drng := drng d; drng_cb := drng_cb d; hash_cb := hash_cb d;
     requests := requests d;
     requests_since_fully_seeded := requests_since_fully_seeded d;
     last_seeded := v; fully_seeded := fully_seeded d;
     force_reseed := force_reseed d |}.

Definition set_fully_seeded (v : bool) (d : esdm_drng) : esdm_drng :=
  {| drng := drng d; drng_cb := drng_cb d; hash_cb := hash_cb d;
     requests := requests d;
     requests_since_fully_seeded := requests_since_fully_seeded d;
     last_seeded := last_seeded d; fully_seeded := v;
     force_reseed := force_reseed d |}.

Definition set_force_reseed (v : bool) (d : esdm_drng) : esdm_drng :=
  {| drng := drng d; drng_cb := drng_cb d; hash_cb := hash_cb d;
     requests := requests d;
     requests_since_fully_seeded := requests_since_fully_seeded d;
     last_seeded := last_seeded d; fully_seeded := fully_seeded d;
     force_reseed := v |}.

(** ** Collaborators

    What the DRNG manager calls and the sources do not contain: the clock,
    the built-in primitives, the node helpers, the entropy source manager
    and the seeding of the atomic DRNG.  [clock n] is what the [n]-th call
    of [time(NULL)] returns.  The two functions that seed the atomic DRNG
    may read the clock, and the one that seeds it from a regular DRNG
    draws random bytes from it: they are given, and return, what they can
    touch. *)

Class esdm_collaborators := {
  clock : nat -> Z;
  esdm_builtin_sha512_cb : esdm_hash_cb;
  esdm_builtin_hash_drbg_cb : esdm_drng_cb;
  esdm_online_nodes : ES -> Z;
  esdm_curr_node : ES -> Z;
  esdm_es_add_entropy : ES -> ES;
  esdm_get_seed_entropy_osr : esdm_config -> bool -> Z;
  esdm_fill_seed_buffer : esdm_config -> Z -> ES -> entropy_buf * ES;
  entropy_buf_bytes : entropy_buf -> list Byte.byte;
  esdm_fully_seeded_eb : esdm_config -> bool -> entropy_buf -> bool;
  esdm_init_ops : esdm_config -> option entropy_buf -> ES -> ES;
  esdm_pool_trylock : ES -> Z * ES;
  esdm_pool_unlock : ES -> ES;
  thread_queue_sleeper : ES -> bool;
  esdm_drng_atomic_seed_drng :
    option esdm_drng_cb -> option drbg -> esdm_drng -> nat ->
    option drbg * esdm_drng * nat;
  esdm_drng_atomic_seed_es :
    esdm_config -> ES -> esdm_drng -> nat -> ES * esdm_drng * nat
}.

Context `{env : esdm_collaborators}.

(** ** Global state of the manager *)

Record esdm_mgr := {
  (* static struct esdm_config esdm_config *)
  mgr_config : esdm_config;
  (* int esdm_drng_reseed_max_time, see esdm_drng_reseed_max_time_init *)
  esdm_drng_reseed_max_time : Z;
  (* static atomic_t esdm_avail = ATOMIC_INIT(0) *)
  esdm_avail : atomic_t;
  (* static struct esdm_drng esdm_drng_init *)
  esdm_drng_init : esdm_drng;
  (* what esdm_drng_get_instances() returns: NULL, or the array of
     per-node DRNGs, each slot NULL or an instance *)
  esdm_drng_instances : option (list (option esdm_drng));
  (* the atomic DRNG of esdm_drng_atomic.c *)
  esdm_drng_atomic : esdm_drng;
  es : ES;
  (* number of calls of time() so far *)
  ticks : nat
}.

Definition set_mgr_config (v : esdm_config) (s : esdm_mgr) : esdm_mgr :=
  {| mgr_config := v;
     esdm_drng_reseed_max_time := esdm_drng_reseed_max_time s;
     esdm_avail := esdm_avail s; esdm_drng_init := esdm_drng_init s;
     esdm_drng_instances := esdm_drng_instances s;
     esdm_drng_atomic := esdm_drng_atomic s; es := es s; ticks := ticks s |}.

Definition set_esdm_avail (v : atomic_t) (s : esdm_mgr) : esdm_mgr :=
  {| mgr_config := mgr_config s;
     esdm_drng_reseed_max_time := esdm_drng_reseed_max_time s;
     esdm_avail := v; esdm_drng_init := esdm_drng_init s;
     esdm_drng_instances := esdm_drng_instances s;
     esdm_drng_atomic := esdm_drng_atomic s; es := es s; ticks := ticks s |}.

Definition set_esdm_drng_init (v : esdm_drng) (s : esdm_mgr) : esdm_mgr :=
  {| mgr_config := mgr_config s;
     esdm_drng_reseed_max_time := esdm_drng_reseed_max_time s;
     esdm_avail := esdm_avail s; esdm_drng_init := v;
     esdm_drng_instances := esdm_drng_instances s;
     esdm_drng_atomic := esdm_drng_atomic s; es := es s; ticks := ticks s |}.

Definition set_esdm_drng_instances (v : option (list (option esdm_drng)))
  (s : esdm_mgr) : esdm_mgr :=
  {| mgr_config := mgr_config s;
     esdm_drng_reseed_max_time := esdm_drng_reseed_max_time s;
     esdm_avail := esdm_avail s; esdm_drng_init := esdm_drng_init s;
     esdm_drng_instances := v;
     esdm_drng_atomic := esdm_drng_atomic s; es := es s; ticks := ticks s |}.

Definition set_esdm_drng_atomic (v : esdm_drng) (s : esdm_mgr) : esdm_mgr :=
  {| mgr_config := mgr_config s;
     esdm_drng_reseed_max_time := esdm_drng_reseed_max_time s;
     esdm_avail := esdm_avail s; esdm_drng_init := esdm_drng_init s;
     esdm_drng_instances := esdm_drng_instances s;
     esdm_drng_atomic := v; es := es s; ticks := ticks s |}.

Definition set_es (v : ES) (s : esdm_mgr) : esdm_mgr :=
  {| mgr_config := mgr_config s;
     esdm_drng_reseed_max_time := esdm_drng_reseed_max_time s;
     esdm_avail := esdm_avail s; esdm_drng_init := esdm_drng_init s;
     esdm_drng_instances := esdm_drng_instances s;
     esdm_drng_atomic := esdm_drng_atomic s; es := v; ticks := ticks s |}.

Definition set_ticks (v : nat) (s : esdm_mgr) : esdm_mgr :=
  {| mgr_config := mgr_config s;
     esdm_drng_reseed_max_time := esdm_drng_reseed_max_time s;
     esdm_avail := esdm_avail s; esdm_drng_init := esdm_drng_init s;
     esdm_drng_instances := esdm_drng_instances s;
     esdm_drng_atomic := esdm_drng_atomic s; es := es s; ticks := v |}.

(** [int esdm_drng_reseed_max_time = 600;] the initialiser of the
    maximum number of seconds between reseeds. *)
Definition esdm_drng_reseed_max_time_init : Z := 600.

(** ** The monad of manager operations

    An operation takes the global state and either returns a value and
    the next state, or stops at a fault: undefined behaviour of the C
    program (a NULL or dangling pointer dereferenced, an array read out
    of bounds, a division by zero), or the fuel of a loop used up. *)

Inductive fault := NullDeref | OutOfBounds | DivByZero | OutOfFuel.

Inductive result (A : Type) :=
  | Ok (a : A) (s : esdm_mgr)
  | Fault (f : fault).
Arguments Ok {A} a s.
Arguments Fault {A} f.

Definition M (A : Type) : Type := esdm_mgr -> result A.

#[global] Instance M_ret : MRet M := fun A a s => Ok a s.

#[global] Instance M_bind : MBind M := fun A B k m s =>
  match m s with
  | Ok a s' => k a s'
  | Fault f => Fault f
  end.

Definition raise {A} (f : fault) : M A := fun _ => Fault f.
Definition gets {A} (f : esdm_mgr -> A) : M A := fun s => Ok (f s) s.
Definition modify (f : esdm_mgr -> esdm_mgr) : M unit := fun s => Ok tt (f s).

(** [time(NULL)] *)
Definition time_NULL : M Z :=
  fun s => Ok (clock (ticks s)) (set_ticks (S (ticks s)) s).

(** ** Pointers to DRNG instances

    A [struct esdm_drng *] of the manager points to the initial DRNG or
    to the instance of a node in the per-node array. *)

Inductive drng_ptr := init_ptr | node_ptr (node : nat).

Definition load_drng (p : drng_ptr) : M esdm_drng := fun s =>
  match p with
  | init_ptr => Ok (esdm_drng_init s) s
  | node_ptr n =>
      match esdm_drng_instances s with
      | None => Fault NullDeref
      | Some arr =>
          match arr !! n with
          | None => Fault OutOfBounds
          | Some None => Fault NullDeref
          | Some (Some d) => Ok d s
          end
      end
  end.

Definition store_drng (p : drng_ptr) (d : esdm_drng) : M unit := fun s =>
  match p with
  | init_ptr => Ok tt (set_esdm_drng_init d s)
  | node_ptr n =>
      match esdm_drng_instances s with
      | None => Fault NullDeref
      | Some arr =>
          match arr !! n with
          | None => Fault OutOfBounds
          | Some None => Fault NullDeref
          | Some (Some _) =>
              Ok tt (set_esdm_drng_instances (Some (<[n := Some d]> arr)) s)
          end
      end
  end.

(** ** esdm_config.c: accessors *)

Definition esdm_config_es_cpu_entropy_rate : M Z :=
  gets (fun s => esdm_es_cpu_entropy_rate_bits (mgr_config s)).

Definition esdm_config_es_cpu_entropy_rate_set (ent : Z) : M unit :=
  modify (fun s => set_mgr_config
    (set_cpu_rate (esdm_config_entropy_rate_max ent) (mgr_config s)) s);;
  modify (fun s => set_es (esdm_es_add_entropy (es s)) s).

Definition esdm_config_es_jent_entropy_rate : M Z :=
  gets (fun s => esdm_es_jent_entropy_rate_bits (mgr_config s)).

Definition esdm_config_es_jent_entropy_rate_set (ent : Z) : M unit :=
  modify (fun s => set_mgr_config
    (set_jent_rate (esdm_config_entropy_rate_max ent) (mgr_config s)) s);;
  modify (fun s => set_es (esdm_es_add_entropy (es s)) s).

Definition esdm_config_es_krng_entropy_rate : M Z :=
  gets (fun s => esdm_es_krng_entropy_rate_bits (mgr_config s)).

Definition esdm_config_es_krng_entropy_rate_set (ent : Z) : M unit :=
  modify (fun s => set_mgr_config
    (set_krng_rate (esdm_config_entropy_rate_max ent) (mgr_config s)) s);;
  modify (fun s => set_es (esdm_es_add_entropy (es s)) s).

Definition esdm_config_es_sched_entropy_rate : M Z :=
  gets (fun s => esdm_es_sched_entropy_rate_bits (mgr_config s)).

Definition esdm_config_es_sched_entropy_rate_set (ent : Z) : M unit :=
  modify (fun s => set_mgr_config
    (set_sched_rate (esdm_config_entropy_rate_max ent) (mgr_config s)) s);;
  modify (fun s => set_es (esdm_es_add_entropy (es s)) s).

Definition esdm_config_drng_max_wo_reseed : M Z :=
  gets (fun s => esdm_drng_max_wo_reseed (mgr_config s)).

Definition esdm_config_max_nodes : M Z :=
  gets (fun s => esdm_max_nodes (mgr_config s)).

Definition esdm_config_online_nodes : M Z :=
  online ← gets (fun s => esdm_online_nodes (es s));
  max_nodes ← esdm_config_max_nodes;
  mret (min_t_u32 online max_nodes).

Definition esdm_config_curr_node : M Z :=
  curr ← gets (fun s => esdm_curr_node (es s));
  max_nodes ← esdm_config_max_nodes;
  if cast_u32 max_nodes =? 0 then raise DivByZero
  else mret (cast_u32 curr mod cast_u32 max_nodes).

(** Modelled from the spec: the macro [for_each_online_node] is not among
    the sources.  The per-node array is "indexed by online node id" and
    the online nodes are "intersected with max_nodes": the macro runs its
    body for node = 0, ..., esdm_config_online_nodes() - 1. *)
Fixpoint for_each_node (nodes : list nat) (body : nat -> M unit) : M unit :=
  match nodes with
  | [] => mret tt
  | node :: rest => body node;; for_each_node rest body
  end.

Definition for_each_online_node (body : nat -> M unit) : M unit :=
  online ← esdm_config_online_nodes;
  for_each_node (seq 0 (Z.to_nat online)) body.

(** ** esdm_drng_mgr.c: helpers *)

Definition esdm_default_hash_cb : esdm_hash_cb := esdm_builtin_sha512_cb.
Definition esdm_default_drng_cb : esdm_drng_cb := esdm_builtin_hash_drbg_cb.

Definition esdm_get_available : M bool :=
  gets (fun s => negb (atomic_read (esdm_avail s) =? 0)).

Definition esdm_drng_init_instance : drng_ptr := init_ptr.

Definition esdm_drng_node_instance : M drng_ptr :=
  instances ← gets esdm_drng_instances;
  node ← esdm_config_curr_node;
  match instances with
  | None => mret esdm_drng_init_instance
  | Some arr =>
      match arr !! Z.to_nat node with
      | None => raise OutOfBounds
      | Some None => mret esdm_drng_init_instance
      | Some (Some _) => mret (node_ptr (Z.to_nat node))
      end
  end.

Definition esdm_drng_reset (p : drng_ptr) : M unit :=
  d ← load_drng p;
  let d := set_requests
             (atomic_set (requests d) ESDM_DRNG_RESEED_THRESH) d in
  let d := set_requests_since_fully_seeded
             (atomic_set (requests_since_fully_seeded d) 0) d in
  now ← time_NULL;
  let d := set_last_seeded now d in
  let d := set_fully_seeded false d in
  let d := set_force_reseed true d in
  store_drng p d.

(** ret_checkers.h is not among the sources; [CKINT(x)] is read as
    [ret = x; if (ret < 0) goto out;]. *)
Definition esdm_drng_alloc_common (p : drng_ptr)
  (cb : option esdm_drng_cb) : M Z :=
  match cb with
  | None => mret (- EINVAL)
  | Some c =>
      d ← load_drng p;
      let d := set_drng_cb (Some c) d in
      let '(ret, st) := drng_alloc c (drng d) ESDM_DRNG_SECURITY_STRENGTH_BYTES in
      store_drng p (set_drng st d);;
      if ret <? 0 then mret ret
      else esdm_drng_reset p;; mret ret
  end.

Definition esdm_drng_mgr_selftest : M Z :=
  p ← esdm_drng_node_instance;
  d ← load_drng p;
  match hash_cb d with
  | None => raise NullDeref
  | Some h =>
      let ret := match hash_selftest h with Some r => r | None => 0 end in
      if ret <? 0 then mret ret
      else
        match drng_cb d with
        | None => raise NullDeref
        | Some c =>
            let ret := match drng_selftest c with
                       | Some r => r
                       | None => ret
                       end in
            mret ret
        end
  end.

Definition esdm_drng_mgr_initalize : M Z :=
  avail ← esdm_get_available;
  if (avail : bool) then mret 0
  else
    (* under the lock of the initial DRNG *)
    avail ← esdm_get_available;
    if (avail : bool) then mret 0
    else
      ret ← esdm_drng_alloc_common init_ptr (Some esdm_default_drng_cb);
      if ret <? 0 then mret ret
      else
        modify (fun s => set_esdm_avail (atomic_set (esdm_avail s) 1) s);;
        esdm_drng_mgr_selftest.

Definition esdm_drng_mgr_finalize : M unit :=
  d ← load_drng esdm_drng_init_instance;
  match drng_cb d with
  | None => raise NullDeref
  | Some c =>
      let _ := drng_dealloc c (drng d) in
      store_drng esdm_drng_init_instance (set_drng None d)
  end.

(** ** Random number generation *)

Definition esdm_time_after (curr base : Z) : bool :=
  if curr =? -1 then false
  else if base =? -1 then true
  else curr >? base.

Definition esdm_time_after_now (base : Z) : M Z :=
  curr ← time_NULL;
  if curr =? -1 then mret 0
  else mret (if esdm_time_after curr base then curr - base else 0).

Definition esdm_drng_inject (p : drng_ptr) (inbuf : list Byte.byte)
  (fully_seeded_arg : bool) : M unit :=
  d ← load_drng p;
  match drng d with
  | None => mret tt
  | Some st =>
      match drng_cb d with
      | None => raise NullDeref
      | Some c =>
          let '(ret, st') := drng_seed c st inbuf in
          let d := set_drng (Some st') d in
          if ret <? 0 then store_drng p (set_force_reseed true d)
          else
            let gc := wrap_int (ESDM_DRNG_RESEED_THRESH
                                - atomic_read (requests d)) in
            (* argument of the debug message *)
            _ ← esdm_time_after_now (last_seeded d);
            let d := set_requests_since_fully_seeded
                       (if fully_seeded_arg
                        then atomic_set (requests_since_fully_seeded d) 0
                        else atomic_add (requests_since_fully_seeded d) gc)
                       d in
            now ← time_NULL;
            let d := set_last_seeded now d in
            let d := set_requests
                       (atomic_set (requests d) ESDM_DRNG_RESEED_THRESH) d in
            let d := set_force_reseed false d in
            let d := if fully_seeded d then d
                     else set_fully_seeded fully_seeded_arg d in
            store_drng p d
      end
  end.

Definition esdm_drng_seed_es (p : drng_ptr) : M unit :=
  d ← load_drng p;
  cfg ← gets mgr_config;
  e ← gets es;
  let '(seedbuf, e') :=
    esdm_fill_seed_buffer cfg
      (esdm_get_seed_entropy_osr cfg (fully_seeded d)) e in
  modify (set_es e');;
  esdm_drng_inject p (entropy_buf_bytes seedbuf)
    (esdm_fully_seeded_eb cfg (fully_seeded d) seedbuf);;
  modify (fun s => set_es (esdm_init_ops (mgr_config s) (Some seedbuf) (es s)) s).

Definition esdm_drng_seed (p : drng_ptr) : M unit :=
  avail ← esdm_get_available;
  if (avail : bool) then
    esdm_drng_seed_es p;;
    d ← load_drng p;
    atomic ← gets esdm_drng_atomic;
    tk ← gets ticks;
    let '(st, atomic', tk') :=
      esdm_drng_atomic_seed_drng (drng_cb d) (drng d) atomic tk in
    store_drng p (set_drng st d);;
    modify (set_esdm_drng_atomic atomic');;
    modify (set_ticks tk')
  else
    sleeper ← gets (fun s => thread_queue_sleeper (es s));
    if negb sleeper then
      modify (fun s =>
        let '(e', atomic', tk') :=
          esdm_drng_atomic_seed_es (mgr_config s) (es s)
            (esdm_drng_atomic s) (ticks s) in
        set_ticks tk' (set_esdm_drng_atomic atomic' (set_es e' s)))
    else
      modify (fun s => set_es (esdm_init_ops (mgr_config s) None (es s)) s).

Definition esdm_drng_seed_work_one (p : drng_ptr) (node : Z) : M unit :=
  esdm_drng_seed p;;
  d ← load_drng p;
  if fully_seeded d then
    (* Prevent reseed storm *)
    store_drng p (set_last_seeded (last_seeded d + cast_u32 (node * 60)) d)
  else mret tt.

(** Modelled from the spec: [esdm_drng_atomic_force_reseed] belongs to
    esdm_drng_atomic.c, which is not among the sources.  The force reseed
    "forces all per-node DRNGs and the atomic DRNG" and "sets
    force_reseed=true [...] on the atomic DRNG". *)
Definition esdm_drng_atomic_force_reseed : M unit :=
  modify (fun s =>
    set_esdm_drng_atomic (set_force_reseed true (esdm_drng_atomic s)) s).

(** The body of the loop over the online nodes in
    [esdm_drng_force_reseed]. *)
Definition esdm_drng_force_reseed_node (node : nat) : M unit :=
  arr ← gets esdm_drng_instances;
  match arr with
  | None => raise NullDeref
  | Some arr =>
      match arr !! node with
      | None => raise OutOfBounds
      | Some None => mret tt
      | Some (Some d) =>
          store_drng (node_ptr node) (set_force_reseed (fully_seeded d) d)
      end
  end.

(** Force all DRNGs to reseed before next generation. *)
Definition esdm_drng_force_reseed : M unit :=
  instances ← gets esdm_drng_instances;
  init ← gets esdm_drng_init;
  if match instances with
     | None => true
     | Some _ =>
         atomic_read_u32 (requests_since_fully_seeded init)
         >? cast_u32 ESDM_DRNG_RESEED_THRESH
     end
  then
    modify (set_esdm_drng_init (set_force_reseed (fully_seeded init) init))
  else
    for_each_online_node esdm_drng_force_reseed_node;;
    esdm_drng_atomic_force_reseed.

Definition esdm_drng_must_reseed (p : drng_ptr) : M bool :=
  d ← load_drng p;
  let '(zero, requests') := atomic_dec_and_test (requests d) in
  store_drng p (set_requests requests' d);;
  if zero then mret true
  else if force_reseed d then mret true
  else
    max_time ← gets esdm_drng_reseed_max_time;
    after ← esdm_time_after_now (last_seeded d + max_time);
    mret (negb (after =? 0)).

(** Modelled from the spec: [esdm_unset_fully_seeded] is not among the
    sources; by it "the instance is demoted to fully_seeded=false". *)
Definition esdm_unset_fully_seeded (p : drng_ptr) : M unit :=
  d ← load_drng p;
  store_drng p (set_fully_seeded false d).

(** The [while (outbuflen)] loop of [esdm_drng_get]: [processed] bytes,
    [data], have been written to the output buffer so far.  Every turn
    uses one unit of [fuel]. *)
Fixpoint esdm_drng_get_loop (fuel : nat) (p : drng_ptr) (outbuflen : Z)
  (processed : Z) (data : list Byte.byte) : M (Z * list Byte.byte) :=
  if outbuflen =? 0 then mret (processed, data)
  else
    match fuel with
    | O => raise OutOfFuel
    | S fuel =>
        let todo := min_t_u32 outbuflen ESDM_DRNG_MAX_REQSIZE in
        must ← esdm_drng_must_reseed p;
        (if (must : bool) then
           '(locked, e') ← gets (fun s => esdm_pool_trylock (es s));
           modify (set_es e');;
           if negb (locked =? 0) then
             d ← load_drng p;
             store_drng p (set_force_reseed true d)
           else
             esdm_drng_seed p;;
             modify (fun s => set_es (esdm_pool_unlock (es s)) s)
         else mret tt);;
        d ← load_drng p;
        match drng_cb d with
        | None => raise NullDeref
        | Some c =>
            let '(ret, out, st) := drng_generate c (drng d) todo in
            store_drng p (set_drng st d);;
            if ret <=? 0 then mret (- EFAULT, data ++ out)
            else
              esdm_drng_get_loop fuel p (cast_size_t (outbuflen - ret))
                (processed + ret) (data ++ out)
        end
    end.

(** [outbuf] is [None] for a NULL pointer.  The result is the value
    returned and the bytes written to the buffer. *)
Definition esdm_drng_get (fuel : nat) (p : drng_ptr)
  (outbuf : option (list Byte.byte)) (outbuflen : Z)
  : M (Z * list Byte.byte) :=
  if match outbuf with None => true | Some _ => false end
     || (outbuflen =? 0)
  then mret (0, [])
  else
    avail ← esdm_get_available;
    if negb avail then mret (- EOPNOTSUPP, [])
    else
      let outbuflen := min_t_size_t outbuflen SSIZE_MAX in
      d ← load_drng p;
      max_wo_reseed ← esdm_config_drng_max_wo_reseed;
      (if atomic_read_u32 (requests_since_fully_seeded d) >? max_wo_reseed
       then esdm_unset_fully_seeded p
       else mret tt);;
      esdm_drng_get_loop fuel p outbuflen 0 [].

(** ** Histories of one DRNG

    The operations on the bookkeeping of one DRNG instance, and a
    sequence of them run in order. *)

Inductive drng_op :=
  | op_reset
  | op_inject (inbuf : list Byte.byte) (fully_seeded_arg : bool)
  | op_must_reseed.

Definition run_op (p : drng_ptr) (op : drng_op) : M unit :=
  match op with
  | op_reset => esdm_drng_reset p
  | op_inject inbuf fully_seeded_arg =>
      esdm_drng_inject p inbuf fully_seeded_arg
  | op_must_reseed => esdm_drng_must_reseed p;; mret tt
  end.

Fixpoint run_ops (p : drng_ptr) (ops : list drng_op) : M unit :=
  match ops with
  | [] => mret tt
  | op :: rest => run_op p op;; run_ops p rest
  end.

(** Whether [esdm_drng_inject] with [inbuf] seeds the instance [d]: the
    DRBG state is allocated and the seed callback does not return a
    value < 0. *)
Definition inject_seeds (d : esdm_drng) (inbuf : list Byte.byte) : bool :=
  match drng d, drng_cb d with
  | Some st, Some c => negb (fst (drng_seed c st inbuf) <? 0)
  | _, _ => false
  end.

(** The run of [run_ops] that also counts: started with [k], it returns
    the number of reseed tests made since the last reset or successful
    seed. *)
Fixpoint run_ops_counting (p : drng_ptr) (ops : list drng_op) (k : nat)
  : M nat :=
  match ops with
  | [] => mret k
  | op :: rest =>
      d ← load_drng p;
      run_op p op;;
      run_ops_counting p rest
        match op with
        | op_reset => 0%nat
        | op_inject inbuf _ => if inject_seeds d inbuf then 0%nat else k
        | op_must_reseed => S k
        end
  end.

(** What an operation on one DRNG leaves alone. *)
Definition same_env (s s' : esdm_mgr) : Prop :=
  mgr_config s' = mgr_config s /\
  esdm_drng_reseed_max_time s' = esdm_drng_reseed_max_time s /\
  esdm_avail s' = esdm_avail s /\
  esdm_drng_atomic s' = esdm_drng_atomic s /\
  es s' = es s /\
  ticks s' = ticks s.

End Manager.

Arguments Ok {drbg ES A} a s.
Arguments Fault {drbg ES A} f.

(** * More of the code

    The rest of atomic.h and helper.h, of the configuration facility and
    of the DRNG manager: the operations around the ones above. *)

(** ** atomic.h, continued *)

Definition atomic_add_and_test (v : atomic_t) (i : Z) : bool * atomic_t :=
  let v' := atomic_add v i in (v' =? 0, v').

Definition atomic_inc (v : atomic_t) : atomic_t := atomic_add v 1.

Definition atomic_inc_and_test (v : atomic_t) : bool * atomic_t :=
  atomic_add_and_test v 1.

Definition atomic_dec (v : atomic_t) : atomic_t := atomic_sub v 1.

(** The value returned (the original counter) and the new counter. *)
Definition atomic_cmpxchg (v : atomic_t) (old newval : Z) : Z * atomic_t :=
  (v, if v =? old then newval else v).

Definition atomic_xchg (v : atomic_t) (newval : Z) : Z * atomic_t :=
  (v, newval).

(** ** helper.h

    [aligned(ptr, alignmask)]: the pointer is its address, a
    [uintptr_t]. *)
Definition aligned (ptr alignmask : Z) : Z :=
  if negb (Z.land ptr (cast_u32 alignmask) =? 0) then 0 else 1.

(** ** esdm_config.c, continued *)

Definition set_drng_max_wo_reseed (v : Z) (c : esdm_config) : esdm_config :=
  {| esdm_es_cpu_entropy_rate_bits := esdm_es_cpu_entropy_rate_bits c;
     esdm_es_jent_entropy_rate_bits := esdm_es_jent_entropy_rate_bits c;
     esdm_es_krng_entropy_rate_bits := esdm_es_krng_entropy_rate_bits c;
     esdm_es_sched_entropy_rate_bits := esdm_es_sched_entropy_rate_bits c;
     esdm_drng_max_wo_reseed := v;
     esdm_max_nodes := esdm_max_nodes c;
     force_fips := force_fips c |}.

Definition set_max_nodes (v : Z) (c : esdm_config) : esdm_config :=
  {| esdm_es_cpu_entropy_rate_bits := esdm_es_cpu_entropy_rate_bits c;
     esdm_es_jent_entropy_rate_bits := esdm_es_jent_entropy_rate_bits c;
     esdm_es_krng_entropy_rate_bits := esdm_es_krng_entropy_rate_bits c;
     esdm_es_sched_entropy_rate_bits := esdm_es_sched_entropy_rate_bits c;
     esdm_drng_max_wo_reseed := esdm_drng_max_wo_reseed c;
     esdm_max_nodes := v;
     force_fips := force_fips c |}.

Definition set_force_fips (v : esdm_config_force_fips) (c : esdm_config)
  : esdm_config :=
  {| esdm_es_cpu_entropy_rate_bits := esdm_es_cpu_entropy_rate_bits c;
     esdm_es_jent_entropy_rate_bits := esdm_es_jent_entropy_rate_bits c;
     esdm_es_krng_entropy_rate_bits := esdm_es_krng_entropy_rate_bits c;
     esdm_es_sched_entropy_rate_bits := esdm_es_sched_entropy_rate_bits c;
     esdm_drng_max_wo_reseed := esdm_drng_max_wo_reseed c;
     esdm_max_nodes := esdm_max_nodes c;
     force_fips := v |}.

Section Services.

Context `{defs : esdm_definitions}.
Context {drbg entropy_buf ES : Type}.
Context `{env : @esdm_collaborators drbg entropy_buf ES}.

Local Abbreviation esdm_drng := (@esdm_drng drbg).
Local Abbreviation esdm_mgr := (@esdm_mgr drbg ES).
Local Abbreviation M := (@M drbg ES).

(** What these operations call and the sources do not contain: the FIPS
    status of the environment, the build switch for oversampling, the
    entropy source manager and the reset of the atomic DRNG (which, as a
    reset, may read the clock). *)
Class esdm_services := {
  (* whether ESDM_OVERSAMPLE_ENTROPY_SOURCES is defined *)
  ESDM_OVERSAMPLE_ENTROPY_SOURCES : bool;
  ESDM_INIT_ENTROPY_BITS : Z;
  fips_enabled : ES -> Z;
  esdm_es_reseed_wanted : ES -> bool;
  esdm_pool_all_nodes_seeded : bool -> ES -> ES;
  esdm_drng_atomic_reset : esdm_drng -> nat -> esdm_drng * nat;
  esdm_set_entropy_thresh : Z -> ES -> ES;
  esdm_reset_state : ES -> ES
}.

Context `{srv : esdm_services}.

(* only with ESDM_TESTMODE *)
Definition esdm_config_drng_max_wo_reseed_set (val : Z) : M unit :=
  modify (fun s => set_mgr_config
                     (set_drng_max_wo_reseed val (mgr_config s)) s).

(* only with ESDM_TESTMODE *)
Definition esdm_config_max_nodes_set (val : Z) : M unit :=
  modify (fun s => set_mgr_config (set_max_nodes val (mgr_config s)) s).

Definition esdm_config_force_fips_set (val : esdm_config_force_fips)
  : M unit :=
  modify (fun s => set_mgr_config (set_force_fips val (mgr_config s)) s).

Definition esdm_config_fips_enabled : M Z :=
  cfg ← gets mgr_config;
  match force_fips cfg with
  | esdm_config_force_fips_unset => gets (fun s => fips_enabled (es s))
  | esdm_config_force_fips_enabled => mret 1
  | esdm_config_force_fips_disabled => mret 0
  end.

Definition esdm_config_init : M Z :=
  modify (fun s => set_mgr_config
    (set_cpu_rate (esdm_config_entropy_rate_max
                     (esdm_es_cpu_entropy_rate_bits (mgr_config s)))
       (mgr_config s)) s);;
  modify (fun s => set_mgr_config
    (set_jent_rate (esdm_config_entropy_rate_max
                      (esdm_es_jent_entropy_rate_bits (mgr_config s)))
       (mgr_config s)) s);;
  modify (fun s => set_mgr_config
    (set_krng_rate (esdm_config_entropy_rate_max
                      (esdm_es_krng_entropy_rate_bits (mgr_config s)))
       (mgr_config s)) s);;
  modify (fun s => set_mgr_config
    (set_sched_rate (esdm_config_entropy_rate_max
                       (esdm_es_sched_entropy_rate_bits (mgr_config s)))
       (mgr_config s)) s);;
  fips ← esdm_config_fips_enabled;
  (if negb (fips =? 0) && (ESDM_JENT_ENTROPY_RATE >? 0)
   then
     rate ← esdm_config_es_jent_entropy_rate;
     if rate =? cast_u32 ESDM_JENT_ENTROPY_RATE
     then esdm_config_es_jent_entropy_rate_set ESDM_DRNG_SECURITY_STRENGTH_BITS
     else mret tt
   else mret tt);;
  mret 0.

(** ** esdm_drng_mgr.c, continued *)

Definition esdm_sp80090c_compliant : M Z :=
  if negb ESDM_OVERSAMPLE_ENTROPY_SOURCES then mret 0
  else esdm_config_fips_enabled.

(** The loop over the online nodes in [__esdm_drng_seed_work]; the
    result tells whether a DRNG was seeded ([goto out]). *)
Fixpoint esdm_drng_seed_work_nodes (nodes : list nat) : M bool :=
  match nodes with
  | [] => mret false
  | node :: rest =>
      arr ← gets esdm_drng_instances;
      match arr with
      | None => raise NullDeref
      | Some arr =>
          match arr !! node with
          | None => raise OutOfBounds
          | Some None => esdm_drng_seed_work_nodes rest
          | Some (Some d) =>
              if negb (fully_seeded d) then
                esdm_drng_seed_work_one (node_ptr node) (Z.of_nat node);;
                mret true
              else esdm_drng_seed_work_nodes rest
          end
      end
  end.

Definition __esdm_drng_seed_work : M unit :=
  instances ← gets esdm_drng_instances;
  seeded ← match instances with
           | Some _ =>
               online ← esdm_config_online_nodes;
               esdm_drng_seed_work_nodes (seq 0 (Z.to_nat online))
           | None =>
               init ← gets esdm_drng_init;
               if negb (fully_seeded init) then
                 esdm_drng_seed_work_one init_ptr 0;; mret true
               else mret false
           end;
  if (seeded : bool) then mret tt
  else modify (fun s => set_es (esdm_pool_all_nodes_seeded true (es s)) s).

(** The [do ... while (esdm_es_reseed_wanted())] loop; every pass uses
    one unit of [fuel]. *)
Fixpoint _esdm_drng_seed_work (fuel : nat) : M Z :=
  match fuel with
  | O => raise OutOfFuel
  | S fuel =>
      __esdm_drng_seed_work;;
      wanted ← gets (fun s => esdm_es_reseed_wanted (es s));
      if (wanted : bool) then _esdm_drng_seed_work fuel
      else
        (* Allow the seeding operation to be called again *)
        modify (fun s => set_es (esdm_pool_unlock (es s)) s);;
        mret 0
  end.

Definition esdm_drng_seed_work (fuel : nat) : M unit :=
  ret ← _esdm_drng_seed_work fuel;
  if negb (ret =? 0)
  then modify (fun s => set_es (esdm_pool_unlock (es s)) s)
  else mret tt.

Definition esdm_drng_get_sleep (fuel : nat)
  (outbuf : option (list Byte.byte)) (outbuflen : Z)
  : M (Z * list Byte.byte) :=
  instances ← gets esdm_drng_instances;
  node ← esdm_config_curr_node;
  p ← match instances with
      | None => mret init_ptr
      | Some arr =>
          match arr !! Z.to_nat node with
          | None => raise OutOfBounds
          | Some None => mret init_ptr
          | Some (Some d) =>
              mret (if fully_seeded d then node_ptr (Z.to_nat node)
                    else init_ptr)
          end
      end;
  ret ← esdm_drng_mgr_initalize;
  if negb (ret =? 0) then mret (ret, [])
  else esdm_drng_get fuel p outbuf outbuflen.

(** Reset ESDM such that all existing entropy is gone. *)
Definition _esdm_reset : M Z :=
  instances ← gets esdm_drng_instances;
  match instances with
  | None => esdm_drng_reset init_ptr
  | Some _ =>
      for_each_online_node (fun cpu =>
        arr ← gets esdm_drng_instances;
        match arr with
        | None => raise NullDeref
        | Some arr =>
            match arr !! cpu with
            | None => raise OutOfBounds
            | Some None => mret tt
            | Some (Some _) => esdm_drng_reset (node_ptr cpu)
            end
        end)
  end;;
  modify (fun s =>
    let '(atomic', tk') :=
      esdm_drng_atomic_reset (esdm_drng_atomic s) (ticks s) in
    set_ticks tk' (set_esdm_drng_atomic atomic' s));;
  modify (fun s =>
    set_es (esdm_set_entropy_thresh ESDM_INIT_ENTROPY_BITS (es s)) s);;
  modify (fun s => set_es (esdm_reset_state (es s)) s);;
  mret 0.

(** [esdm_get_random_bytes(buf, nbytes)]: the length is converted to
    [uint32_t]. *)
Definition esdm_get_random_bytes (fuel : nat)
  (buf : option (list Byte.byte)) (nbytes : Z) : M (Z * list Byte.byte) :=
  esdm_drng_get_sleep fuel buf (cast_u32 nbytes).

End Services.

(** * A test double

    A build configuration and collaborators to run the manager on: a
    counter for a DRBG, a clock that starts at 1000 and advances by one
    second per reading, two online nodes, and entropy sources that
    deliver full entropy when their state [ES] is [true]. *)

Definition test_definitions : esdm_definitions :=
  {| ESDM_DRNG_SECURITY_STRENGTH_BITS := 256;
     ESDM_DRNG_SECURITY_STRENGTH_BYTES := 32;
     ESDM_DRNG_RESEED_THRESH := 2 ^ 20;
     ESDM_DRNG_MAX_WITHOUT_RESEED := 2 ^ 30;
     ESDM_DRNG_MAX_REQSIZE := 2 ^ 12;
     ESDM_CPU_ENTROPY_RATE := 8;
     ESDM_JENT_ENTROPY_RATE := 16;
     ESDM_KERNEL_RNG_ENTROPY_RATE := 128;
     ESDM_SCHED_ENTROPY_RATE := 0 |}.

(** A DRBG callback whose seed function returns [seed_ret]. *)
Definition test_drng_cb (seed_ret : Z) : @esdm_drng_cb Z :=
  {| drng_alloc := fun _ _ => (0, Some 0);
     drng_seed := fun st _ => (seed_ret, st + 1);
     drng_generate := fun st n =>
       (n, replicate (Z.to_nat n) Byte.x00, st);
     drng_dealloc := fun _ => tt;
     drng_selftest := Some 0 |}.

Definition test_hash_cb (selftest : option Z) : esdm_hash_cb :=
  {| hash_selftest := selftest |}.

Definition test_collaborators : @esdm_collaborators Z bool bool :=
  {| clock := fun n => 1000 + Z.of_nat n;
     esdm_builtin_sha512_cb := test_hash_cb (Some 0);
     esdm_builtin_hash_drbg_cb := test_drng_cb 0;
     esdm_online_nodes := fun _ => 2;
     esdm_curr_node := fun _ => 0;
     esdm_es_add_entropy := fun e => e;
     esdm_get_seed_entropy_osr := fun _ fs => if fs then 256 else 384;
     esdm_fill_seed_buffer := fun _ _ e => (e, e);
     entropy_buf_bytes := fun _ => [];
     esdm_fully_seeded_eb := fun _ _ eb => eb;
     esdm_init_ops := fun _ _ e => e;
     esdm_pool_trylock := fun e => (0, e);
     esdm_pool_unlock := fun e => e;
     thread_queue_sleeper := fun _ => false;
     esdm_drng_atomic_seed_drng := fun _ st atomic tk => (st, atomic, tk);
     esdm_drng_atomic_seed_es := fun _ e atomic tk => (e, atomic, tk) |}.

(** An allocated DRNG instance. *)
Definition test_drng (seed_ret : Z) (selftest : option Z)
  (reqs requests_since : Z) (fully_seeded_flag force_reseed_flag : bool)
  : @esdm_drng Z :=
  {| drng := Some 0;
     drng_cb := Some (test_drng_cb seed_ret);
     hash_cb := Some (test_hash_cb selftest);
     requests := reqs;
     requests_since_fully_seeded := requests_since;
     last_seeded := 900;
     fully_seeded := fully_seeded_flag;
     force_reseed := force_reseed_flag |}.

(** A state of the manager around an initial DRNG [init]: [avail] is
    the value of [esdm_avail], [instances] the per-node array and
    [full] the state of the entropy sources. *)
Definition test_mgr (avail : Z) (init : @esdm_drng Z)
  (instances : option (list (option (@esdm_drng Z)))) (full : bool)
  : @esdm_mgr Z bool :=
  {| mgr_config := @esdm_config_initial test_definitions;
     esdm_drng_reseed_max_time := esdm_drng_reseed_max_time_init;
     esdm_avail := avail;
     esdm_drng_init := init;
     esdm_drng_instances := instances;
     esdm_drng_atomic := test_drng 0 (Some 0) (2 ^ 20) 0 false false;
     es := full;
     ticks := 0 |}.

Definition test_services : @esdm_services Z bool :=
  {| ESDM_OVERSAMPLE_ENTROPY_SOURCES := true;
     ESDM_INIT_ENTROPY_BITS := 32;
     fips_enabled := fun _ => 0;
     esdm_es_reseed_wanted := fun _ => false;
     esdm_pool_all_nodes_seeded := fun _ e => e;
     esdm_drng_atomic_reset := fun atomic tk => (atomic, tk);
     esdm_set_entropy_thresh := fun _ e => e;
     esdm_reset_state := fun e => e |}.

(** A DRBG callback whose allocation fails with -ENOMEM, and the
    collaborators that have it for the built-in DRBG. *)
Definition test_drng_cb_alloc_failing : @esdm_drng_cb Z :=
  {| drng_alloc := fun _ _ => (-12, None);
     drng_seed := fun st _ => (0, st + 1);
     drng_generate := fun st n =>
       (n, replicate (Z.to_nat n) Byte.x00, st);
     drng_dealloc := fun _ => tt;
     drng_selftest := Some 0 |}.

Definition test_collaborators_alloc_failing
  : @esdm_collaborators Z bool bool :=
  {| clock := fun n => 1000 + Z.of_nat n;
     esdm_builtin_sha512_cb := test_hash_cb (Some 0);
     esdm_builtin_hash_drbg_cb := test_drng_cb_alloc_failing;
     esdm_online_nodes := fun _ => 2;
     esdm_curr_node := fun _ => 0;
     esdm_es_add_entropy := fun e => e;
     esdm_get_seed_entropy_osr := fun _ fs => if fs then 256 else 384;
     esdm_fill_seed_buffer := fun _ _ e => (e, e);
     entropy_buf_bytes := fun _ => [];
     esdm_fully_seeded_eb := fun _ _ eb => eb;
     esdm_init_ops := fun _ _ e => e;
     esdm_pool_trylock := fun e => (0, e);
     esdm_pool_unlock := fun e => e;
     thread_queue_sleeper := fun _ => false;
     esdm_drng_atomic_seed_drng := fun _ st atomic tk => (st, atomic, tk);
     esdm_drng_atomic_seed_es := fun _ e atomic tk => (e, atomic, tk) |}.

(** An initial DRNG before the initialisation: the DRBG and the DRNG
    callback are NULL, as the static initialiser of [esdm_drng_init]
    passes them, and the hash is the built-in one. *)
Definition test_drng_static : @esdm_drng Z :=
  {| drng := None;
     drng_cb := None;
     hash_cb := Some (test_hash_cb (Some 0));
     requests := 2 ^ 20;
     requests_since_fully_seeded := 0;
     last_seeded := 0;
     fully_seeded := false;
     force_reseed := true |}.

(** * Properties *)

Section Properties.

Context `{defs : esdm_definitions}.
Context {drbg entropy_buf ES : Type}.
Context `{env : @esdm_collaborators drbg entropy_buf ES}.

Local Abbreviation esdm_drng := (@esdm_drng drbg).
Local Abbreviation esdm_drng_cb := (@esdm_drng_cb drbg).
Local Abbreviation esdm_mgr := (@esdm_mgr drbg ES).

(** One step into a sequence of operations. *)
Ltac bind_step := unfold mbind at 1, M_bind at 1.

(** ** Machine arithmetic *)

Lemma wrap_int_id z : in_int z -> wrap_int z = z.
Proof.
  unfold in_int, INT_MIN, INT_MAX, wrap_int. intros Hz.
  rewrite Z.mod_small by lia. lia.
Qed.

Lemma wrap_int_range z : in_int (wrap_int z).
Proof.
  unfold in_int, INT_MIN, INT_MAX, wrap_int.
  pose proof (Z.mod_pos_bound (z + 2 ^ 31) (2 ^ 32)). lia.
Qed.

Lemma cast_u32_wrap_int z : cast_u32 (wrap_int z) = cast_u32 z.
Proof.
  unfold cast_u32, wrap_int.
  rewrite Zminus_mod, Zmod_mod, <- Zminus_mod.
  f_equal. lia.
Qed.

Lemma cast_u32_id z : in_u32 z -> cast_u32 z = z.
Proof. unfold in_u32, cast_u32. intros. apply Z.mod_small. lia. Qed.

Lemma cast_u32_add_l a b : cast_u32 (cast_u32 a + b) = cast_u32 (a + b).
Proof. unfold cast_u32. apply Zplus_mod_idemp_l. Qed.

Lemma cast_u32_add_wrap a b :
  cast_u32 (a + wrap_int b) = cast_u32 (cast_u32 a + b).
Proof.
  rewrite cast_u32_add_l. unfold cast_u32 at 1. rewrite Zplus_mod.
  fold (cast_u32 (wrap_int b)). rewrite cast_u32_wrap_int.
  unfold cast_u32. by rewrite <- Zplus_mod.
Qed.

(** ** The state behind a pointer *)

Lemma load_drng_state p (s : esdm_mgr) (d : esdm_drng) s' : load_drng p s = Ok d s' -> s' = s.
Proof.
  destruct p as [|n]; cbn; [congruence|].
  destruct (esdm_drng_instances s) as [arr|]; [|discriminate].
  destruct (arr !! n) as [[d0|]|]; congruence.
Qed.

Lemma load_drng_frame p (s s' : esdm_mgr) :
  esdm_drng_init s' = esdm_drng_init s ->
  esdm_drng_instances s' = esdm_drng_instances s ->
  load_drng p s' =
    match load_drng p s with Ok d _ => Ok d s' | Fault f => Fault f end.
Proof.
  intros Hi Ha. destruct p as [|n]; cbn; rewrite ?Hi, ?Ha; [done|].
  destruct (esdm_drng_instances s) as [arr|]; [|done].
  by destruct (arr !! n) as [[d0|]|].
Qed.

Lemma store_drng_spec p (s : esdm_mgr) (d0 d : esdm_drng) :
  load_drng p s = Ok d0 s ->
  exists s', store_drng p d s = Ok tt s' /\ load_drng p s' = Ok d s' /\
             same_env s s'.
Proof.
  destruct p as [|n]; cbn.
  - intros _. eexists. split; [done|]. by repeat split.
  - destruct (esdm_drng_instances s) as [arr|] eqn:Ha; [|discriminate].
    destruct (arr !! n) as [[d1|]|] eqn:Hn; try discriminate.
    intros _. eexists. split; [done|]. split; [|by repeat split].
    cbn. rewrite list_lookup_insert_eq; [done|].
    by eapply lookup_lt_Some.
Qed.

(** ** Reading the clock *)

Lemma esdm_time_after_now_run base (s : esdm_mgr) :
  esdm_time_after_now base s =
    Ok (let curr := clock (ticks s) in
        if curr =? -1 then 0
        else if esdm_time_after curr base then curr - base else 0)
       (set_ticks (S (ticks s)) s).
Proof.
  unfold esdm_time_after_now, mbind, M_bind, time_NULL. cbn.
  by destruct (clock (ticks s) =? -1).
Qed.

(** ** Seed injection *)

(** The run of an injection whose seed callback succeeds, field by
    field, in the operations of the code. *)
Lemma esdm_drng_inject_seeded p (s : esdm_mgr) (d : esdm_drng) st c
  inbuf fs ret st' :
  load_drng p s = Ok d s ->
  drng d = Some st ->
  drng_cb d = Some c ->
  drng_seed c st inbuf = (ret, st') ->
  0 <= ret ->
  exists s' d',
    esdm_drng_inject p inbuf fs s = Ok tt s' /\
    load_drng p s' = Ok d' s' /\
    requests d' = atomic_set (requests d) ESDM_DRNG_RESEED_THRESH /\
    last_seeded d' = clock (S (ticks s)) /\
    force_reseed d' = false /\
    requests_since_fully_seeded d' =
      (if fs then atomic_set (requests_since_fully_seeded d) 0
       else atomic_add (requests_since_fully_seeded d)
              (wrap_int (ESDM_DRNG_RESEED_THRESH
                         - atomic_read (requests d)))) /\
    fully_seeded d' = (if fully_seeded d then true else fs).
Proof.
  intros Hl Hd Hc Hs Hr.
  unfold esdm_drng_inject. bind_step.
  rewrite Hl, Hd, Hc, Hs.
  destruct (ret <? 0) eqn:E; [lia|].
  unfold mbind, M_bind. rewrite esdm_time_after_now_run.
  cbn [time_NULL ticks set_ticks]. cbn.
  match goal with
  | |- context [store_drng p ?x ?s1] =>
      destruct (store_drng_spec p s1 d x) as (s' & Hst & Hld & _)
  end.
  { rewrite (load_drng_frame p s) by done. by rewrite Hl. }
  eexists s', _. split; [exact Hst|]. split; [exact Hld|].
  destruct (fully_seeded d) eqn:Hfs; cbn; by rewrite ?Hfs.
Qed.

(** The run of an injection whose seed callback fails. *)
Lemma esdm_drng_inject_failed p (s : esdm_mgr) (d : esdm_drng) st c
  inbuf fs ret st' :
  load_drng p s = Ok d s ->
  drng d = Some st ->
  drng_cb d = Some c ->
  drng_seed c st inbuf = (ret, st') ->
  ret < 0 ->
  exists s',
    esdm_drng_inject p inbuf fs s = Ok tt s' /\
    load_drng p s' = Ok (set_force_reseed true (set_drng (Some st') d)) s'.
Proof.
  intros Hl Hd Hc Hs Hr.
  unfold esdm_drng_inject. bind_step.
  rewrite Hl, Hd, Hc, Hs.
  destruct (ret <? 0) eqn:E; [|lia].
  match goal with
  | |- context [store_drng p ?x ?s1] =>
      destruct (store_drng_spec p s1 d x) as (s' & Hst & Hld & _);
        [exact Hl|]
  end.
  by exists s'.
Qed.

(** C3: when the DRBG state is allocated and the seed callback returns a
    value >= 0, [esdm_drng_inject] returns with [requests] at
    ESDM_DRNG_RESEED_THRESH, [last_seeded] at the time read for it (the
    second reading of the clock in the call; the first one feeds the
    debug message), [force_reseed] cleared, [requests_since_fully_seeded]
    zero when the flag is set and otherwise increased, in the unsigned
    32-bit arithmetic of the counter, by ESDM_DRNG_RESEED_THRESH minus the
    earlier [requests] (exactly so, as integers, when neither the
    difference nor the sum leaves the range of [int]), and [fully_seeded]
    the disjunction of its earlier value and the flag. *)
Theorem esdm_drng_inject_success p (s : esdm_mgr) (d : esdm_drng) st c
  inbuf fs ret st' :
  load_drng p s = Ok d s ->
  drng d = Some st ->
  drng_cb d = Some c ->
  drng_seed c st inbuf = (ret, st') ->
  0 <= ret ->
  exists s' d',
    esdm_drng_inject p inbuf fs s = Ok tt s' /\
    load_drng p s' = Ok d' s' /\
    requests d' = ESDM_DRNG_RESEED_THRESH /\
    last_seeded d' = clock (S (ticks s)) /\
    force_reseed d' = false /\
    (fs = true -> requests_since_fully_seeded d' = 0) /\
    (fs = false ->
     atomic_read_u32 (requests_since_fully_seeded d') =
       cast_u32 (atomic_read_u32 (requests_since_fully_seeded d)
                 + (ESDM_DRNG_RESEED_THRESH - requests d))) /\
    (fs = false ->
     in_int (ESDM_DRNG_RESEED_THRESH - requests d) ->
     in_int (requests_since_fully_seeded d
             + (ESDM_DRNG_RESEED_THRESH - requests d)) ->
     requests_since_fully_seeded d' =
       requests_since_fully_seeded d
       + (ESDM_DRNG_RESEED_THRESH - requests d)) /\
    fully_seeded d' = fully_seeded d || fs.
Proof.
  intros Hl Hd Hc Hs Hr.
  destruct (esdm_drng_inject_seeded p s d st c inbuf fs ret st' Hl Hd Hc Hs Hr)
    as (s' & d' & Hrun & Hl' & Hq & Hls & Hfr & Hrs & Hfs).
  exists s', d'. do 5 (split; [assumption|]).
  unfold atomic_set, atomic_add, atomic_read in Hrs.
  split; [|split; [|split]].
  - intros ->. exact Hrs.
  - intros ->. rewrite Hrs. unfold atomic_read_u32, atomic_read.
    rewrite cast_u32_wrap_int. apply cast_u32_add_wrap.
  - intros -> Hgc Hsum. rewrite Hrs, (wrap_int_id _ Hgc).
    by apply wrap_int_id.
  - rewrite Hfs. by destruct (fully_seeded d).
Qed.

(** C4: when the DRBG state is allocated and the seed callback returns a
    negative value, [esdm_drng_inject] returns with [force_reseed] set
    and with [fully_seeded], [requests], [requests_since_fully_seeded]
    and [last_seeded] as they were. *)
Theorem esdm_drng_inject_failure p (s : esdm_mgr) (d : esdm_drng) st c
  inbuf fs ret st' :
  load_drng p s = Ok d s ->
  drng d = Some st ->
  drng_cb d = Some c ->
  drng_seed c st inbuf = (ret, st') ->
  ret < 0 ->
  exists s' d',
    esdm_drng_inject p inbuf fs s = Ok tt s' /\
    load_drng p s' = Ok d' s' /\
    force_reseed d' = true /\
    fully_seeded d' = fully_seeded d /\
    requests d' = requests d /\
    requests_since_fully_seeded d' = requests_since_fully_seeded d /\
    last_seeded d' = last_seeded d.
Proof.
  intros Hl Hd Hc Hs Hr.
  destruct (esdm_drng_inject_failed p s d st c inbuf fs ret st' Hl Hd Hc Hs Hr)
    as (s' & Hrun & Hl').
  exists s', (set_force_reseed true (set_drng (Some st') d)).
  split; [exact Hrun|]. split; [exact Hl'|]. by repeat split.
Qed.

(** An unallocated DRNG is left alone by the injection. *)
Lemma esdm_drng_inject_unallocated p (s : esdm_mgr) (d : esdm_drng)
  inbuf fs :
  load_drng p s = Ok d s -> drng d = None ->
  esdm_drng_inject p inbuf fs s = Ok tt s.
Proof.
  intros Hl Hd. unfold esdm_drng_inject, mbind, M_bind.
  by rewrite Hl, Hd.
Qed.

(** ** The reseed test *)

Lemma esdm_time_after_now_nonzero curr base :
  -1 <= curr -> -1 <= base ->
  (if curr =? -1 then 0
   else if esdm_time_after curr base then curr - base else 0) <> 0
  <-> base < curr.
Proof.
  intros Hc Hb. unfold esdm_time_after.
  destruct (curr =? -1) eqn:E1; [lia|].
  destruct (base =? -1) eqn:E2; [lia|].
  destruct (curr >? base) eqn:E3; lia.
Qed.

Lemma dec_reaches_zero r : in_int r -> wrap_int (r - 1) = 0 <-> r - 1 = 0.
Proof.
  intros Hr. destruct (Z.eq_dec r INT_MIN) as [->|Hne].
  - unfold wrap_int, INT_MIN. split; [|lia].
    intros H. exfalso. revert H. by vm_compute.
  - rewrite wrap_int_id; [done|]. unfold in_int, INT_MIN, INT_MAX in *. lia.
Qed.

(** C5: on a DRNG whose [requests] counter holds an [int], with the
    clock and [last_seeded] in the range of [time()] (a number of seconds
    that is not negative, or -1) and a maximum reseed time that is not
    negative, [esdm_drng_must_reseed] returns true exactly when
    decrementing [requests] reaches zero, or [force_reseed] is set, or
    the current time exceeds [last_seeded + esdm_drng_reseed_max_time];
    the variable is initialised to 600. *)
Theorem esdm_drng_must_reseed_iff p (s : esdm_mgr) (d : esdm_drng) :
  load_drng p s = Ok d s ->
  in_int (requests d) ->
  -1 <= clock (ticks s) ->
  -1 <= last_seeded d ->
  0 <= esdm_drng_reseed_max_time s ->
  exists b s',
    esdm_drng_must_reseed p s = Ok b s' /\
    (b = true <->
       requests d - 1 = 0 \/
       force_reseed d = true \/
       last_seeded d + esdm_drng_reseed_max_time s < clock (ticks s)) /\
    (esdm_drng_reseed_max_time s = esdm_drng_reseed_max_time_init ->
     (b = true <->
        requests d - 1 = 0 \/
        force_reseed d = true \/
        last_seeded d + 600 < clock (ticks s))).
Proof.
  intros Hl Hr Hc Hb Hm.
  assert (Hgen : exists b s',
    esdm_drng_must_reseed p s = Ok b s' /\
    (b = true <->
       requests d - 1 = 0 \/
       force_reseed d = true \/
       last_seeded d + esdm_drng_reseed_max_time s < clock (ticks s))).
  { unfold esdm_drng_must_reseed. bind_step.
    rewrite Hl. cbn [atomic_dec_and_test atomic_sub_and_test atomic_sub].
    bind_step.
    match goal with
    | |- context [store_drng p ?x ?s1] =>
        destruct (store_drng_spec p s1 d x) as (s1' & Hst & Hld & He);
          [exact Hl|]
    end.
    rewrite Hst. destruct He as (_ & Hmt & _ & _ & _ & Htk).
    pose proof (dec_reaches_zero _ Hr) as Hz. unfold atomic_sub.
    destruct (wrap_int (requests d - 1) =? 0) eqn:E.
    - eexists true, _. split; [done|]. split; [lia|done].
    - destruct (force_reseed d) eqn:Ef.
      + eexists true, _. split; [done|]. split; [by auto|done].
      + unfold mbind, M_bind, gets. rewrite esdm_time_after_now_run.
        eexists _, _. split; [done|]. cbn zeta. rewrite Hmt, Htk.
        rewrite negb_true_iff, Z.eqb_neq.
        rewrite esdm_time_after_now_nonzero by lia.
        split; [by auto|]. intros [?|[?|?]]; [lia|done|done]. }
  destruct Hgen as (b & s' & Hrun & Hiff).
  exists b, s'. split; [done|]. split; [done|].
  intros Hinit. rewrite Hinit in Hiff. exact Hiff.
Qed.

(** ** Configuration *)

Lemma esdm_config_entropy_rate_max_min v :
  in_u32 v -> in_u32 ESDM_DRNG_SECURITY_STRENGTH_BITS ->
  esdm_config_entropy_rate_max v = Z.min v ESDM_DRNG_SECURITY_STRENGTH_BITS.
Proof.
  intros Hv Hb. unfold esdm_config_entropy_rate_max, min_t_u32.
  rewrite !cast_u32_id by done. apply Z.min_comm.
Qed.

(** C8: for a [uint32_t] value [v] (and a security strength that fits a
    [uint32_t]), setting the entropy rate of a source to [v] and reading
    it back gives [min(v, ESDM_DRNG_SECURITY_STRENGTH_BITS)], for each of
    the four sources: CPU, Jitter RNG, kernel RNG and scheduler. *)
Theorem esdm_config_entropy_rate_set_get v (s : esdm_mgr) :
  in_u32 v ->
  in_u32 ESDM_DRNG_SECURITY_STRENGTH_BITS ->
  (exists s', (esdm_config_es_cpu_entropy_rate_set v;;
               esdm_config_es_cpu_entropy_rate) s
              = Ok (Z.min v ESDM_DRNG_SECURITY_STRENGTH_BITS) s') /\
  (exists s', (esdm_config_es_jent_entropy_rate_set v;;
               esdm_config_es_jent_entropy_rate) s
              = Ok (Z.min v ESDM_DRNG_SECURITY_STRENGTH_BITS) s') /\
  (exists s', (esdm_config_es_krng_entropy_rate_set v;;
               esdm_config_es_krng_entropy_rate) s
              = Ok (Z.min v ESDM_DRNG_SECURITY_STRENGTH_BITS) s') /\
  (exists s', (esdm_config_es_sched_entropy_rate_set v;;
               esdm_config_es_sched_entropy_rate) s
              = Ok (Z.min v ESDM_DRNG_SECURITY_STRENGTH_BITS) s').
Proof.
  intros Hv Hb.
  pose proof (esdm_config_entropy_rate_max_min v Hv Hb) as Hmin.
  repeat split; eexists; rewrite <- Hmin; reflexivity.
Qed.

(** ** Requests for random data *)

(** C10: with a NULL output buffer or a length of zero [esdm_drng_get]
    returns 0 and leaves the whole state of the manager as it is,
    whatever the DRNG and whether or not the manager is available: the
    test precedes the availability test, so the call does not return
    -EOPNOTSUPP. *)
Theorem esdm_drng_get_nothing_requested fuel p outbuf outbuflen
  (s : esdm_mgr) :
  outbuf = None \/ outbuflen = 0 ->
  esdm_drng_get fuel p outbuf outbuflen s = Ok (0, []) s.
Proof.
  intros [-> | ->]; unfold esdm_drng_get; [done|].
  by destruct outbuf.
Qed.

Lemma esdm_get_available_run (s : esdm_mgr) :
  esdm_get_available s = Ok (negb (esdm_avail s =? 0)) s.
Proof. done. Qed.

(** *** The generation loop does not demote

    The reseed test, the seeding and the generation loop leave a fully
    seeded instance fully seeded. *)

Lemma esdm_drng_must_reseed_state p (s : esdm_mgr) (d : esdm_drng) :
  load_drng p s = Ok d s ->
  exists b s',
    esdm_drng_must_reseed p s = Ok b s' /\
    load_drng p s' = Ok (set_requests (wrap_int (requests d - 1)) d) s'.
Proof.
  intros Hl. unfold esdm_drng_must_reseed. bind_step.
  rewrite Hl. cbn [atomic_dec_and_test atomic_sub_and_test].
  bind_step.
  match goal with
  | |- context [store_drng p ?x ?s1] =>
      destruct (store_drng_spec p s1 d x) as (s1' & Hst & Hld & He);
        [exact Hl|]
  end.
  rewrite Hst. cbn zeta.
  destruct (atomic_sub (requests d) 1 =? 0);
    [eexists _, _; split; [reflexivity|exact Hld]|].
  destruct (force_reseed d);
    [eexists _, _; split; [reflexivity|exact Hld]|].
  unfold mbind, M_bind, gets. rewrite esdm_time_after_now_run.
  eexists _, _. split; [reflexivity|].
  rewrite (load_drng_frame p s1') by done. by rewrite Hld.
Qed.

Lemma esdm_drng_inject_keeps p (s s' : esdm_mgr) (d : esdm_drng) inbuf fs :
  load_drng p s = Ok d s ->
  esdm_drng_inject p inbuf fs s = Ok tt s' ->
  exists d',
    load_drng p s' = Ok d' s' /\
    (fully_seeded d = true -> fully_seeded d' = true).
Proof.
  intros Hl Hrun. destruct (drng d) as [st|] eqn:Hd.
  - destruct (drng_cb d) as [c|] eqn:Hc.
    + destruct (drng_seed c st inbuf) as [ret st'] eqn:Hs.
      destruct (Z_lt_le_dec ret 0) as [Hneg|Hpos].
      * destruct (esdm_drng_inject_failed p s d st c inbuf fs ret st'
                    Hl Hd Hc Hs Hneg) as (s1 & Hr & Hl1).
        rewrite Hr in Hrun. injection Hrun as <-. by eexists.
      * destruct (esdm_drng_inject_seeded p s d st c inbuf fs ret st'
                    Hl Hd Hc Hs Hpos)
          as (s1 & d1 & Hr & Hl1 & _ & _ & _ & _ & Hfs).
        rewrite Hr in Hrun. injection Hrun as <-. exists d1.
        split; [done|]. intros Hf. by rewrite Hfs, Hf.
    + exfalso. revert Hrun. unfold esdm_drng_inject, mbind, M_bind.
      by rewrite Hl, Hd, Hc.
  - rewrite (esdm_drng_inject_unallocated p s d inbuf fs Hl Hd) in Hrun.
    injection Hrun as <-. by exists d.
Qed.

Lemma esdm_drng_seed_keeps p (s s' : esdm_mgr) (d : esdm_drng) :
  load_drng p s = Ok d s ->
  esdm_drng_seed p s = Ok tt s' ->
  exists d',
    load_drng p s' = Ok d' s' /\
    (fully_seeded d = true -> fully_seeded d' = true).
Proof.
  intros Hl. unfold esdm_drng_seed. bind_step.
  rewrite esdm_get_available_run. destruct (negb (esdm_avail s =? 0)).
  - bind_step. unfold esdm_drng_seed_es. bind_step. rewrite Hl.
    bind_step. unfold gets at 1. bind_step. unfold gets at 1.
    destruct (esdm_fill_seed_buffer _ _ _) as [seedbuf e'].
    bind_step. unfold modify at 1. bind_step.
    match goal with
    | |- context [esdm_drng_inject p ?b ?f ?sa] =>
        destruct (esdm_drng_inject p b f sa) as [[] sb|] eqn:Hinj;
          [|discriminate];
        destruct (esdm_drng_inject_keeps p sa sb d b f) as (db & Hlb & Hkb);
          [by rewrite (load_drng_frame p s), Hl | exact Hinj |]
    end.
    unfold modify at 1. bind_step.
    match goal with
    | |- context [load_drng p ?sc] =>
        assert (Hlc : load_drng p sc = Ok db sc)
          by (by rewrite (load_drng_frame p sb), Hlb)
    end.
    rewrite Hlc. bind_step. unfold gets at 1. bind_step. unfold gets at 1.
    destruct (esdm_drng_atomic_seed_drng _ _ _ _) as [[sta atomic'] tk'].
    bind_step.
    match goal with
    | |- context [store_drng p ?x ?sc] =>
        destruct (store_drng_spec p sc db x Hlc) as (sd & Hst & Hld & _)
    end.
    rewrite Hst. unfold mbind, M_bind, modify. intros [= <-].
    eexists. split; [by rewrite (load_drng_frame p sd), Hld|exact Hkb].
  - bind_step. unfold gets at 1.
    destruct (negb (thread_queue_sleeper (es s)));
      unfold modify; intros [= <-]; exists d; split; try done.
    + destruct (esdm_drng_atomic_seed_es _ _ _ _) as [[e' atomic'] tk'].
      by rewrite (load_drng_frame p s), Hl.
    + by rewrite (load_drng_frame p s), Hl.
Qed.

Lemma esdm_drng_get_loop_keeps fuel p :
  forall outbuflen processed data (s s' : esdm_mgr) (d : esdm_drng) r,
    load_drng p s = Ok d s ->
    esdm_drng_get_loop fuel p outbuflen processed data s = Ok r s' ->
    exists d',
      load_drng p s' = Ok d' s' /\
      (fully_seeded d = true -> fully_seeded d' = true).
Proof.
  induction fuel as [|fuel IH]; intros outbuflen processed data s s' d r Hl;
    cbn [esdm_drng_get_loop].
  - destruct (outbuflen =? 0); [|discriminate].
    intros [= _ <-]. by exists d.
  - destruct (outbuflen =? 0); [intros [= _ <-]; by exists d|].
    bind_step.
    destruct (esdm_drng_must_reseed_state p s d Hl) as (b & s1 & Hm & Hl1).
    rewrite Hm. bind_step.
    assert (Hstep : forall (s2 : esdm_mgr),
      (if b
       then
         ('(locked, e') ← gets (fun s => esdm_pool_trylock (es s));
          modify (set_es e');;
          if negb (locked =? 0)
          then d ← load_drng p; store_drng p (set_force_reseed true d)
          else esdm_drng_seed p;;
               modify (fun s => set_es (esdm_pool_unlock (es s)) s))
       else mret tt) s1 = Ok tt s2 ->
      exists d2, load_drng p s2 = Ok d2 s2 /\
                 (fully_seeded d = true -> fully_seeded d2 = true)).
    { intros s2. destruct b; [|intros [= <-]; by eexists].
      bind_step. unfold gets at 1.
      destruct (esdm_pool_trylock (es s1)) as [locked e'].
      bind_step. unfold modify at 1.
      match goal with
      | |- context [set_es e' s1] =>
          assert (Hla : load_drng p (set_es e' s1)
                        = Ok (set_requests (wrap_int (requests d - 1)) d)
                             (set_es e' s1))
            by (by rewrite (load_drng_frame p s1), Hl1)
      end.
      destruct (negb (locked =? 0)).
      - bind_step. rewrite Hla.
        match goal with
        | |- context [store_drng p ?x ?sa] =>
            destruct (store_drng_spec p sa _ x Hla) as (sb & Hst & Hlb & _)
        end.
        rewrite Hst. intros [= <-]. by eexists.
      - bind_step.
        destruct (esdm_drng_seed p (set_es e' s1)) as [[] sb|] eqn:Hseed;
          [|discriminate].
        destruct (esdm_drng_seed_keeps p _ sb _ Hla Hseed) as (db & Hlb & Hkb).
        unfold modify. intros [= <-]. exists db. split; [|exact Hkb].
        by rewrite (load_drng_frame p sb), Hlb. }
    match goal with
    | |- context [(if b then ?x else ?y) s1] =>
        destruct ((if b then x else y) s1) as [[] s2|] eqn:Hif;
          [|discriminate]
    end.
    destruct (Hstep s2 eq_refl) as (d2 & Hl2 & Hk2).
    bind_step. rewrite Hl2.
    destruct (drng_cb d2) as [c|]; [|discriminate].
    destruct (drng_generate c (drng d2) _) as [[ret out] st].
    bind_step.
    match goal with
    | |- context [store_drng p ?x s2] =>
        destruct (store_drng_spec p s2 d2 x Hl2) as (s3 & Hst & Hl3 & _)
    end.
    rewrite Hst. destruct (ret <=? 0).
    + intros [= _ <-]. eexists. split; [exact Hl3|exact Hk2].
    + intros Hrec.
      destruct (IH _ _ _ s3 s' _ r Hl3 Hrec) as (d' & Hl' & Hk').
      exists d'. split; [exact Hl'|]. intros Hf. apply Hk'. cbn. by apply Hk2.
Qed.

(** C6: on a request for at least one byte into a buffer,
    [esdm_drng_get] either finds the manager unavailable and returns
    -EOPNOTSUPP with no byte generated and the state as it was, or
    enters its generation loop.  When the counter
    [requests_since_fully_seeded], read as [uint32_t], is greater than
    [esdm_config_drng_max_wo_reseed()] at entry, the loop starts from the
    state in which [fully_seeded] of the instance has been cleared and
    nothing else has changed; when the counter equals the limit, the loop
    starts from the state at entry, [fully_seeded] as it was, and an
    instance that was fully seeded is so when the call returns. *)
Theorem esdm_drng_get_demotion fuel p buf outbuflen (s : esdm_mgr)
  (d : esdm_drng) :
  outbuflen <> 0 ->
  load_drng p s = Ok d s ->
  (atomic_read_u32 (requests_since_fully_seeded d)
     > esdm_drng_max_wo_reseed (mgr_config s) ->
   exists s1,
     load_drng p s1 = Ok (set_fully_seeded false d) s1 /\
     fully_seeded (set_fully_seeded false d) = false /\
     same_env s s1 /\
     esdm_drng_get fuel p (Some buf) outbuflen s =
       if esdm_avail s =? 0 then Ok (- EOPNOTSUPP, []) s
       else esdm_drng_get_loop fuel p
              (min_t_size_t outbuflen SSIZE_MAX) 0 [] s1) /\
  (atomic_read_u32 (requests_since_fully_seeded d)
     = esdm_drng_max_wo_reseed (mgr_config s) ->
   esdm_drng_get fuel p (Some buf) outbuflen s =
     (if esdm_avail s =? 0 then Ok (- EOPNOTSUPP, []) s
      else esdm_drng_get_loop fuel p
             (min_t_size_t outbuflen SSIZE_MAX) 0 [] s) /\
   forall r s',
     esdm_drng_get fuel p (Some buf) outbuflen s = Ok r s' ->
     exists d',
       load_drng p s' = Ok d' s' /\
       (fully_seeded d = true -> fully_seeded d' = true)).
Proof.
  intros Hlen Hl.
  assert (Hz : (outbuflen =? 0) = false) by lia.
  split; intros Hcmp.
  - destruct (store_drng_spec p s d (set_fully_seeded false d) Hl)
      as (s1 & Hst & Hld & He).
    exists s1. do 3 (split; [done|]).
    unfold esdm_drng_get. rewrite Hz. cbn [orb].
    bind_step. rewrite esdm_get_available_run.
    destruct (esdm_avail s =? 0); [done|].
    cbn [negb]. bind_step. rewrite Hl.
    bind_step.
    unfold esdm_config_drng_max_wo_reseed, gets.
    replace (_ >? _) with true by lia.
    bind_step.
    unfold esdm_unset_fully_seeded, mbind at 1, M_bind at 1.
    by rewrite Hl, Hst.
  - assert (Heq : esdm_drng_get fuel p (Some buf) outbuflen s =
                  if esdm_avail s =? 0 then Ok (- EOPNOTSUPP, []) s
                  else esdm_drng_get_loop fuel p
                         (min_t_size_t outbuflen SSIZE_MAX) 0 [] s).
    { unfold esdm_drng_get. rewrite Hz. cbn [orb].
      bind_step. rewrite esdm_get_available_run.
      destruct (esdm_avail s =? 0); [done|].
      cbn [negb]. bind_step. rewrite Hl.
      bind_step.
      unfold esdm_config_drng_max_wo_reseed, gets.
      replace (_ >? _) with false by lia.
      by bind_step. }
    split; [exact Heq|].
    intros r s'. rewrite Heq. destruct (esdm_avail s =? 0).
    + intros [= _ <-]. by exists d.
    + by apply esdm_drng_get_loop_keeps.
Qed.

(** ** The ceiling of the [requests] counter *)

Lemma esdm_drng_reset_run p (s : esdm_mgr) (d : esdm_drng) :
  load_drng p s = Ok d s ->
  exists s' d',
    esdm_drng_reset p s = Ok tt s' /\
    load_drng p s' = Ok d' s' /\
    requests d' = ESDM_DRNG_RESEED_THRESH /\
    requests_since_fully_seeded d' = 0 /\
    last_seeded d' = clock (ticks s) /\
    fully_seeded d' = false /\
    force_reseed d' = true.
Proof.
  intros Hl. unfold esdm_drng_reset, mbind, M_bind. rewrite Hl.
  cbn [time_NULL].
  match goal with
  | |- context [store_drng p ?x ?s1] =>
      destruct (store_drng_spec p s1 d x) as (s' & Hst & Hld & _)
  end.
  { rewrite (load_drng_frame p s) by done. by rewrite Hl. }
  by eexists s', _.
Qed.

Lemma esdm_drng_must_reseed_run p (s : esdm_mgr) (d : esdm_drng) :
  load_drng p s = Ok d s ->
  exists b s' d',
    esdm_drng_must_reseed p s = Ok b s' /\
    load_drng p s' = Ok d' s' /\
    requests d' = wrap_int (requests d - 1).
Proof.
  intros Hl.
  destruct (esdm_drng_must_reseed_state p s d Hl) as (b & s' & Hrun & Hl').
  by eexists b, s', _.
Qed.

(** What one operation does to [requests]: a reset and a successful seed
    set it to ESDM_DRNG_RESEED_THRESH, a seed that fails or finds no DRBG
    state leaves it alone, and the reseed test decrements it. *)
Lemma run_op_requests_exact p op (s s' : esdm_mgr) (d : esdm_drng) :
  load_drng p s = Ok d s ->
  run_op p op s = Ok tt s' ->
  exists d',
    load_drng p s' = Ok d' s' /\
    match op with
    | op_reset => requests d' = ESDM_DRNG_RESEED_THRESH
    | op_inject inbuf _ =>
        requests d' = if inject_seeds d inbuf
                      then ESDM_DRNG_RESEED_THRESH else requests d
    | op_must_reseed => requests d' = wrap_int (requests d - 1)
    end.
Proof.
  intros Hl Hrun. destruct op as [|inbuf fs|]; cbn [run_op] in Hrun.
  - destruct (esdm_drng_reset_run p s d Hl) as (s1 & d1 & Hr & Hl1 & Hq & _).
    rewrite Hr in Hrun. injection Hrun as <-. by exists d1.
  - unfold inject_seeds. destruct (drng d) as [st|] eqn:Hd.
    + destruct (drng_cb d) as [c|] eqn:Hc.
      * destruct (drng_seed c st inbuf) as [ret st'] eqn:Hs. cbn [fst].
        destruct (Z_lt_le_dec ret 0) as [Hneg|Hpos].
        -- destruct (esdm_drng_inject_failed p s d st c inbuf fs ret st'
                       Hl Hd Hc Hs Hneg)
             as (s1 & Hr & Hl1).
           rewrite Hr in Hrun. injection Hrun as <-.
           eexists. split; [exact Hl1|].
           by replace (ret <? 0) with true by lia.
        -- destruct (esdm_drng_inject_seeded p s d st c inbuf fs ret st'
                       Hl Hd Hc Hs Hpos)
             as (s1 & d1 & Hr & Hl1 & Hq & _).
           rewrite Hr in Hrun. injection Hrun as <-. exists d1.
           split; [exact Hl1|].
           by replace (ret <? 0) with false by lia.
      * exfalso. revert Hrun. unfold esdm_drng_inject, mbind, M_bind.
        by rewrite Hl, Hd, Hc.
    + rewrite (esdm_drng_inject_unallocated p s d inbuf fs Hl Hd) in Hrun.
      injection Hrun as <-. by exists d.
  - destruct (esdm_drng_must_reseed_run p s d Hl)
      as (b & s1 & d1 & Hr & Hl1 & Hq).
    revert Hrun. unfold mbind, M_bind. rewrite Hr. cbn.
    intros [= <-]. by exists d1.
Qed.

Lemma wrap_int_add_l a b : wrap_int (wrap_int a + b) = wrap_int (a + b).
Proof.
  unfold wrap_int. f_equal.
  replace ((a + 2 ^ 31) `mod` 2 ^ 32 - 2 ^ 31 + b + 2 ^ 31)
    with ((a + 2 ^ 31) `mod` 2 ^ 32 + b) by lia.
  rewrite Zplus_mod_idemp_l. f_equal. lia.
Qed.

(** Along a run, [requests] is ESDM_DRNG_RESEED_THRESH minus the number
    of reseed tests since the last reset or successful seed, in the
    arithmetic of [int]; the counting run is the run of [run_ops]. *)
Lemma run_ops_counting_requests p ops :
  in_int ESDM_DRNG_RESEED_THRESH ->
  forall (k k' : nat) (s s' : esdm_mgr) (d d' : esdm_drng),
    load_drng p s = Ok d s ->
    requests d = wrap_int (ESDM_DRNG_RESEED_THRESH - Z.of_nat k) ->
    run_ops_counting p ops k s = Ok k' s' ->
    load_drng p s' = Ok d' s' ->
    run_ops p ops s = Ok tt s' /\
    requests d' = wrap_int (ESDM_DRNG_RESEED_THRESH - Z.of_nat k').
Proof.
  intros Ht. induction ops as [|op ops IH]; intros k k' s s' d d' Hl Hq.
  - cbn. intros [= <- <-]. rewrite Hl. by intros [= <-].
  - cbn [run_ops run_ops_counting]. unfold mbind, M_bind. rewrite Hl.
    destruct (run_op p op s) as [[] s1|] eqn:Hop; [|discriminate].
    destruct (run_op_requests_exact p op s s1 d Hl Hop) as (d1 & Hl1 & Hq1).
    apply (IH _ k' s1 s' d1 d' Hl1).
    destruct op as [|inbuf fs|].
    + rewrite Hq1, Z.sub_0_r. symmetry. by apply wrap_int_id.
    + rewrite Hq1. destruct (inject_seeds d inbuf); [|exact Hq].
      rewrite Z.sub_0_r. symmetry. by apply wrap_int_id.
    + rewrite Hq1, Hq, Nat2Z.inj_succ.
      replace (wrap_int (ESDM_DRNG_RESEED_THRESH - Z.of_nat k) - 1)
        with (wrap_int (ESDM_DRNG_RESEED_THRESH - Z.of_nat k) + -1) by lia.
      rewrite wrap_int_add_l. f_equal. lia.
Qed.

(** C7 (as amended): along every sequence of operations reset, inject and
    must_reseed from the state a reset leaves, whatever its length, the
    [requests] counter is ESDM_DRNG_RESEED_THRESH minus the number [k] of
    reseed tests made since the last reset or successful seed, in the
    arithmetic of [int].  While [k] is at most
    2^31 + ESDM_DRNG_RESEED_THRESH the counter is exactly
    ESDM_DRNG_RESEED_THRESH - [k] and does not exceed
    ESDM_DRNG_RESEED_THRESH; at [k] = 2^31 + ESDM_DRNG_RESEED_THRESH + 1
    it has wrapped to INT_MAX.  Of the operations, a reset and a seed
    that succeeds (DRBG state allocated, seed callback not negative) set
    the counter to ESDM_DRNG_RESEED_THRESH, a seed that fails or finds no
    DRBG state leaves it alone, and the reseed test decrements it by one
    in the arithmetic of [int]. *)
Theorem requests_ceiling p :
  in_int ESDM_DRNG_RESEED_THRESH ->
  (forall ops (k : nat) (s s0 s' : esdm_mgr) (d' : esdm_drng),
     esdm_drng_reset p s = Ok tt s0 ->
     run_ops_counting p ops 0 s0 = Ok k s' ->
     load_drng p s' = Ok d' s' ->
     run_ops p ops s0 = Ok tt s' /\
     requests d' = wrap_int (ESDM_DRNG_RESEED_THRESH - Z.of_nat k) /\
     (Z.of_nat k <= 2 ^ 31 + ESDM_DRNG_RESEED_THRESH ->
      requests d' = ESDM_DRNG_RESEED_THRESH - Z.of_nat k /\
      requests d' <= ESDM_DRNG_RESEED_THRESH) /\
     (Z.of_nat k = 2 ^ 31 + ESDM_DRNG_RESEED_THRESH + 1 ->
      requests d' = INT_MAX)) /\
  (forall op (s s' : esdm_mgr) (d : esdm_drng),
     load_drng p s = Ok d s ->
     run_op p op s = Ok tt s' ->
     exists d',
       load_drng p s' = Ok d' s' /\
       match op with
       | op_reset => requests d' = ESDM_DRNG_RESEED_THRESH
       | op_inject inbuf _ =>
           requests d' = if inject_seeds d inbuf
                         then ESDM_DRNG_RESEED_THRESH else requests d
       | op_must_reseed => requests d' = wrap_int (requests d - 1)
       end).
Proof.
  intros Ht. split; [|apply run_op_requests_exact].
  intros ops k s s0 s' d' Hreset Hrun Hl'.
  destruct (load_drng p s) as [d s1|f] eqn:Hl.
  - pose proof (load_drng_state _ _ _ _ Hl) as ->.
    destruct (esdm_drng_reset_run p s d Hl) as (s0' & d0 & Hr & Hl0 & Hq & _).
    rewrite Hr in Hreset. injection Hreset as ->.
    destruct (run_ops_counting_requests p ops Ht 0 k s0 s' d0 d' Hl0)
      as [Hops Hreq]; [|exact Hrun|exact Hl'|].
    { rewrite Hq, Z.sub_0_r. symmetry. by apply wrap_int_id. }
    split; [exact Hops|]. split; [exact Hreq|]. split.
    + intros Hk. rewrite Hreq, wrap_int_id; [lia|].
      unfold in_int, INT_MIN, INT_MAX in *. lia.
    + intros Hk. rewrite Hreq.
      replace (ESDM_DRNG_RESEED_THRESH - Z.of_nat k) with (- 2 ^ 31 - 1)
        by lia.
      reflexivity.
  - exfalso. revert Hreset. unfold esdm_drng_reset, mbind, M_bind.
    by rewrite Hl.
Qed.


(** [n] reseed tests in a row decrement [requests] [n] times, in the
    arithmetic of [int]. *)
Lemma run_ops_must_reseed_replicate p n :
  forall (s : esdm_mgr) (d : esdm_drng),
    load_drng p s = Ok d s ->
    in_int (requests d) ->
    exists s' d',
      run_ops p (replicate n op_must_reseed) s = Ok tt s' /\
      load_drng p s' = Ok d' s' /\
      requests d' = wrap_int (requests d - Z.of_nat n).
Proof.
  induction n as [|n IH]; intros s d Hl Hr.
  - exists s, d. split; [done|]. split; [done|].
    rewrite Z.sub_0_r. symmetry. by apply wrap_int_id.
  - destruct (esdm_drng_must_reseed_run p s d Hl)
      as (b & s1 & d1 & Hrun & Hl1 & Hq1).
    destruct (IH s1 d1 Hl1) as (s' & d' & Hrun' & Hl' & Hq').
    { rewrite Hq1. apply wrap_int_range. }
    exists s', d'. split; [|split; [done|]].
    + cbn [replicate run_ops run_op]. unfold mbind, M_bind.
      rewrite Hrun. exact Hrun'.
    + rewrite Hq', Hq1, Nat2Z.inj_succ.
      replace (wrap_int (requests d - 1) - Z.of_nat n)
        with (wrap_int (requests d - 1) + - Z.of_nat n) by lia.
      rewrite wrap_int_add_l. f_equal. lia.
Qed.

(** ** Forced reseed *)

Lemma for_each_node_force_reseed k :
  forall (a : nat) (s : esdm_mgr) (arr : list (option esdm_drng)),
    esdm_drng_instances s = Some arr ->
    (a + k <= length arr)%nat ->
    exists s' arr',
      for_each_node (seq a k) esdm_drng_force_reseed_node s = Ok tt s' /\
      esdm_drng_instances s' = Some arr' /\
      length arr' = length arr /\
      esdm_drng_atomic s' = esdm_drng_atomic s /\
      (forall i,
         arr' !! i =
           if decide (a <= i < a + k)%nat
           then fmap (fun d => set_force_reseed (fully_seeded d) d)
                  <$> arr !! i
           else arr !! i).
Proof.
  induction k as [|k IH]; intros a s arr Ha Hlen.
  - exists s, arr. repeat split; try done.
    intros i. case_decide; [lia|done].
  - cbn [seq for_each_node]. bind_step.
    unfold esdm_drng_force_reseed_node at 1, mbind, M_bind, gets.
    rewrite Ha.
    destruct (arr !! a) as [[d|]|] eqn:Hn.
    + cbn [store_drng]. rewrite Ha, Hn.
      match goal with
      | |- context [for_each_node _ _ ?s1] =>
          destruct (IH (S a) s1 (<[a := Some (set_force_reseed
                                   (fully_seeded d) d)]> arr))
            as (s' & arr' & Hrun & Ha' & Hlen' & Hat & Hlk);
            [done | rewrite length_insert; lia |]
      end.
      exists s', arr'. split; [exact Hrun|]. split; [done|].
      rewrite length_insert in Hlen'. split; [done|]. split; [done|].
      intros i. rewrite Hlk. destruct (decide (i = a)) as [->|Hne].
      * rewrite decide_False by lia. rewrite decide_True by lia.
        rewrite list_lookup_insert_eq by lia. by rewrite Hn.
      * rewrite list_lookup_insert_ne by done.
        repeat case_decide; try done; lia.
    + destruct (IH (S a) s arr Ha) as (s' & arr' & Hrun & Ha' & Hlen' & Hat & Hlk);
        [lia|].
      exists s', arr'. split; [exact Hrun|]. do 3 (split; [done|]).
      intros i. rewrite Hlk. destruct (decide (i = a)) as [->|Hne].
      * rewrite decide_False by lia. rewrite decide_True by lia.
        by rewrite Hn.
      * repeat case_decide; try done; lia.
    + apply lookup_ge_None in Hn. lia.
Qed.

(** C2 (as amended): when the per-node array exists and has a slot for
    every online node, and the initial DRNG is not past the reseed
    threshold (as with [requests_since_fully_seeded] = 0),
    [esdm_drng_force_reseed] gives [force_reseed] of every existing
    DRNG of an online node the value of its [fully_seeded] flag, and
    sets [force_reseed] of the atomic DRNG. *)
Theorem esdm_drng_force_reseed_nodes (s : esdm_mgr)
  (arr : list (option esdm_drng)) :
  esdm_drng_instances s = Some arr ->
  atomic_read_u32 (requests_since_fully_seeded (esdm_drng_init s))
    <= cast_u32 ESDM_DRNG_RESEED_THRESH ->
  (Z.to_nat (min_t_u32 (esdm_online_nodes (es s))
                       (esdm_max_nodes (mgr_config s)))
   <= length arr)%nat ->
  exists s' arr',
    esdm_drng_force_reseed s = Ok tt s' /\
    esdm_drng_instances s' = Some arr' /\
    (forall node d,
       (node < Z.to_nat (min_t_u32 (esdm_online_nodes (es s))
                                   (esdm_max_nodes (mgr_config s))))%nat ->
       arr !! node = Some (Some d) ->
       exists d',
         arr' !! node = Some (Some d') /\
         force_reseed d' = fully_seeded d /\
         fully_seeded d' = fully_seeded d) /\
    force_reseed (esdm_drng_atomic s') = true.
Proof.
  intros Ha Hinit Hlen.
  destruct (for_each_node_force_reseed _ 0%nat s arr Ha Hlen)
    as (s1 & arr1 & Hrun & Ha1 & _ & _ & Hlk).
  eexists _, arr1. split; [|split; [|split]].
  - unfold esdm_drng_force_reseed, mbind, M_bind, gets. rewrite Ha.
    replace (_ >? _) with false by lia.
    unfold for_each_online_node, esdm_config_online_nodes,
      esdm_config_max_nodes, mbind, M_bind, gets. cbn [mret M_ret].
    rewrite Hrun. reflexivity.
  - exact Ha1.
  - intros node d Hnode Hd. rewrite Hlk, decide_True by lia.
    rewrite Hd. by eexists.
  - reflexivity.
Qed.

(** ** Seeding by the seed work *)

(** C9 (as amended): with the manager available, the DRBG state
    allocated and a seed callback that succeeds on the seed buffer,
    [esdm_drng_seed_work_one] on node [node] (with [node * 60] in the
    range of [uint32_t]) leaves the instance fully seeded when it was so
    before or the seed buffer holds full entropy; [last_seeded] then is
    the time recorded by the injection plus [node * 60], and it is the
    time recorded by the injection alone when the instance is still not
    fully seeded. *)
Theorem esdm_drng_seed_work_one_stagger p node (s : esdm_mgr)
  (d : esdm_drng) st c seedbuf e' ret st' :
  esdm_avail s <> 0 ->
  load_drng p s = Ok d s ->
  drng d = Some st ->
  drng_cb d = Some c ->
  esdm_fill_seed_buffer (mgr_config s)
    (esdm_get_seed_entropy_osr (mgr_config s) (fully_seeded d)) (es s)
    = (seedbuf, e') ->
  drng_seed c st (entropy_buf_bytes seedbuf) = (ret, st') ->
  0 <= ret ->
  in_u32 (node * 60) ->
  exists s' d',
    esdm_drng_seed_work_one p node s = Ok tt s' /\
    load_drng p s' = Ok d' s' /\
    fully_seeded d' =
      fully_seeded d
      || esdm_fully_seeded_eb (mgr_config s) (fully_seeded d) seedbuf /\
    last_seeded d' =
      if fully_seeded d' then clock (S (ticks s)) + node * 60
      else clock (S (ticks s)).
Proof.
  intros Hav Hl Hd Hc Hfill Hs Hr Hn.
  assert (Ha : (esdm_avail s =? 0) = false) by lia.
  unfold esdm_drng_seed_work_one, esdm_drng_seed.
  bind_step. bind_step.
  rewrite esdm_get_available_run, Ha. cbn [negb].
  bind_step.
  unfold esdm_drng_seed_es. bind_step. rewrite Hl.
  bind_step. unfold gets at 1.
  bind_step. unfold gets at 1. rewrite Hfill.
  bind_step. unfold modify at 1.
  bind_step.
  destruct (esdm_drng_inject_seeded p (set_es e' s) d st c
              (entropy_buf_bytes seedbuf)
              (esdm_fully_seeded_eb (mgr_config s) (fully_seeded d) seedbuf)
              ret st')
    as (sb & db & Hinj & Hlb & _ & Hls & _ & _ & Hfs);
    [by rewrite (load_drng_frame p s), Hl | done.. |].
  assert (Hfs' : fully_seeded db =
                 fully_seeded d
                 || esdm_fully_seeded_eb (mgr_config s) (fully_seeded d)
                      seedbuf)
    by (rewrite Hfs; by destruct (fully_seeded d)).
  clear Hfs. rename Hfs' into Hfs.
  rewrite Hinj. unfold modify at 1.
  bind_step.
  match goal with
  | |- context [load_drng p ?sc] =>
      assert (Hlc : load_drng p sc = Ok db sc)
        by (by rewrite (load_drng_frame p sb), Hlb)
  end.
  rewrite Hlc. bind_step. unfold gets at 1.
  bind_step. unfold gets at 1.
  destruct (esdm_drng_atomic_seed_drng _ _ _ _) as [[sta atomic'] tk'].
  bind_step.
  match goal with
  | |- context [store_drng p ?x ?sc] =>
      destruct (store_drng_spec p sc db x Hlc) as (sd & Hst & Hld & _)
  end.
  rewrite Hst. bind_step. unfold modify at 1.
  unfold modify at 1. bind_step.
  match goal with
  | |- context [load_drng p ?se] =>
      assert (Hle : load_drng p se = Ok (set_drng sta db) se)
        by (by rewrite (load_drng_frame p sd), Hld)
  end.
  rewrite Hle. cbn [fully_seeded set_drng last_seeded].
  cbn [ticks set_es] in Hls. rewrite cast_u32_id by done.
  destruct (fully_seeded db) eqn:Hfdb.
  - match goal with
    | |- context [store_drng p ?x ?se] =>
        destruct (store_drng_spec p se (set_drng sta db) x Hle)
          as (sf & Hstf & Hlf & _)
    end.
    eexists sf, _. split; [exact Hstf|]. split; [exact Hlf|].
    cbn. rewrite Hfdb, <- Hfs, Hls. done.
  - eexists _, _. split; [reflexivity|]. split; [exact Hle|].
    cbn. rewrite Hfdb, <- Hfs, Hls. done.
Qed.

(** ** Initialisation *)

Lemma esdm_drng_node_instance_state (s s' : esdm_mgr) p :
  esdm_drng_node_instance s = Ok p s' -> s' = s.
Proof.
  unfold esdm_drng_node_instance, esdm_config_curr_node,
    esdm_config_max_nodes, mbind, M_bind, gets, raise.
  destruct (cast_u32 _ =? 0); [discriminate|]. cbn [mret M_ret].
  destruct (esdm_drng_instances s) as [arr|]; [|by intros [= _ <-]].
  destruct (arr !! _) as [[d|]|]; [| |discriminate]; by intros [= _ <-].
Qed.

(** The selftest reads the state and leaves it as it is. *)
Lemma esdm_drng_mgr_selftest_state (s s' : esdm_mgr) e :
  esdm_drng_mgr_selftest s = Ok e s' -> s' = s.
Proof.
  unfold esdm_drng_mgr_selftest. bind_step.
  destruct (esdm_drng_node_instance s) as [p s1|] eqn:Hp; [|discriminate].
  apply esdm_drng_node_instance_state in Hp as ->.
  bind_step.
  destruct (load_drng p s) as [d s1|] eqn:Hl; [|discriminate].
  apply load_drng_state in Hl as ->.
  destruct (hash_cb d) as [h|]; [|discriminate].
  destruct (_ <? 0); [by intros [= _ <-]|].
  destruct (drng_cb d) as [c|]; [|discriminate]. by intros [= _ <-].
Qed.

(** A failing hash selftest, or a failing DRBG selftest after a hash
    selftest that passed or is missing, is what the selftest of the
    manager returns. *)
Lemma esdm_drng_mgr_selftest_failure (s : esdm_mgr) p (d : esdm_drng) h e :
  esdm_drng_node_instance s = Ok p s ->
  load_drng p s = Ok d s ->
  hash_cb d = Some h ->
  e < 0 ->
  hash_selftest h = Some e \/
  ((hash_selftest h = None \/ exists r, hash_selftest h = Some r /\ 0 <= r) /\
   exists c, drng_cb d = Some c /\ drng_selftest c = Some e) ->
  esdm_drng_mgr_selftest s = Ok e s.
Proof.
  intros Hp Hl Hh He Hfail.
  unfold esdm_drng_mgr_selftest, mbind, M_bind. rewrite Hp, Hl, Hh.
  destruct Hfail as [-> | [Hhash (c & Hc & Hself)]].
  - by replace (e <? 0) with true by lia.
  - rewrite Hc, Hself. destruct Hhash as [-> | (r & -> & Hr)].
    + done.
    + by replace (r <? 0) with false by lia.
Qed.

(** C1 (as amended): when the manager is not yet available, the
    allocation of the initial DRNG succeeds and the selftest of the
    manager then fails, [esdm_drng_mgr_initalize] returns the error of
    the selftest, which is not zero, and the manager is available
    afterwards: [esdm_avail] is set as soon as the initial DRNG is
    allocated, before the selftest runs. *)
Theorem esdm_drng_mgr_initalize_selftest_failure (s s1 s2 : esdm_mgr) ret e :
  esdm_avail s = 0 ->
  esdm_drng_alloc_common init_ptr (Some esdm_default_drng_cb) s = Ok ret s1 ->
  0 <= ret ->
  esdm_drng_mgr_selftest (set_esdm_avail (atomic_set (esdm_avail s1) 1) s1)
    = Ok e s2 ->
  e <> 0 ->
  esdm_drng_mgr_initalize s = Ok e s2 /\
  esdm_get_available s2 = Ok true s2.
Proof.
  intros Hav Halloc Hret Hself He.
  pose proof (esdm_drng_mgr_selftest_state _ _ _ Hself) as ->.
  split; [|done].
  unfold esdm_drng_mgr_initalize.
  bind_step. rewrite esdm_get_available_run, Hav.
  cbn [Z.eqb negb]. bind_step.
  rewrite esdm_get_available_run, Hav. cbn [Z.eqb negb].
  bind_step. rewrite Halloc.
  replace (ret <? 0) with false by lia.
  unfold mbind, M_bind, modify. exact Hself.
Qed.

End Properties.

(** * Properties of the rest of the code *)

(** ** atomic.h *)

Lemma wrap_int_add_r_cancel v i : wrap_int (wrap_int (v + i) - i) = wrap_int v.
Proof.
  unfold wrap_int. f_equal.
  replace ((v + i + 2 ^ 31) `mod` 2 ^ 32 - 2 ^ 31 - i + 2 ^ 31)
    with ((v + i + 2 ^ 31) `mod` 2 ^ 32 + - i) by lia.
  rewrite Zplus_mod_idemp_l. f_equal. lia.
Qed.

(** X1: on a counter that holds an [int], adding and then subtracting the
    same amount (or the reverse, or an increment and a decrement) gives
    the counter back, also when the addition wraps around. *)
Theorem atomic_add_sub_round_trip v i :
  in_int v ->
  atomic_sub (atomic_add v i) i = v /\
  atomic_add (atomic_sub v i) i = v /\
  atomic_dec (atomic_inc v) = v /\
  atomic_inc (atomic_dec v) = v.
Proof.
  intros Hv.
  assert (Hadd : forall j, wrap_int (wrap_int (v + j) - j) = v)
    by (intros j; rewrite wrap_int_add_r_cancel; by apply wrap_int_id).
  assert (Hsub : forall j, wrap_int (wrap_int (v - j) + j) = v).
  { intros j. replace (v - j) with (v + - j) by lia.
    replace (wrap_int (v + - j) + j) with (wrap_int (v + - j) - - j) by lia.
    apply Hadd. }
  unfold atomic_dec, atomic_inc, atomic_sub, atomic_add. by repeat split.
Qed.

(** X2: the tests for zero, on [int] operands: adding [i] reaches zero
    when the sum is zero, and also when both operands are INT_MIN (the
    sum wraps to zero); subtracting [i] reaches zero exactly when the
    counter equals [i]; an increment reaches zero from -1 and a decrement
    from 1 only. *)
Theorem atomic_tests_for_zero v i :
  in_int v -> in_int i ->
  (fst (atomic_add_and_test v i) = true
   <-> v + i = 0 \/ (v = INT_MIN /\ i = INT_MIN)) /\
  (fst (atomic_sub_and_test v i) = true <-> v = i) /\
  (fst (atomic_inc_and_test v) = true <-> v = -1) /\
  (fst (atomic_dec_and_test v) = true <-> v = 1).
Proof.
  unfold in_int, INT_MIN, INT_MAX. intros Hv Hi.
  assert (Hw : forall z, - 2 ^ 32 <= z < 2 ^ 32 ->
                 (wrap_int z = 0 <-> z = 0 \/ z = - 2 ^ 32)).
  { intros z Hz. unfold wrap_int.
    destruct (Z_lt_le_dec z (- 2 ^ 31)) as [Hlo|Hlo].
    - replace (z + 2 ^ 31) with (z + 2 ^ 32 + 2 ^ 31 + -1 * 2 ^ 32) by lia.
      rewrite Z_mod_plus_full, Z.mod_small by lia. lia.
    - destruct (Z_lt_le_dec z (2 ^ 31)) as [Hhi|Hhi].
      + rewrite Z.mod_small by lia. lia.
      + replace (z + 2 ^ 31) with (z - 2 ^ 31 + 1 * 2 ^ 32) by lia.
        rewrite Z_mod_plus_full, Z.mod_small by lia. lia. }
  unfold atomic_inc_and_test, atomic_dec_and_test, atomic_add_and_test,
    atomic_sub_and_test, atomic_add, atomic_sub. cbn [fst].
  rewrite !Z.eqb_eq, !Hw by lia. lia.
Qed.

(** ** helper.h *)

(** X3: [aligned] takes the mask as a [uint32_t].  For the mask
    2^k - 1 and an address that is not negative, it returns 1 when the
    address is a multiple of 2^k and 0 otherwise, as long as the mask
    fits (k <= 32); a longer mask is cut to 2^32 - 1, and the test is
    then for a multiple of 2^32. *)
Theorem aligned_power_of_two ptr k :
  0 <= k -> 0 <= ptr ->
  aligned ptr (2 ^ k - 1)
  = (if ptr mod 2 ^ Z.min k 32 =? 0 then 1 else 0).
Proof.
  intros Hk Hp. unfold aligned.
  assert (Hmask : cast_u32 (2 ^ k - 1) = Z.ones (Z.min k 32)).
  { unfold cast_u32.
    replace (2 ^ k - 1) with (Z.ones k) by (rewrite Z.ones_equiv; lia).
    destruct (Z_le_gt_dec k 32) as [Hle|Hgt].
    - rewrite Z.min_l by lia. apply Z.mod_small.
      rewrite Z.ones_equiv.
      pose proof (Z.pow_le_mono_r 2 k 32 ltac:(lia) Hle).
      pose proof (Z.pow_pos_nonneg 2 k ltac:(lia) Hk). lia.
    - rewrite Z.min_r by lia. apply Z.ones_mod_pow2. lia. }
  rewrite Hmask, Z.land_ones by lia.
  by destruct (ptr mod 2 ^ Z.min k 32 =? 0).
Qed.

Section ServiceProperties.

Context `{defs : esdm_definitions}.
Context {drbg entropy_buf ES : Type}.
Context `{env : @esdm_collaborators drbg entropy_buf ES}.
Context `{srv : @esdm_services drbg ES}.

Local Abbreviation esdm_drng := (@esdm_drng drbg).
Local Abbreviation esdm_drng_cb := (@esdm_drng_cb drbg).
Local Abbreviation esdm_mgr := (@esdm_mgr drbg ES).

Ltac bind_step := unfold mbind at 1, M_bind at 1.

(** ** esdm_config.c *)

(** Reads of a field after writes. *)
Ltac cfg_simpl :=
  cbv beta iota zeta delta
    [mgr_config set_mgr_config es set_es set_cpu_rate set_jent_rate set_krng_rate
     set_sched_rate set_drng_max_wo_reseed set_max_nodes set_force_fips
     esdm_es_cpu_entropy_rate_bits esdm_es_jent_entropy_rate_bits
     esdm_es_krng_entropy_rate_bits esdm_es_sched_entropy_rate_bits
     esdm_drng_max_wo_reseed esdm_max_nodes force_fips
     esdm_drng_reseed_max_time esdm_avail esdm_drng_init
     esdm_drng_instances esdm_drng_atomic ticks mret M_ret].

(** X4: a forced FIPS setting overrides the environment:
    [esdm_config_fips_enabled] returns 1 after the mode has been forced
    on and 0 after it has been forced off, whatever [fips_enabled()] of
    the environment says, and returns [fips_enabled()] when the setting
    is unset; with FIPS forced off the manager never claims SP800-90C
    compliance. *)
Theorem esdm_config_force_fips_overrides (s : esdm_mgr) :
  (exists s', (esdm_config_force_fips_set esdm_config_force_fips_enabled;;
               esdm_config_fips_enabled) s = Ok 1 s') /\
  (exists s', (esdm_config_force_fips_set esdm_config_force_fips_disabled;;
               esdm_config_fips_enabled) s = Ok 0 s') /\
  (exists s', (esdm_config_force_fips_set esdm_config_force_fips_unset;;
               esdm_config_fips_enabled) s = Ok (fips_enabled (es s)) s') /\
  (exists s', (esdm_config_force_fips_set esdm_config_force_fips_disabled;;
               esdm_sp80090c_compliant) s = Ok 0 s').
Proof.
  repeat split; eexists; try reflexivity.
  unfold esdm_sp80090c_compliant, mbind, M_bind.
  cbn [esdm_config_force_fips_set modify].
  by destruct ESDM_OVERSAMPLE_ENTROPY_SOURCES.
Qed.

(** X5: [esdm_config_online_nodes] returns a number that exceeds neither
    the online nodes nor [esdm_max_nodes] (both as [uint32_t]);
    [esdm_config_curr_node] divides by zero when [esdm_max_nodes] is
    zero, and otherwise returns a node below [esdm_max_nodes]. *)
Theorem esdm_config_nodes_within_max (s : esdm_mgr) :
  (exists n, esdm_config_online_nodes s = Ok n s /\
             0 <= n /\
             n <= cast_u32 (esdm_max_nodes (mgr_config s)) /\
             n <= cast_u32 (esdm_online_nodes (es s))) /\
  (cast_u32 (esdm_max_nodes (mgr_config s)) = 0 ->
   esdm_config_curr_node s = Fault DivByZero) /\
  (cast_u32 (esdm_max_nodes (mgr_config s)) <> 0 ->
   exists n, esdm_config_curr_node s = Ok n s /\
             0 <= n < cast_u32 (esdm_max_nodes (mgr_config s))).
Proof.
  split; [|split].
  - eexists. split; [reflexivity|]. unfold min_t_u32, cast_u32.
    pose proof (Z.mod_pos_bound (esdm_max_nodes (mgr_config s)) (2 ^ 32)).
    pose proof (Z.mod_pos_bound (esdm_online_nodes (es s)) (2 ^ 32)). lia.
  - intros Hz. unfold esdm_config_curr_node, esdm_config_max_nodes,
      mbind, M_bind, gets. by rewrite Hz.
  - intros Hnz. unfold esdm_config_curr_node, esdm_config_max_nodes,
      mbind, M_bind, gets.
    replace (_ =? 0) with false by lia.
    eexists. split; [reflexivity|]. apply Z.mod_pos_bound.
    unfold cast_u32 in *.
    pose proof (Z.mod_pos_bound (esdm_max_nodes (mgr_config s)) (2 ^ 32)).
    lia.
Qed.

(** X6: [esdm_config_init] returns 0 and leaves every entropy rate
    between 0 and ESDM_DRNG_SECURITY_STRENGTH_BITS: the rates of the CPU,
    kernel RNG and scheduler sources are clamped to it, and so is the
    Jitter RNG rate when FIPS is forced off; when FIPS is forced on and
    the Jitter RNG rate stands at its default ESDM_JENT_ENTROPY_RATE, a
    positive value up to the security strength, the rate is raised to the
    full security strength.  The other settings are not touched. *)
Theorem esdm_config_init_rates (s : esdm_mgr) :
  in_u32 ESDM_DRNG_SECURITY_STRENGTH_BITS ->
  exists s',
    esdm_config_init s = Ok 0 s' /\
    esdm_es_cpu_entropy_rate_bits (mgr_config s') =
      Z.min (cast_u32 (esdm_es_cpu_entropy_rate_bits (mgr_config s)))
        ESDM_DRNG_SECURITY_STRENGTH_BITS /\
    esdm_es_krng_entropy_rate_bits (mgr_config s') =
      Z.min (cast_u32 (esdm_es_krng_entropy_rate_bits (mgr_config s)))
        ESDM_DRNG_SECURITY_STRENGTH_BITS /\
    esdm_es_sched_entropy_rate_bits (mgr_config s') =
      Z.min (cast_u32 (esdm_es_sched_entropy_rate_bits (mgr_config s)))
        ESDM_DRNG_SECURITY_STRENGTH_BITS /\
    0 <= esdm_es_jent_entropy_rate_bits (mgr_config s')
      <= ESDM_DRNG_SECURITY_STRENGTH_BITS /\
    (force_fips (mgr_config s) = esdm_config_force_fips_disabled ->
     esdm_es_jent_entropy_rate_bits (mgr_config s') =
       Z.min (cast_u32 (esdm_es_jent_entropy_rate_bits (mgr_config s)))
         ESDM_DRNG_SECURITY_STRENGTH_BITS) /\
    (force_fips (mgr_config s) = esdm_config_force_fips_enabled ->
     0 < ESDM_JENT_ENTROPY_RATE <= ESDM_DRNG_SECURITY_STRENGTH_BITS ->
     esdm_es_jent_entropy_rate_bits (mgr_config s) = ESDM_JENT_ENTROPY_RATE ->
     esdm_es_jent_entropy_rate_bits (mgr_config s') =
       ESDM_DRNG_SECURITY_STRENGTH_BITS) /\
    esdm_drng_max_wo_reseed (mgr_config s') =
      esdm_drng_max_wo_reseed (mgr_config s) /\
    esdm_max_nodes (mgr_config s') = esdm_max_nodes (mgr_config s) /\
    force_fips (mgr_config s') = force_fips (mgr_config s).
Proof.
  intros Hb.
  assert (Hmax : forall v, esdm_config_entropy_rate_max v =
                           Z.min (cast_u32 v) ESDM_DRNG_SECURITY_STRENGTH_BITS).
  { intros v. unfold esdm_config_entropy_rate_max, min_t_u32.
    rewrite (cast_u32_id _ Hb). apply Z.min_comm. }
  assert (Hrange : forall v, 0 <= esdm_config_entropy_rate_max v
                             <= ESDM_DRNG_SECURITY_STRENGTH_BITS).
  { intros v. rewrite Hmax. unfold cast_u32, in_u32 in *.
    pose proof (Z.mod_pos_bound v (2 ^ 32)). lia. }
  assert (Hfull : esdm_config_entropy_rate_max
                    ESDM_DRNG_SECURITY_STRENGTH_BITS
                  = ESDM_DRNG_SECURITY_STRENGTH_BITS).
  { rewrite Hmax, (cast_u32_id _ Hb). lia. }
  destruct s as [[cpu jent0 krng sched mwr mn ff] mt av init inst atomic e tk].
  unfold esdm_config_init, esdm_config_fips_enabled,
    esdm_config_es_jent_entropy_rate, esdm_config_es_jent_entropy_rate_set,
    mbind, M_bind, modify, gets.
  cfg_simpl.
  set (jent := esdm_config_entropy_rate_max jent0).
  destruct ff; cfg_simpl.
  - destruct (negb (fips_enabled e =? 0) && (ESDM_JENT_ENTROPY_RATE >? 0));
      cfg_simpl;
      [fold jent; destruct (jent =? cast_u32 ESDM_JENT_ENTROPY_RATE)|];
      eexists; (split; [reflexivity|]);
      cfg_simpl;
      rewrite <- ?Hmax, ?Hfull; repeat split; try done;
      try apply Hrange; unfold in_u32 in Hb; lia.
  - eexists. split; [reflexivity|].
    cfg_simpl.
    rewrite <- ?Hmax. repeat split; try done; apply Hrange.
  - change (negb (1 =? 0)) with true. cbn [andb].
    destruct (ESDM_JENT_ENTROPY_RATE >? 0) eqn:Hpos; cfg_simpl;
      [fold jent; destruct (jent =? cast_u32 ESDM_JENT_ENTROPY_RATE) eqn:Heq|];
      eexists; (split; [reflexivity|]);
      cfg_simpl;
      rewrite <- ?Hmax, ?Hfull; repeat split; try done;
      try apply Hrange; unfold in_u32 in Hb; try lia.
    intros _ Hj Hd. exfalso. subst jent. rewrite Hd, Hmax in Heq.
    rewrite !cast_u32_id in Heq by (unfold in_u32 in *; lia). lia.
Qed.

(** ** esdm_drng_mgr.c: reset, seeding and the reseed test *)

(** What a store through a valid pointer leaves alone, field by field. *)
Lemma store_drng_env p (s : esdm_mgr) (d0 d : esdm_drng) :
  load_drng p s = Ok d0 s ->
  exists s', store_drng p d s = Ok tt s' /\ load_drng p s' = Ok d s' /\
             mgr_config s' = mgr_config s /\
             esdm_drng_reseed_max_time s'
               = esdm_drng_reseed_max_time s /\
             esdm_avail s' = esdm_avail s /\
             esdm_drng_atomic s' = esdm_drng_atomic s /\
             es s' = es s /\
             ticks s' = ticks s.
Proof.
  intros Hl. destruct (store_drng_spec p s d0 d Hl) as (s' & Hst & Hld & He).
  exists s'. split; [exact Hst|]. split; [exact Hld|]. exact He.
Qed.

(** The run of [esdm_drng_reset]: the instance it leaves and what it
    leaves alone. *)
Lemma esdm_drng_reset_exact p (s : esdm_mgr) (d : esdm_drng) :
  load_drng p s = Ok d s ->
  exists s',
    esdm_drng_reset p s = Ok tt s' /\
    load_drng p s' =
      Ok (set_force_reseed true
            (set_fully_seeded false
               (set_last_seeded (clock (ticks s))
                  (set_requests_since_fully_seeded 0
                     (set_requests ESDM_DRNG_RESEED_THRESH d))))) s' /\
    mgr_config s' = mgr_config s /\
    esdm_drng_reseed_max_time s'
      = esdm_drng_reseed_max_time s /\
    esdm_avail s' = esdm_avail s /\
    esdm_drng_atomic s' = esdm_drng_atomic s /\
    es s' = es s /\
    ticks s' = S (ticks s).
Proof.
  intros Hl. unfold esdm_drng_reset, mbind, M_bind. rewrite Hl.
  cbn [time_NULL].
  match goal with
  | |- context [store_drng p ?x ?s1] =>
      destruct (store_drng_env p s1 d x)
        as (s' & Hst & Hld & Hc & Hm & Hav & Hat & Hes & Htk)
  end.
  { rewrite (load_drng_frame p s) by done. by rewrite Hl. }
  exists s'. split; [exact Hst|]. split; [exact Hld|].
  by repeat split.
Qed.

(** The run of [esdm_drng_must_reseed]: its result, the instance it
    leaves and what it leaves alone.  The clock is read only when neither
    the request counter nor the force flag decides. *)
Lemma esdm_drng_must_reseed_value p (s : esdm_mgr) (d : esdm_drng) :
  load_drng p s = Ok d s ->
  exists s',
    esdm_drng_must_reseed p s =
      Ok ((wrap_int (requests d - 1) =? 0) || force_reseed d
          || negb ((let curr := clock (ticks s) in
                    let base := last_seeded d
                                + esdm_drng_reseed_max_time s in
                    if curr =? -1 then 0
                    else if esdm_time_after curr base then curr - base
                         else 0) =? 0)) s' /\
    load_drng p s' = Ok (set_requests (wrap_int (requests d - 1)) d) s' /\
    mgr_config s' = mgr_config s /\
    esdm_drng_reseed_max_time s'
      = esdm_drng_reseed_max_time s /\
    esdm_avail s' = esdm_avail s /\
    esdm_drng_atomic s' = esdm_drng_atomic s /\
    es s' = es s /\
    ticks s' = (if (wrap_int (requests d - 1) =? 0) || force_reseed d
                then ticks s else S (ticks s)).
Proof.
  intros Hl. unfold esdm_drng_must_reseed. bind_step.
  rewrite Hl. cbn [atomic_dec_and_test atomic_sub_and_test].
  unfold atomic_sub. bind_step.
  match goal with
  | |- context [store_drng p ?x ?s1] =>
      destruct (store_drng_env p s1 d x Hl)
        as (s1' & Hst & Hld & Hc & Hm & Hav & Hat & Hes & Htk)
  end.
  rewrite Hst. cbn zeta.
  destruct (wrap_int (requests d - 1) =? 0);
    [by exists s1'|].
  destruct (force_reseed d); [by exists s1'|].
  unfold mbind, M_bind, gets. rewrite esdm_time_after_now_run.
  exists (set_ticks (S (ticks s1')) s1').
  split; [cbn [orb mret M_ret]; by rewrite Hm, Htk|].
  split; [by rewrite (load_drng_frame p s1'), Hld|].
  cbn. by rewrite Htk.
Qed.

(** X7: a DRNG that has just been reset must reseed: after
    [esdm_drng_reset], [esdm_drng_must_reseed] on the same instance
    returns true for every state and every clock, and it does so on the
    force flag, without a further reading of the clock.  The instance is
    then not fully seeded, still forced to reseed, and has counted the
    request. *)
Theorem esdm_drng_reset_must_reseed p (s : esdm_mgr) (d : esdm_drng) :
  load_drng p s = Ok d s ->
  exists s' d',
    (esdm_drng_reset p;; esdm_drng_must_reseed p) s = Ok true s' /\
    load_drng p s' = Ok d' s' /\
    requests d' = wrap_int (ESDM_DRNG_RESEED_THRESH - 1) /\
    fully_seeded d' = false /\
    force_reseed d' = true /\
    ticks s' = S (ticks s).
Proof.
  intros Hl.
  destruct (esdm_drng_reset_exact p s d Hl)
    as (s1 & Hrun & Hl1 & _ & _ & _ & _ & _ & Htk1).
  destruct (esdm_drng_must_reseed_value p s1 _ Hl1)
    as (s2 & Hrun2 & Hl2 & _ & _ & _ & _ & _ & Htk2).
  eexists s2, _. split; [|split; [exact Hl2|]].
  - unfold mbind, M_bind. rewrite Hrun, Hrun2. f_equal.
    cbn. by rewrite orb_true_r.
  - cbn. cbn in Htk2. rewrite orb_true_r in Htk2.
    repeat split; try done. by rewrite Htk2.
Qed.

(** The run of an injection whose seed callback succeeds: what it leaves
    alone, and the two readings of the clock. *)
Lemma esdm_drng_inject_seeded_env p (s : esdm_mgr) (d : esdm_drng) st c
  inbuf fs ret st' :
  load_drng p s = Ok d s ->
  drng d = Some st ->
  drng_cb d = Some c ->
  drng_seed c st inbuf = (ret, st') ->
  0 <= ret ->
  exists s' d',
    esdm_drng_inject p inbuf fs s = Ok tt s' /\
    load_drng p s' = Ok d' s' /\
    requests d' = ESDM_DRNG_RESEED_THRESH /\
    last_seeded d' = clock (S (ticks s)) /\
    force_reseed d' = false /\
    drng_cb d' = Some c /\
    mgr_config s' = mgr_config s /\
    esdm_drng_reseed_max_time s'
      = esdm_drng_reseed_max_time s /\
    esdm_avail s' = esdm_avail s /\
    esdm_drng_atomic s' = esdm_drng_atomic s /\
    es s' = es s /\
    ticks s' = S (S (ticks s)).
Proof.
  intros Hl Hd Hc Hs Hr.
  unfold esdm_drng_inject. bind_step.
  rewrite Hl, Hd, Hc, Hs.
  destruct (ret <? 0) eqn:E; [lia|].
  unfold mbind, M_bind. rewrite esdm_time_after_now_run.
  cbn [time_NULL ticks set_ticks]. cbn.
  match goal with
  | |- context [store_drng p ?x ?s1] =>
      destruct (store_drng_env p s1 d x)
        as (s' & Hst & Hld & Hcf & Hm & Hav & Hat & Hes & Htk)
  end.
  { rewrite (load_drng_frame p s) by done. by rewrite Hl. }
  eexists s', _. split; [exact Hst|]. split; [exact Hld|].
  destruct (fully_seeded d) eqn:Hfs; cbn; by rewrite ?Hfs.
Qed.

(** X8: a successful seeding clears the need to reseed: when the seed
    callback returns a value >= 0, the next [esdm_drng_must_reseed] on the
    instance returns true only for the age of the seed, that is when the
    clock reading of the test lies more than [esdm_drng_reseed_max_time]
    seconds after the reading the injection stored in [last_seeded]
    (ESDM_DRNG_RESEED_THRESH other than 1, so that the request counted by
    the test does not exhaust the counter). *)
Theorem esdm_drng_inject_then_must_reseed p (s : esdm_mgr) (d : esdm_drng)
  st c inbuf fs ret st' :
  load_drng p s = Ok d s ->
  drng d = Some st ->
  drng_cb d = Some c ->
  drng_seed c st inbuf = (ret, st') ->
  0 <= ret ->
  in_int ESDM_DRNG_RESEED_THRESH ->
  ESDM_DRNG_RESEED_THRESH <> 1 ->
  -1 <= clock (S (ticks s)) ->
  -1 <= clock (S (S (ticks s))) ->
  0 <= esdm_drng_reseed_max_time s ->
  exists b s',
    (esdm_drng_inject p inbuf fs;; esdm_drng_must_reseed p) s = Ok b s' /\
    (b = true <->
     clock (S (ticks s)) + esdm_drng_reseed_max_time s
       < clock (S (S (ticks s)))).
Proof.
  intros Hl Hd Hc Hs Hr Hth Hne Hc1 Hc2 Hmax.
  destruct (esdm_drng_inject_seeded_env p s d st c inbuf fs ret st'
              Hl Hd Hc Hs Hr)
    as (s1 & d1 & Hrun & Hl1 & Hreq & Hlast & Hforce & _ & _ & Hm & _ & _
        & _ & Htk).
  destruct (esdm_drng_must_reseed_value p s1 d1 Hl1) as (s2 & Hrun2 & _).
  eexists _, s2. split.
  - unfold mbind, M_bind. rewrite Hrun. exact Hrun2.
  - rewrite Hreq, Hforce, Hlast, Hm, Htk.
    assert (Hz : (wrap_int (ESDM_DRNG_RESEED_THRESH - 1) =? 0) = false).
    { apply Z.eqb_neq. intros Hw.
      apply (dec_reaches_zero _ Hth) in Hw. lia. }
    rewrite Hz. cbn [orb]. cbv zeta.
    rewrite negb_true_iff, Z.eqb_neq.
    apply esdm_time_after_now_nonzero; lia.
Qed.

(** X9: the three outcomes of [esdm_drng_alloc_common].  Without a
    callback it returns -EINVAL and touches nothing.  When the allocation
    callback fails, its error is returned, the callback and what it made
    of the DRBG pointer are stored, and the instance is not reset: the
    clock is not read.  When the allocation succeeds, the instance is
    reset: request counter at ESDM_DRNG_RESEED_THRESH, no requests since
    fully seeded, [last_seeded] now, not fully seeded and forced to
    reseed. *)
Theorem esdm_drng_alloc_common_outcomes p (s : esdm_mgr) (d : esdm_drng)
  (c : esdm_drng_cb) ret st :
  load_drng p s = Ok d s ->
  drng_alloc c (drng d) ESDM_DRNG_SECURITY_STRENGTH_BYTES = (ret, st) ->
  esdm_drng_alloc_common p None s = Ok (- EINVAL) s /\
  (ret < 0 ->
   exists s',
     esdm_drng_alloc_common p (Some c) s = Ok ret s' /\
     load_drng p s' = Ok (set_drng st (set_drng_cb (Some c) d)) s' /\
     same_env s s') /\
  (0 <= ret ->
   exists s' d',
     esdm_drng_alloc_common p (Some c) s = Ok ret s' /\
     load_drng p s' = Ok d' s' /\
     drng d' = st /\
     drng_cb d' = Some c /\
     hash_cb d' = hash_cb d /\
     requests d' = ESDM_DRNG_RESEED_THRESH /\
     requests_since_fully_seeded d' = 0 /\
     last_seeded d' = clock (ticks s) /\
     fully_seeded d' = false /\
     force_reseed d' = true /\
     ticks s' = S (ticks s)).
Proof.
  intros Hl Ha. split; [reflexivity|].
  assert (Hrun : esdm_drng_alloc_common p (Some c) s =
                 match store_drng p (set_drng st (set_drng_cb (Some c) d)) s
                 with
                 | Ok _ s1 => if ret <? 0 then Ok ret s1
                              else (esdm_drng_reset p;; mret ret) s1
                 | Fault f => Fault f
                 end).
  { unfold esdm_drng_alloc_common. bind_step. rewrite Hl.
    cbn [drng set_drng_cb]. rewrite Ha. bind_step.
    destruct (store_drng p _ s); [|done]. by destruct (ret <? 0). }
  destruct (store_drng_spec p s d (set_drng st (set_drng_cb (Some c) d)) Hl)
    as (s1 & Hst & Hl1 & He).
  rewrite Hrun, Hst. split; intros Hr.
  - replace (ret <? 0) with true by lia. by exists s1.
  - replace (ret <? 0) with false by lia.
    destruct (esdm_drng_reset_exact p s1 _ Hl1)
      as (s2 & Hrs & Hl2 & _ & _ & _ & _ & _ & Htk).
    eexists s2, _. split; [|split; [exact Hl2|]].
    + unfold mbind, M_bind. by rewrite Hrs.
    + destruct He as (_ & _ & _ & _ & _ & Htk1).
      cbn. rewrite Htk, Htk1. by repeat split.
Qed.

(** ** esdm_drng_mgr.c: initialisation and finalisation *)

(** X10: a successful initialisation.  When the manager is not yet
    available and the allocation of the initial DRNG succeeds,
    [esdm_drng_mgr_initalize] stores the default DRNG callback and the
    allocated DRBG in the initial DRNG, resets it (not fully seeded,
    forced to reseed, request counter at ESDM_DRNG_RESEED_THRESH), marks
    the manager available and ends with the selftest, whose result it
    returns; the per-node array is not touched.  Once the manager is
    available a further call returns 0 and changes nothing. *)
Theorem esdm_drng_mgr_initalize_success (s : esdm_mgr) ret st :
  esdm_avail s = 0 ->
  drng_alloc esdm_default_drng_cb (drng (esdm_drng_init s))
    ESDM_DRNG_SECURITY_STRENGTH_BYTES = (ret, st) ->
  0 <= ret ->
  exists s1,
    esdm_drng_mgr_initalize s = esdm_drng_mgr_selftest s1 /\
    esdm_get_available s1 = Ok true s1 /\
    drng (esdm_drng_init s1) = st /\
    drng_cb (esdm_drng_init s1) = Some esdm_default_drng_cb /\
    hash_cb (esdm_drng_init s1) = hash_cb (esdm_drng_init s) /\
    requests (esdm_drng_init s1) = ESDM_DRNG_RESEED_THRESH /\
    requests_since_fully_seeded (esdm_drng_init s1) = 0 /\
    last_seeded (esdm_drng_init s1) = clock (ticks s) /\
    fully_seeded (esdm_drng_init s1) = false /\
    force_reseed (esdm_drng_init s1) = true /\
    esdm_drng_instances s1 = esdm_drng_instances s /\
    esdm_drng_mgr_initalize s1 = Ok 0 s1.
Proof.
  intros Hav Ha Hr.
  unfold esdm_drng_mgr_initalize at 1, mbind, M_bind.
  rewrite !esdm_get_available_run, Hav. cbn [Z.eqb negb].
  rewrite esdm_get_available_run, Hav. cbn [Z.eqb negb].
  unfold esdm_drng_alloc_common, mbind, M_bind.
  cbn [load_drng drng set_drng_cb]. rewrite Ha.
  cbn [store_drng]. replace (ret <? 0) with false by lia.
  unfold esdm_drng_reset, mbind, M_bind.
  cbn [load_drng time_NULL store_drng mret M_ret].
  replace (ret <? 0) with false by lia. unfold modify.
  eexists. split; [reflexivity|]. by repeat split.
Qed.

(** X11: a failed allocation.  When the allocation of the initial DRNG
    fails, [esdm_drng_mgr_initalize] returns the error of the allocation
    callback and the manager stays unavailable, so that a later call
    tries again, and until then every request for random bytes is
    refused with -EOPNOTSUPP. *)
Theorem esdm_drng_mgr_initalize_alloc_failure (s : esdm_mgr) ret st :
  esdm_avail s = 0 ->
  drng_alloc esdm_default_drng_cb (drng (esdm_drng_init s))
    ESDM_DRNG_SECURITY_STRENGTH_BYTES = (ret, st) ->
  ret < 0 ->
  exists s',
    esdm_drng_mgr_initalize s = Ok ret s' /\
    esdm_get_available s' = Ok false s' /\
    same_env s s' /\
    drng (esdm_drng_init s') = st /\
    (forall fuel p buf outbuflen,
       outbuflen <> 0 ->
       esdm_drng_get fuel p (Some buf) outbuflen s'
       = Ok (- EOPNOTSUPP, []) s').
Proof.
  intros Hav Ha Hr.
  unfold esdm_drng_mgr_initalize at 1, mbind, M_bind.
  rewrite !esdm_get_available_run, Hav. cbn [Z.eqb negb].
  rewrite esdm_get_available_run, Hav. cbn [Z.eqb negb].
  unfold esdm_drng_alloc_common, mbind, M_bind.
  cbn [load_drng drng set_drng_cb]. rewrite Ha.
  cbn [store_drng]. replace (ret <? 0) with true by lia.
  cbn [mret M_ret]. replace (ret <? 0) with true by lia.
  eexists. split; [reflexivity|].
  split; [by rewrite esdm_get_available_run; cbn; rewrite Hav|].
  split; [by repeat split|]. split; [done|].
  intros fuel p buf outbuflen Hlen.
  unfold esdm_drng_get. replace (outbuflen =? 0) with false by lia.
  cbn [orb]. unfold mbind, M_bind. rewrite esdm_get_available_run.
  cbn. by rewrite Hav.
Qed.

(** X12: [esdm_drng_mgr_finalize] calls the deallocation through the
    DRNG callback of the initial DRNG: on a manager that was never
    initialised (callback NULL, as in the static initialiser) this is a
    call through a NULL pointer.  Otherwise the DRBG pointer becomes
    NULL, while [esdm_avail] is left as it is: on an available manager a
    later [esdm_drng_mgr_initalize] returns 0 without allocating a DRBG
    again, and a seed injected into the initial DRNG is dropped. *)
Theorem esdm_drng_mgr_finalize_outcomes (s : esdm_mgr) :
  match drng_cb (esdm_drng_init s) with
  | None => esdm_drng_mgr_finalize s = Fault NullDeref
  | Some _ =>
      exists s',
        esdm_drng_mgr_finalize s = Ok tt s' /\
        drng (esdm_drng_init s') = None /\
        same_env s s' /\
        (esdm_avail s <> 0 ->
         esdm_get_available s' = Ok true s' /\
         esdm_drng_mgr_initalize s' = Ok 0 s') /\
        (forall inbuf fs,
           esdm_drng_inject init_ptr inbuf fs s' = Ok tt s')
  end.
Proof.
  unfold esdm_drng_mgr_finalize, esdm_drng_init_instance, mbind, M_bind.
  cbn [load_drng]. destruct (drng_cb (esdm_drng_init s)) as [c|]; [|done].
  eexists. split; [reflexivity|]. split; [done|].
  split; [by repeat split|]. split.
  - intros Hav. unfold esdm_drng_mgr_initalize, mbind, M_bind.
    rewrite !esdm_get_available_run. cbn.
    by replace (esdm_avail s =? 0) with false by lia.
  - intros inbuf fs.
    eapply esdm_drng_inject_unallocated; [reflexivity|done].
Qed.

(** ** esdm_drng_mgr.c: generation *)

(** The run of an injection whose seed callback fails, with what it
    leaves alone. *)
Lemma esdm_drng_inject_failed_env p (s : esdm_mgr) (d : esdm_drng) st c
  inbuf fs ret st' :
  load_drng p s = Ok d s ->
  drng d = Some st ->
  drng_cb d = Some c ->
  drng_seed c st inbuf = (ret, st') ->
  ret < 0 ->
  exists s',
    esdm_drng_inject p inbuf fs s = Ok tt s' /\
    load_drng p s' = Ok (set_force_reseed true (set_drng (Some st') d)) s' /\
    esdm_avail s' = esdm_avail s.
Proof.
  intros Hl Hd Hc Hs Hr.
  unfold esdm_drng_inject. bind_step.
  rewrite Hl, Hd, Hc, Hs.
  destruct (ret <? 0) eqn:E; [|lia].
  match goal with
  | |- context [store_drng p ?x ?s1] =>
      destruct (store_drng_env p s1 d x Hl)
        as (s' & Hst & Hld & _ & _ & Hav & _)
  end.
  by exists s'.
Qed.

(** An injection into an instance that has a DRNG callback returns, and
    keeps the callback and the availability of the manager. *)
Lemma esdm_drng_inject_total p (s : esdm_mgr) (d : esdm_drng) c inbuf fs :
  load_drng p s = Ok d s ->
  drng_cb d = Some c ->
  exists s' d',
    esdm_drng_inject p inbuf fs s = Ok tt s' /\
    load_drng p s' = Ok d' s' /\
    drng_cb d' = Some c /\
    esdm_avail s' = esdm_avail s.
Proof.
  intros Hl Hc. destruct (drng d) as [st|] eqn:Hd.
  - destruct (drng_seed c st inbuf) as [ret st'] eqn:Hs.
    destruct (Z_lt_le_dec ret 0) as [Hneg|Hpos].
    + destruct (esdm_drng_inject_failed_env p s d st c inbuf fs ret st'
                  Hl Hd Hc Hs Hneg) as (s1 & Hr & Hl1 & Hav).
      by eexists s1, _.
    + destruct (esdm_drng_inject_seeded_env p s d st c inbuf fs ret st'
                  Hl Hd Hc Hs Hpos)
        as (s1 & d1 & Hr & Hl1 & _ & _ & _ & Hc1 & _ & _ & Hav & _).
      by exists s1, d1.
  - exists s, d.
    by rewrite (esdm_drng_inject_unallocated p s d inbuf fs Hl Hd).
Qed.

(** So does a seeding. *)
Lemma esdm_drng_seed_total p (s : esdm_mgr) (d : esdm_drng) c :
  load_drng p s = Ok d s ->
  drng_cb d = Some c ->
  exists s' d',
    esdm_drng_seed p s = Ok tt s' /\
    load_drng p s' = Ok d' s' /\
    drng_cb d' = Some c /\
    esdm_avail s' = esdm_avail s.
Proof.
  intros Hl Hc. unfold esdm_drng_seed. bind_step.
  rewrite esdm_get_available_run. destruct (negb (esdm_avail s =? 0)).
  - bind_step. unfold esdm_drng_seed_es. bind_step. rewrite Hl.
    bind_step. unfold gets at 1. bind_step. unfold gets at 1.
    destruct (esdm_fill_seed_buffer _ _ _) as [seedbuf e'].
    bind_step. unfold modify at 1. bind_step.
    match goal with
    | |- context [esdm_drng_inject p ?b ?f ?sa] =>
        destruct (esdm_drng_inject_total p sa d c b f)
          as (sb & db & Hinj & Hlb & Hcb & Havb);
          [by rewrite (load_drng_frame p s), Hl | exact Hc |]
    end.
    rewrite Hinj. unfold modify at 1. bind_step.
    match goal with
    | |- context [load_drng p ?sc] =>
        assert (Hlc : load_drng p sc = Ok db sc)
          by (by rewrite (load_drng_frame p sb), Hlb)
    end.
    rewrite Hlc. bind_step. unfold gets at 1. bind_step. unfold gets at 1.
    destruct (esdm_drng_atomic_seed_drng _ _ _ _) as [[sta atomic'] tk'].
    bind_step.
    match goal with
    | |- context [store_drng p ?x ?sc] =>
        destruct (store_drng_env p sc db x Hlc)
          as (sd & Hst & Hld & _ & _ & Havd & _)
    end.
    rewrite Hst. unfold mbind, M_bind, modify.
    eexists _, _. split; [reflexivity|].
    split; [by rewrite (load_drng_frame p sd), Hld|].
    split; [exact Hcb|]. cbn. by rewrite Havd.
  - bind_step. unfold gets at 1.
    destruct (negb (thread_queue_sleeper (es s))); unfold modify.
    + destruct (esdm_drng_atomic_seed_es _ _ _ _) as [[e' atomic'] tk'].
      eexists _, d. split; [reflexivity|].
      split; [by rewrite (load_drng_frame p s), Hl|done].
    + eexists _, d. split; [reflexivity|].
      split; [by rewrite (load_drng_frame p s), Hl|done].
Qed.

(** The reseed step of a turn of the generation loop returns. *)
Lemma esdm_drng_get_reseed_total p (s : esdm_mgr) (d : esdm_drng) c
  (must : bool) :
  load_drng p s = Ok d s ->
  drng_cb d = Some c ->
  exists s' d',
    (if must then
       '(locked, e') ← gets (fun s => esdm_pool_trylock (es s));
       modify (set_es e');;
       if negb (locked =? 0) then
         d ← load_drng p;
         store_drng p (set_force_reseed true d)
       else
         esdm_drng_seed p;;
         modify (fun s => set_es (esdm_pool_unlock (es s)) s)
     else mret tt) s = Ok tt s' /\
    load_drng p s' = Ok d' s' /\
    drng_cb d' = Some c /\
    esdm_avail s' = esdm_avail s.
Proof.
  intros Hl Hc. destruct must; [|by exists s, d].
  unfold mbind at 1, M_bind at 1, gets at 1.
  destruct (esdm_pool_trylock (es s)) as [locked e'].
  unfold mbind at 1, M_bind at 1, modify at 1.
  assert (Hl1 : load_drng p (set_es e' s) = Ok d (set_es e' s))
    by (by rewrite (load_drng_frame p s), Hl).
  destruct (negb (locked =? 0)).
  - bind_step. rewrite Hl1.
    destruct (store_drng_env p (set_es e' s) d (set_force_reseed true d) Hl1)
      as (s2 & Hst & Hl2 & _ & _ & Hav & _).
    by exists s2, (set_force_reseed true d).
  - destruct (esdm_drng_seed_total p (set_es e' s) d c Hl1 Hc)
      as (s2 & d2 & Hrun & Hl2 & Hc2 & Hav).
    bind_step. rewrite Hrun. unfold modify.
    eexists _, d2. split; [reflexivity|].
    split; [by rewrite (load_drng_frame p s2), Hl2|done].
Qed.

(** The generation loop returns when the fuel covers one turn per byte:
    every turn that does not end the loop with -EFAULT delivers at least
    one byte. *)
Lemma esdm_drng_get_loop_total p (c : esdm_drng_cb) :
  (forall st n,
     (drng_generate c st n).1.1 <= n /\
     (0 < (drng_generate c st n).1.1 ->
      Z.of_nat (length (drng_generate c st n).1.2)
      = (drng_generate c st n).1.1)) ->
  forall fuel outbuflen processed data (s : esdm_mgr) (d : esdm_drng),
    load_drng p s = Ok d s ->
    drng_cb d = Some c ->
    0 <= outbuflen < 2 ^ 64 ->
    (Z.to_nat outbuflen <= fuel)%nat ->
    exists r data' s',
      esdm_drng_get_loop fuel p outbuflen processed data s
      = Ok (r, data') s' /\
      (r = - EFAULT \/
       (r = processed + outbuflen /\
        Z.of_nat (length data') = Z.of_nat (length data) + outbuflen)).
Proof.
  intros Hgen. induction fuel as [|fuel IH];
    intros outbuflen processed data s d Hl Hc Hlen Hfuel.
  - assert (outbuflen = 0) as -> by lia.
    exists processed, data, s. split; [reflexivity|]. right. lia.
  - destruct (Z.eq_dec outbuflen 0) as [->|Hne].
    { exists processed, data, s. split; [reflexivity|]. right. lia. }
    cbn [esdm_drng_get_loop].
    replace (outbuflen =? 0) with false by lia.
    bind_step.
    destruct (esdm_drng_must_reseed_value p s d Hl)
      as (s1 & Hrun1 & Hl1 & _ & _ & Hav1 & _).
    rewrite Hrun1. bind_step.
    match goal with
    | |- context [if ?b then _ else mret ()] =>
        destruct (esdm_drng_get_reseed_total p s1 _ c b Hl1 Hc)
          as (s2 & d2 & Hrun2 & Hl2 & Hc2 & _)
    end.
    rewrite Hrun2. bind_step. rewrite Hl2, Hc2.
    set (todo := min_t_u32 outbuflen ESDM_DRNG_MAX_REQSIZE).
    specialize (Hgen (drng d2) todo).
    destruct (drng_generate c (drng d2) todo) as [[ret out] st].
    cbn [fst snd] in Hgen. destruct Hgen as [Hret Hout].
    bind_step.
    destruct (store_drng_env p s2 d2 (set_drng st d2) Hl2)
      as (s3 & Hst & Hl3 & _).
    rewrite Hst.
    destruct (Z.leb_spec ret 0) as [Hle|Hgt].
    { eexists _, _, s3. split; [reflexivity|]. by left. }
    assert (Htodo : todo <= outbuflen).
    { unfold todo, min_t_u32, cast_u32.
      pose proof (Z.mod_le outbuflen (2 ^ 32)). lia. }
    assert (Hsz : cast_size_t (outbuflen - ret) = outbuflen - ret).
    { unfold cast_size_t. apply Z.mod_small. lia. }
    rewrite Hsz.
    destruct (IH (outbuflen - ret) (processed + ret) (data ++ out) s3
                (set_drng st d2) Hl3 Hc2)
      as (r & data' & s' & Hrun & Hres); [lia|lia|].
    exists r, data', s'. split; [exact Hrun|].
    destruct Hres as [->|[-> Hd]]; [by left|right].
    split; [lia|]. rewrite Hd, length_app, Nat2Z.inj_add, Hout by lia. lia.
Qed.

(** X13: [esdm_drng_get] returns all the bytes asked for, or an error.
    For an instance with a DRNG callback whose generate function returns
    no more than it is asked for (and a buffer of the length it returns),
    an available manager and a request for 0 < outbuflen < 2^64 bytes,
    the call returns once the fuel covers one turn of the loop per byte,
    and its result is either -EFAULT or the full length of the request
    (limited to SSIZE_MAX) with exactly as many bytes: it never returns
    a short count. *)
Theorem esdm_drng_get_all_or_error fuel p buf outbuflen (s : esdm_mgr)
  (d : esdm_drng) (c : esdm_drng_cb) :
  load_drng p s = Ok d s ->
  drng_cb d = Some c ->
  (forall st n,
     (drng_generate c st n).1.1 <= n /\
     (0 < (drng_generate c st n).1.1 ->
      Z.of_nat (length (drng_generate c st n).1.2)
      = (drng_generate c st n).1.1)) ->
  esdm_avail s <> 0 ->
  0 < outbuflen < 2 ^ 64 ->
  (Z.to_nat (Z.min outbuflen SSIZE_MAX) <= fuel)%nat ->
  exists r data s',
    esdm_drng_get fuel p (Some buf) outbuflen s = Ok (r, data) s' /\
    (r = - EFAULT \/
     (r = Z.min outbuflen SSIZE_MAX /\ Z.of_nat (length data) = r)).
Proof.
  intros Hl Hc Hgen Hav Hlen Hfuel.
  assert (Hmin : min_t_size_t outbuflen SSIZE_MAX
                 = Z.min outbuflen SSIZE_MAX).
  { unfold min_t_size_t, cast_size_t, SSIZE_MAX.
    rewrite !Z.mod_small; lia. }
  unfold esdm_drng_get. replace (outbuflen =? 0) with false by lia.
  cbn [orb]. bind_step. rewrite esdm_get_available_run.
  replace (esdm_avail s =? 0) with false by lia. cbn [negb].
  rewrite Hmin. bind_step. rewrite Hl. bind_step.
  unfold esdm_config_drng_max_wo_reseed at 1, gets at 1.
  assert (Hdem : exists s1 d1,
            (if atomic_read_u32 (requests_since_fully_seeded d)
                >? esdm_drng_max_wo_reseed (mgr_config s)
             then esdm_unset_fully_seeded p else mret ()) s = Ok tt s1 /\
            load_drng p s1 = Ok d1 s1 /\ drng_cb d1 = Some c).
  { destruct (_ >? _); [|by exists s, d].
    unfold esdm_unset_fully_seeded. bind_step. rewrite Hl.
    destruct (store_drng_env p s d (set_fully_seeded false d) Hl)
      as (s1 & Hst & Hl1 & _).
    by exists s1, (set_fully_seeded false d). }
  destruct Hdem as (s1 & d1 & Hrun1 & Hl1 & Hc1).
  bind_step. rewrite Hrun1.
  destruct (esdm_drng_get_loop_total p c Hgen fuel
              (Z.min outbuflen SSIZE_MAX) 0 [] s1 d1 Hl1 Hc1)
    as (r & data & s' & Hrun & Hres); [unfold SSIZE_MAX; lia|exact Hfuel|].
  exists r, data, s'. split; [exact Hrun|].
  destruct Hres as [->|[-> Hd]]; [by left|right].
  split; [lia|]. cbn [length] in Hd. lia.
Qed.

(** ** esdm_drng_mgr.c: the seed work *)

(** The loop of the seed work passes over the nodes without an instance
    and over the fully seeded instances. *)
Lemma esdm_drng_seed_work_nodes_skip n :
  forall (a : nat) (s : esdm_mgr) (arr : list (option esdm_drng)),
    esdm_drng_instances s = Some arr ->
    (forall i, (a <= i < a + n)%nat ->
       match arr !! i with
       | Some (Some di) => fully_seeded di = true
       | Some None => True
       | None => False
       end) ->
    esdm_drng_seed_work_nodes (seq a n) s = Ok false s.
Proof.
  induction n as [|n IH]; intros a s arr Ha Hgood; [reflexivity|].
  cbn [seq esdm_drng_seed_work_nodes].
  unfold mbind at 1, M_bind at 1, gets at 1. rewrite Ha.
  pose proof (Hgood a ltac:(lia)) as Hga.
  destruct (arr !! a) as [[da|]|]; [|apply (IH _ _ arr Ha)|done].
  - rewrite Hga. cbn [negb]. apply (IH _ _ arr Ha).
    intros i Hi. apply Hgood. lia.
  - intros i Hi. apply Hgood. lia.
Qed.

(** It stops at the first instance that is not fully seeded, and seeds
    it. *)
Lemma esdm_drng_seed_work_nodes_first n :
  forall (a : nat) (s : esdm_mgr) (arr : list (option esdm_drng)) k d,
    esdm_drng_instances s = Some arr ->
    (a <= k < a + n)%nat ->
    (forall i, (a <= i < k)%nat ->
       match arr !! i with
       | Some (Some di) => fully_seeded di = true
       | Some None => True
       | None => False
       end) ->
    arr !! k = Some (Some d) ->
    fully_seeded d = false ->
    esdm_drng_seed_work_nodes (seq a n) s =
      (esdm_drng_seed_work_one (node_ptr k) (Z.of_nat k);; mret true) s.
Proof.
  induction n as [|n IH]; intros a s arr k d Ha Hk Hgood Hd Hfs; [lia|].
  cbn [seq esdm_drng_seed_work_nodes].
  unfold mbind at 1, M_bind at 1, gets at 1. rewrite Ha.
  destruct (decide (a = k)) as [->|Hne].
  - by rewrite Hd, Hfs.
  - pose proof (Hgood a ltac:(lia)) as Hga.
    destruct (arr !! a) as [[da|]|]; [|apply (IH _ _ arr k d Ha)|done].
    + rewrite Hga. cbn [negb]. apply (IH _ _ arr k d Ha); try done; [lia|].
      intros i Hi. apply Hgood. lia.
    + lia.
    + intros i Hi. apply Hgood. lia.
    + done.
    + done.
Qed.

(** X14: one pass of the seed work seeds one DRNG at most.  With a
    per-node array, [__esdm_drng_seed_work] seeds the first online node
    whose instance is not fully seeded, as [esdm_drng_seed_work_one] does
    for that node, and does nothing else: it neither looks at the later
    nodes nor signals that all nodes are seeded.  When every online node
    has no instance or a fully seeded one, the pass touches no DRNG and
    signals [esdm_pool_all_nodes_seeded(true)]. *)
Theorem esdm_drng_seed_work_first_unseeded (s : esdm_mgr)
  (arr : list (option esdm_drng)) :
  esdm_drng_instances s = Some arr ->
  (forall k d,
     (k < Z.to_nat (min_t_u32 (esdm_online_nodes (es s))
                              (esdm_max_nodes (mgr_config s))))%nat ->
     (forall i, (i < k)%nat ->
        match arr !! i with
        | Some (Some di) => fully_seeded di = true
        | Some None => True
        | None => False
        end) ->
     arr !! k = Some (Some d) ->
     fully_seeded d = false ->
     __esdm_drng_seed_work s
     = esdm_drng_seed_work_one (node_ptr k) (Z.of_nat k) s) /\
  ((forall i,
      (i < Z.to_nat (min_t_u32 (esdm_online_nodes (es s))
                               (esdm_max_nodes (mgr_config s))))%nat ->
      match arr !! i with
      | Some (Some di) => fully_seeded di = true
      | Some None => True
      | None => False
      end) ->
   __esdm_drng_seed_work s
   = Ok tt (set_es (esdm_pool_all_nodes_seeded true (es s)) s)).
Proof.
  intros Ha. split.
  - intros k d Hk Hgood Hd Hfs.
    unfold __esdm_drng_seed_work, mbind at 1, M_bind at 1, gets at 1.
    rewrite Ha. bind_step. bind_step.
    unfold esdm_config_online_nodes, esdm_config_max_nodes, mbind, M_bind,
      gets. cbn [mret M_ret].
    rewrite (esdm_drng_seed_work_nodes_first _ 0%nat s arr k d Ha);
      try done; [|lia|intros i Hi; apply Hgood; lia].
    unfold mbind, M_bind.
    by destruct (esdm_drng_seed_work_one (node_ptr k) (Z.of_nat k) s)
      as [[] s'|].
  - intros Hgood.
    unfold __esdm_drng_seed_work, mbind at 1, M_bind at 1, gets at 1.
    rewrite Ha. bind_step. bind_step.
    unfold esdm_config_online_nodes, esdm_config_max_nodes, mbind, M_bind,
      gets. cbn [mret M_ret].
    rewrite (esdm_drng_seed_work_nodes_skip _ 0%nat s arr Ha);
      [reflexivity|].
    intros i Hi. apply Hgood. lia.
Qed.

(** X15: the seed work in the steady state.  When there is no per-node
    array and the initial DRNG is fully seeded, and the entropy sources
    want no reseed once they have been told that all nodes are seeded,
    [esdm_drng_seed_work] makes one pass and returns: it signals that all
    nodes are seeded and releases the pool lock, once; no DRNG is
    touched and the clock is not read. *)
Theorem esdm_drng_seed_work_steady fuel (s : esdm_mgr) :
  esdm_drng_instances s = None ->
  fully_seeded (esdm_drng_init s) = true ->
  esdm_es_reseed_wanted (esdm_pool_all_nodes_seeded true (es s)) = false ->
  esdm_drng_seed_work (S fuel) s
  = Ok tt (set_es (esdm_pool_unlock
                     (esdm_pool_all_nodes_seeded true (es s))) s).
Proof.
  intros Ha Hfs Hw.
  unfold esdm_drng_seed_work. cbn [_esdm_drng_seed_work].
  unfold __esdm_drng_seed_work, mbind, M_bind, gets, modify.
  rewrite Ha, Hfs. cbn. by rewrite Hw.
Qed.

(** ** esdm_drng_mgr.c: the reset *)

(** The loop of [_esdm_reset] over the nodes [a], ..., [a + k - 1]. *)
Lemma for_each_node_reset k :
  forall (a : nat) (s : esdm_mgr) (arr : list (option esdm_drng)),
    esdm_drng_instances s = Some arr ->
    (a + k <= length arr)%nat ->
    exists s' arr',
      for_each_node (seq a k) (fun cpu =>
        arr ← gets esdm_drng_instances;
        match arr with
        | None => raise NullDeref
        | Some arr =>
            match arr !! cpu with
            | None => raise OutOfBounds
            | Some None => mret tt
            | Some (Some _) => esdm_drng_reset (node_ptr cpu)
            end
        end) s = Ok tt s' /\
      esdm_drng_instances s' = Some arr' /\
      length arr' = length arr /\
      esdm_drng_atomic s' = esdm_drng_atomic s /\
      es s' = es s /\
      mgr_config s' = mgr_config s /\
      esdm_avail s' = esdm_avail s /\
      (ticks s <= ticks s')%nat /\
      (forall i, ~ (a <= i < a + k)%nat -> arr' !! i = arr !! i) /\
      (forall i, arr !! i = Some None -> arr' !! i = Some None) /\
      (forall i d,
         (a <= i < a + k)%nat ->
         arr !! i = Some (Some d) ->
         exists t,
           (ticks s <= t < ticks s')%nat /\
           arr' !! i =
             Some (Some
               (set_force_reseed true
                  (set_fully_seeded false
                     (set_last_seeded (clock t)
                        (set_requests_since_fully_seeded 0
                           (set_requests ESDM_DRNG_RESEED_THRESH d))))))).
Proof.
  induction k as [|k IH]; intros a s arr Ha Hlen.
  - exists s, arr. repeat split; try done. intros i d Hi. lia.
  - cbn [seq for_each_node]. bind_step.
    unfold mbind at 1, M_bind at 1, gets at 1. rewrite Ha.
    destruct (arr !! a) as [[d|]|] eqn:Hn.
    + unfold esdm_drng_reset, mbind, M_bind.
      cbn [load_drng]. rewrite Ha, Hn. cbn [time_NULL store_drng].
      cbn [esdm_drng_instances set_ticks]. rewrite Ha, Hn.
      match goal with
      | |- context [for_each_node _ _ ?s1] =>
          match s1 with
          | set_esdm_drng_instances (Some ?arr1) _ =>
              destruct (IH (S a) s1 arr1)
                as (s' & arr' & Hrun & Ha' & Hlen' & Hat & Hes & Hcf
                    & Hav & Htk & Hout & Hnone & Hin');
                [done | rewrite length_insert; lia |]
          end
      end.
      exists s', arr'. split; [exact Hrun|]. split; [done|].
      rewrite length_insert in Hlen'. cbn in Htk.
      do 5 (split; [done|]). split; [lia|]. split; [|split].
      * intros i Hi. rewrite Hout by lia.
        apply list_lookup_insert_ne. lia.
      * intros i Hi. apply Hnone.
        rewrite list_lookup_insert_ne; [done|]. intros ->. congruence.
      * intros i di Hi Hdi. destruct (decide (i = a)) as [->|Hne].
        -- exists (ticks s). split; [lia|].
           rewrite Hout by lia. rewrite list_lookup_insert_eq by lia.
           rewrite Hn in Hdi. by injection Hdi as <-.
        -- destruct (Hin' i di) as (t & Ht & Hlk); [lia| |].
           { by rewrite list_lookup_insert_ne. }
           exists t. split; [cbn in Ht; lia|exact Hlk].
    + cbn [mret M_ret].
      destruct (IH (S a) s arr Ha)
        as (s' & arr' & Hrun & Ha' & Hlen' & Hat & Hes & Hcf & Hav
            & Htk & Hout & Hnone & Hin'); [lia|].
      exists s', arr'. split; [exact Hrun|]. do 7 (split; [done|]).
      split; [|split; [done|]].
      * intros i Hi. destruct (decide (i = a)) as [->|Hne].
        -- rewrite Hn. by apply Hnone.
        -- apply Hout. lia.
      * intros i di Hi Hdi. destruct (decide (i = a)) as [->|Hne];
           [congruence|].
        apply Hin'; [lia|done].
    + apply lookup_ge_None in Hn. lia.
Qed.

(** X16: [_esdm_reset] without a per-node array resets the initial
    DRNG: it returns 0 and leaves the initial DRNG not fully seeded and
    forced to reseed, with the request counter at
    ESDM_DRNG_RESEED_THRESH; the atomic DRNG is reset after it, and the
    entropy sources are set to the initial entropy threshold and reset.
    The DRBG and the callbacks stay, and so does the availability of the
    manager. *)
Theorem esdm_reset_init_only (s : esdm_mgr) :
  esdm_drng_instances s = None ->
  exists s',
    _esdm_reset s = Ok 0 s' /\
    esdm_drng_init s' =
      set_force_reseed true
        (set_fully_seeded false
           (set_last_seeded (clock (ticks s))
              (set_requests_since_fully_seeded 0
                 (set_requests ESDM_DRNG_RESEED_THRESH (esdm_drng_init s)))))
    /\
    (esdm_drng_atomic s', ticks s')
      = esdm_drng_atomic_reset (esdm_drng_atomic s) (S (ticks s)) /\
    es s' = esdm_reset_state
              (esdm_set_entropy_thresh ESDM_INIT_ENTROPY_BITS (es s)) /\
    esdm_avail s' = esdm_avail s /\
    mgr_config s' = mgr_config s.
Proof.
  intros Ha. unfold _esdm_reset, mbind, M_bind, gets, modify. rewrite Ha.
  unfold esdm_drng_reset, mbind, M_bind.
  cbn [load_drng time_NULL store_drng mret M_ret].
  cbn [esdm_drng_atomic ticks set_esdm_drng_init set_ticks].
  destruct (esdm_drng_atomic_reset _ _) as [atomic' tk'].
  eexists. split; [reflexivity|]. by repeat split.
Qed.

(** X17: [_esdm_reset] with a per-node array that has a slot for every
    online node resets every existing DRNG of an online node: each is
    left not fully seeded and forced to reseed, with the request counter
    at ESDM_DRNG_RESEED_THRESH and [last_seeded] at a reading of the
    clock made during the call, and keeps its DRBG and callbacks; the
    slots without an instance stay empty.  The call returns 0 and the
    entropy sources are set to the initial entropy threshold and
    reset. *)
Theorem esdm_reset_all_nodes (s : esdm_mgr)
  (arr : list (option esdm_drng)) :
  esdm_drng_instances s = Some arr ->
  (Z.to_nat (min_t_u32 (esdm_online_nodes (es s))
                       (esdm_max_nodes (mgr_config s)))
   <= length arr)%nat ->
  exists s' arr',
    _esdm_reset s = Ok 0 s' /\
    esdm_drng_instances s' = Some arr' /\
    length arr' = length arr /\
    (forall node d,
       (node < Z.to_nat (min_t_u32 (esdm_online_nodes (es s))
                                   (esdm_max_nodes (mgr_config s))))%nat ->
       arr !! node = Some (Some d) ->
       exists t d',
         arr' !! node = Some (Some d') /\
         requests d' = ESDM_DRNG_RESEED_THRESH /\
         requests_since_fully_seeded d' = 0 /\
         last_seeded d' = clock t /\
         (ticks s <= t)%nat /\
         fully_seeded d' = false /\
         force_reseed d' = true /\
         drng d' = drng d /\
         drng_cb d' = drng_cb d /\
         hash_cb d' = hash_cb d) /\
    (forall node, arr !! node = Some None -> arr' !! node = Some None) /\
    es s' = esdm_reset_state
              (esdm_set_entropy_thresh ESDM_INIT_ENTROPY_BITS (es s)) /\
    esdm_avail s' = esdm_avail s.
Proof.
  intros Ha Hlen.
  destruct (for_each_node_reset _ 0%nat s arr Ha Hlen)
    as (s1 & arr1 & Hrun & Ha1 & Hlen1 & _ & Hes & _ & Hav & _ & _
        & Hnone & Hin).
  unfold _esdm_reset. bind_step. unfold gets at 1. rewrite Ha.
  bind_step.
  unfold for_each_online_node, esdm_config_online_nodes,
    esdm_config_max_nodes, mbind at 1, M_bind at 1.
  unfold mbind at 1, M_bind at 1, gets at 1.
  unfold mbind at 1, M_bind at 1, gets at 1. cbn [mret M_ret].
  rewrite Hrun. unfold mbind, M_bind, modify. cbn [mret M_ret].
  destruct (esdm_drng_atomic_reset _ _) as [atomic' tk'].
  eexists _, arr1. split; [reflexivity|]. split; [exact Ha1|].
  split; [exact Hlen1|]. split; [|split; [exact Hnone|]].
  - intros node d Hnode Hd.
    destruct (Hin node d ltac:(lia) Hd) as (t & Ht & Hlk).
    eexists t, _. split; [exact Hlk|]. repeat split; try done. lia.
  - cbn. by rewrite Hes, Hav.
Qed.

(** ** esdm_drng_mgr.c: the other branches of seeding and forced reseed *)

(** X18: the fallback branch of [esdm_drng_force_reseed].  Without a
    per-node array, or with the initial DRNG past the reseed threshold,
    only the initial DRNG is concerned: its [force_reseed] becomes its
    [fully_seeded] flag, and the atomic DRNG is not forced to reseed. *)
Theorem esdm_drng_force_reseed_init_only (s : esdm_mgr) :
  esdm_drng_instances s = None \/
  atomic_read_u32 (requests_since_fully_seeded (esdm_drng_init s))
    > cast_u32 ESDM_DRNG_RESEED_THRESH ->
  exists s',
    esdm_drng_force_reseed s = Ok tt s' /\
    force_reseed (esdm_drng_init s') = fully_seeded (esdm_drng_init s) /\
    fully_seeded (esdm_drng_init s') = fully_seeded (esdm_drng_init s) /\
    requests (esdm_drng_init s') = requests (esdm_drng_init s) /\
    esdm_drng_atomic s' = esdm_drng_atomic s /\
    same_env s s'.
Proof.
  intros Hcase. unfold esdm_drng_force_reseed, mbind, M_bind, gets, modify.
  assert (Hb : match esdm_drng_instances s with
               | None => true
               | Some _ =>
                   atomic_read_u32
                     (requests_since_fully_seeded (esdm_drng_init s))
                   >? cast_u32 ESDM_DRNG_RESEED_THRESH
               end = true).
  { destruct Hcase as [->|Hgt]; [done|].
    destruct (esdm_drng_instances s); [lia|done]. }
  rewrite Hb. eexists. split; [reflexivity|]. by repeat split.
Qed.

(** X19: until the manager is available, [esdm_drng_seed] does not seed
    the DRNG it is given: no instance changes and the manager stays
    unavailable.  With a waiter on the initialisation queue only the
    seeding state of the entropy sources advances
    ([esdm_init_ops(NULL)]); without one the atomic DRNG is seeded from
    the entropy sources. *)
Theorem esdm_drng_seed_unavailable p (s : esdm_mgr) :
  esdm_avail s = 0 ->
  exists s',
    esdm_drng_seed p s = Ok tt s' /\
    esdm_drng_init s' = esdm_drng_init s /\
    esdm_drng_instances s' = esdm_drng_instances s /\
    mgr_config s' = mgr_config s /\
    esdm_avail s' = 0 /\
    (thread_queue_sleeper (es s) = true ->
     es s' = esdm_init_ops (mgr_config s) None (es s) /\
     esdm_drng_atomic s' = esdm_drng_atomic s /\
     ticks s' = ticks s) /\
    (thread_queue_sleeper (es s) = false ->
     (es s', esdm_drng_atomic s', ticks s')
     = esdm_drng_atomic_seed_es (mgr_config s) (es s)
         (esdm_drng_atomic s) (ticks s)).
Proof.
  intros Hav. unfold esdm_drng_seed. bind_step.
  rewrite esdm_get_available_run, Hav. cbn [Z.eqb negb].
  unfold mbind, M_bind, gets, modify.
  destruct (thread_queue_sleeper (es s)); cbn [negb].
  - eexists. split; [reflexivity|]. by repeat split.
  - destruct (esdm_drng_atomic_seed_es _ _ _ _) as [[e' atomic'] tk'].
    eexists. split; [reflexivity|]. by repeat split.
Qed.

(** ** esdm_drng_mgr.c: the output interfaces *)

(** X20: [esdm_get_random_bytes] converts the requested length to
    [uint32_t]: lengths that differ by a multiple of 2^32 are served
    alike, and a request for a multiple of 2^32 bytes writes no byte and
    returns 0 (or the error of the initialisation). *)
Theorem esdm_get_random_bytes_length_wraps fuel buf nbytes k
  (s : esdm_mgr) :
  esdm_get_random_bytes fuel buf (nbytes + k * 2 ^ 32) s
  = esdm_get_random_bytes fuel buf nbytes s /\
  (forall r data s',
     esdm_get_random_bytes fuel buf (k * 2 ^ 32) s = Ok (r, data) s' ->
     data = [] /\
     (r = 0 \/ (r <> 0 /\ exists s0, esdm_drng_mgr_initalize s0 = Ok r s'))).
Proof.
  split.
  - unfold esdm_get_random_bytes, cast_u32.
    by rewrite Z_mod_plus_full.
  - intros r data s'. unfold esdm_get_random_bytes, cast_u32.
    rewrite Z_mod_mult. unfold esdm_drng_get_sleep, mbind, M_bind, gets.
    destruct (esdm_config_curr_node s) as [node s1|]; [|done].
    match goal with
    | |- match ?x with _ => _ end = _ -> _ =>
        destruct x as [p s2|]; [|done]
    end.
    destruct (esdm_drng_mgr_initalize s2) as [ret s3|] eqn:Hinit; [|done].
    destruct (ret =? 0) eqn:Hret; cbn [negb].
    + unfold esdm_drng_get. rewrite orb_true_r. intros [= <- <- <-].
      split; [done|]. by left.
    + intros [= <- <- <-]. split; [done|]. right.
      split; [lia|]. by exists s2.
Qed.

End ServiceProperties.

(** * The properties on the test double *)

#[local] Existing Instance test_definitions.
#[local] Existing Instance test_collaborators.

(** The manager runs on the test double: 5000 bytes are served in two
    chunks of at most ESDM_DRNG_MAX_REQSIZE bytes, the first one after a
    reseed that the pending [force_reseed] asks for. *)
Example esdm_drng_get_runs :
  exists s' d',
    esdm_drng_get 2 init_ptr (Some []) 5000
      (test_mgr 1 (test_drng 0 (Some 0) (2 ^ 20) 0 false true) None true)
      = Ok (5000, replicate 5000 Byte.x00) s' /\
    load_drng init_ptr s' = Ok d' s' /\
    fully_seeded d' = true /\
    force_reseed d' = false /\
    requests d' = 2 ^ 20 - 1 /\
    last_seeded d' = 1001.
Proof.
  eexists _, _. split; [vm_compute; reflexivity|].
  split; [vm_compute; reflexivity|]. by repeat split.
Qed.

(** Before the initialisation the manager serves nothing. *)
Example esdm_drng_get_unavailable :
  esdm_drng_get 2 init_ptr (Some []) 5000
    (test_mgr 0 (test_drng 0 (Some 0) (2 ^ 20) 0 false true) None true)
  = Ok (- EOPNOTSUPP, [])
      (test_mgr 0 (test_drng 0 (Some 0) (2 ^ 20) 0 false true) None true).
Proof. reflexivity. Qed.

(** C1, counterexample: the hash selftest fails with -EFAULT; the
    initialisation returns that error, and the manager is available. *)
Lemma esdm_drng_mgr_initalize_avail_counterexample :
  exists s',
    esdm_drng_mgr_initalize
      (test_mgr 0 (test_drng 0 (Some (- EFAULT)) (2 ^ 20) 0 false true)
         None false)
      = Ok (- EFAULT) s' /\
    - EFAULT <> 0 /\
    esdm_get_available s' = Ok true s'.
Proof. eexists. split; [reflexivity|]. split; [discriminate|reflexivity]. Qed.

Lemma esdm_drng_mgr_initalize_selftest_failure_witness :
  exists s',
    esdm_drng_mgr_initalize
      (test_mgr 0 (test_drng 0 (Some (-1)) (2 ^ 20) 0 false true) None false)
      = Ok (-1) s' /\
    esdm_get_available s' = Ok true s'.
Proof.
  eexists. eapply esdm_drng_mgr_initalize_selftest_failure.
  - reflexivity.
  - vm_compute. reflexivity.
  - discriminate.
  - vm_compute. reflexivity.
  - discriminate.
Defined.

(** C2, counterexample: the array exists, every counter
    [requests_since_fully_seeded] is zero, and the DRNG of node 0 is not
    fully seeded and waits for a reseed; after the forced reseed its
    [force_reseed] flag is false. *)
Lemma esdm_drng_force_reseed_counterexample :
  exists s' d',
    esdm_drng_force_reseed
      (test_mgr 1 (test_drng 0 (Some 0) (2 ^ 20) 0 true false)
         (Some [Some (test_drng 0 (Some 0) (2 ^ 20) 0 false true); None])
         false)
      = Ok tt s' /\
    load_drng (node_ptr 0) s' = Ok d' s' /\
    force_reseed d' = false.
Proof. eexists _, _. split; [reflexivity|]. split; reflexivity. Qed.

Lemma esdm_drng_force_reseed_nodes_witness :
  exists s',
    esdm_drng_force_reseed
      (test_mgr 1 (test_drng 0 (Some 0) (2 ^ 20) 0 true false)
         (Some [Some (test_drng 0 (Some 0) (2 ^ 20) 0 true false); None])
         false)
      = Ok tt s' /\
    (exists d', load_drng (node_ptr 0) s' = Ok d' s' /\
                force_reseed d' = true) /\
    force_reseed (esdm_drng_atomic s') = true.
Proof.
  destruct (esdm_drng_force_reseed_nodes
              (test_mgr 1 (test_drng 0 (Some 0) (2 ^ 20) 0 true false)
                 (Some [Some (test_drng 0 (Some 0) (2 ^ 20) 0 true false);
                        None])
                 false)
              [Some (test_drng 0 (Some 0) (2 ^ 20) 0 true false); None])
    as (s' & arr' & Hrun & Ha & Hnodes & Hat).
  - reflexivity.
  - vm_compute. discriminate.
  - vm_compute. lia.
  - exists s'. split; [exact Hrun|]. split; [|exact Hat].
    destruct (Hnodes 0%nat (test_drng 0 (Some 0) (2 ^ 20) 0 true false))
      as (d' & Hd' & Hf & _).
    + vm_compute. lia.
    + reflexivity.
    + exists d'. split; [|exact Hf]. cbn. by rewrite Ha, Hd'.
Defined.

Lemma esdm_drng_inject_success_witness :
  exists s' d',
    esdm_drng_inject init_ptr [] false
      (test_mgr 1 (test_drng 0 (Some 0) (2 ^ 20 - 7) 5 false true) None false)
      = Ok tt s' /\
    load_drng init_ptr s' = Ok d' s' /\
    requests d' = 2 ^ 20 /\
    last_seeded d' = 1001 /\
    force_reseed d' = false /\
    requests_since_fully_seeded d' = 12 /\
    fully_seeded d' = false.
Proof.
  destruct (esdm_drng_inject_success init_ptr
              (test_mgr 1 (test_drng 0 (Some 0) (2 ^ 20 - 7) 5 false true)
                 None false)
              (test_drng 0 (Some 0) (2 ^ 20 - 7) 5 false true)
              0 (test_drng_cb 0) [] false 0 1
              eq_refl eq_refl eq_refl eq_refl (Z.le_refl 0))
    as (s' & d' & Hrun & Hl & Hq & Hls & Hfr & _ & _ & Hrs & Hfs).
  exists s', d'. do 5 (split; [assumption|]). split; [|exact Hfs].
  apply Hrs; [reflexivity | |]; vm_compute; split; discriminate.
Defined.

Lemma esdm_drng_inject_failure_witness :
  exists s' d',
    esdm_drng_inject init_ptr [] true
      (test_mgr 1 (test_drng (-1) (Some 0) (2 ^ 20 - 7) 5 true false)
         None false)
      = Ok tt s' /\
    load_drng init_ptr s' = Ok d' s' /\
    force_reseed d' = true /\
    fully_seeded d' = true /\
    requests d' = 2 ^ 20 - 7 /\
    requests_since_fully_seeded d' = 5 /\
    last_seeded d' = 900.
Proof.
  exact (esdm_drng_inject_failure init_ptr
           (test_mgr 1 (test_drng (-1) (Some 0) (2 ^ 20 - 7) 5 true false)
              None false)
           (test_drng (-1) (Some 0) (2 ^ 20 - 7) 5 true false)
           0 (test_drng_cb (-1)) [] true (-1) 1
           eq_refl eq_refl eq_refl eq_refl eq_refl).
Defined.

Lemma esdm_drng_must_reseed_iff_witness :
  exists s',
    esdm_drng_must_reseed init_ptr
      (test_mgr 1 (test_drng 0 (Some 0) (2 ^ 20) 0 true true) None false)
      = Ok true s'.
Proof.
  destruct (esdm_drng_must_reseed_iff init_ptr
              (test_mgr 1 (test_drng 0 (Some 0) (2 ^ 20) 0 true true)
                 None false)
              (test_drng 0 (Some 0) (2 ^ 20) 0 true true) eq_refl)
    as (b & s' & Hrun & Hiff & _).
  - vm_compute. split; discriminate.
  - vm_compute. discriminate.
  - vm_compute. discriminate.
  - vm_compute. discriminate.
  - exists s'. rewrite Hrun. f_equal. apply Hiff. right. left. reflexivity.
Defined.

Lemma esdm_drng_get_demotion_witness :
  exists s1,
    load_drng init_ptr s1
      = Ok (set_fully_seeded false
              (test_drng 0 (Some 0) (2 ^ 20) (2 ^ 30 + 1) true false)) s1 /\
    esdm_drng_get 1 init_ptr (Some []) 16
      (test_mgr 1 (test_drng 0 (Some 0) (2 ^ 20) (2 ^ 30 + 1) true false)
         None false)
      = esdm_drng_get_loop 1 init_ptr 16 0 [] s1.
Proof.
  destruct (esdm_drng_get_demotion 1 init_ptr [] 16
              (test_mgr 1
                 (test_drng 0 (Some 0) (2 ^ 20) (2 ^ 30 + 1) true false)
                 None false)
              (test_drng 0 (Some 0) (2 ^ 20) (2 ^ 30 + 1) true false))
    as [Hgt _].
  - discriminate.
  - reflexivity.
  - destruct Hgt as (s1 & Hl & _ & _ & Hrun); [reflexivity|].
    exists s1. split; [exact Hl|exact Hrun].
Defined.

Lemma esdm_config_entropy_rate_set_get_witness :
  exists s',
    (esdm_config_es_jent_entropy_rate_set 1000;;
     esdm_config_es_jent_entropy_rate)
      (test_mgr 1 (test_drng 0 (Some 0) (2 ^ 20) 0 true false) None false)
      = Ok 256 s'.
Proof.
  destruct (esdm_config_entropy_rate_set_get 1000
              (test_mgr 1 (test_drng 0 (Some 0) (2 ^ 20) 0 true false)
                 None false))
    as (_ & Hjent & _).
  - vm_compute. split; [discriminate|reflexivity].
  - vm_compute. split; [discriminate|reflexivity].
  - exact Hjent.
Defined.

Lemma esdm_drng_get_nothing_requested_witness :
  esdm_drng_get 0 (node_ptr 3) (Some []) 0
    (test_mgr 0 (test_drng 0 (Some 0) (2 ^ 20) 0 false true) None false)
  = Ok (0, [])
      (test_mgr 0 (test_drng 0 (Some 0) (2 ^ 20) 0 false true) None false).
Proof.
  exact (esdm_drng_get_nothing_requested 0 (node_ptr 3) (Some []) 0 _
           (or_intror eq_refl)).
Defined.

(** C7, counterexample: after a reset, 2^31 + ESDM_DRNG_RESEED_THRESH + 1
    reseed tests in a row take [requests] from the threshold down to
    INT_MIN and then, by the wrap-around of [int], to INT_MAX, which
    exceeds the threshold. *)
Lemma requests_ceiling_counterexample :
  exists s0 s' d',
    esdm_drng_reset init_ptr
      (test_mgr 1 (test_drng 0 (Some 0) (2 ^ 20) 0 true false) None false)
      = Ok tt s0 /\
    run_ops init_ptr
      (replicate (Z.to_nat (2 ^ 31 + ESDM_DRNG_RESEED_THRESH + 1))
         op_must_reseed) s0
      = Ok tt s' /\
    load_drng init_ptr s' = Ok d' s' /\
    requests d' = INT_MAX /\
    ESDM_DRNG_RESEED_THRESH < requests d'.
Proof.
  destruct (esdm_drng_reset_run init_ptr
              (test_mgr 1 (test_drng 0 (Some 0) (2 ^ 20) 0 true false)
                 None false)
              (test_drng 0 (Some 0) (2 ^ 20) 0 true false) eq_refl)
    as (s0 & d0 & Hreset & Hl0 & Hq0 & _).
  destruct (run_ops_must_reseed_replicate init_ptr
              (Z.to_nat (2 ^ 31 + ESDM_DRNG_RESEED_THRESH + 1)) s0 d0 Hl0)
    as (s' & d' & Hrun & Hl' & Hq').
  { rewrite Hq0. split; discriminate. }
  exists s0, s', d'. do 3 (split; [assumption|]).
  rewrite Z2Nat.id in Hq' by discriminate.
  rewrite Hq0 in Hq'.
  assert (Hmax : requests d' = INT_MAX) by (rewrite Hq'; reflexivity).
  split; [exact Hmax|]. rewrite Hmax. reflexivity.
Qed.

Lemma requests_ceiling_witness :
  exists s0 s' d',
    esdm_drng_reset init_ptr
      (test_mgr 1 (test_drng 0 (Some 0) 3 0 true false) None false)
      = Ok tt s0 /\
    run_ops_counting init_ptr
      [op_must_reseed; op_must_reseed; op_inject [] true; op_must_reseed;
       op_reset; op_must_reseed; op_must_reseed] 0 s0
      = Ok 2%nat s' /\
    load_drng init_ptr s' = Ok d' s' /\
    run_ops init_ptr
      [op_must_reseed; op_must_reseed; op_inject [] true; op_must_reseed;
       op_reset; op_must_reseed; op_must_reseed] s0
      = Ok tt s' /\
    requests d' = 2 ^ 20 - 2 /\
    requests d' <= ESDM_DRNG_RESEED_THRESH.
Proof.
  eexists _, _, _. split; [vm_compute; reflexivity|].
  split; [vm_compute; reflexivity|]. split; [vm_compute; reflexivity|].
  assert (Ht : in_int ESDM_DRNG_RESEED_THRESH)
    by (vm_compute; split; discriminate).
  edestruct (proj1 (requests_ceiling init_ptr Ht)
               [op_must_reseed; op_must_reseed; op_inject [] true;
                op_must_reseed; op_reset; op_must_reseed; op_must_reseed]
               2%nat
               (test_mgr 1 (test_drng 0 (Some 0) 3 0 true false) None false))
    as (Hrun & _ & Hceil & _).
  - vm_compute. reflexivity.
  - vm_compute. reflexivity.
  - vm_compute. reflexivity.
  - split; [exact Hrun|]. apply Hceil. vm_compute. discriminate.
Defined.

(** C9, counterexample: on node 1 the seed callback succeeds on a seed
    buffer without full entropy; the seeding is recorded ([requests] at
    the threshold, [force_reseed] cleared, [last_seeded] at the time of
    the injection), the DRNG is not fully seeded, and [last_seeded] is
    not advanced by 60 seconds. *)
Lemma esdm_drng_seed_work_one_counterexample :
  exists s' d',
    esdm_drng_seed_work_one (node_ptr 1) 1
      (test_mgr 1 (test_drng 0 (Some 0) (2 ^ 20) 0 true false)
         (Some [None; Some (test_drng 0 (Some 0) 17 0 false true)]) false)
      = Ok tt s' /\
    load_drng (node_ptr 1) s' = Ok d' s' /\
    requests d' = ESDM_DRNG_RESEED_THRESH /\
    force_reseed d' = false /\
    last_seeded d' = clock 1 /\
    last_seeded d' <> clock 1 + 1 * 60.
Proof.
  eexists _, _. split; [vm_compute; reflexivity|].
  split; [vm_compute; reflexivity|]. repeat split. discriminate.
Qed.

Lemma esdm_drng_seed_work_one_stagger_witness :
  exists s' d',
    esdm_drng_seed_work_one (node_ptr 1) 1
      (test_mgr 1 (test_drng 0 (Some 0) (2 ^ 20) 0 true false)
         (Some [None; Some (test_drng 0 (Some 0) 17 0 false true)]) true)
      = Ok tt s' /\
    load_drng (node_ptr 1) s' = Ok d' s' /\
    fully_seeded d' = true /\
    last_seeded d' = 1061.
Proof.
  destruct (esdm_drng_seed_work_one_stagger (node_ptr 1) 1
              (test_mgr 1 (test_drng 0 (Some 0) (2 ^ 20) 0 true false)
                 (Some [None; Some (test_drng 0 (Some 0) 17 0 false true)])
                 true)
              (test_drng 0 (Some 0) 17 0 false true)
              0 (test_drng_cb 0) true true 0 1)
    as (s' & d' & Hrun & Hl & Hfs & Hls).
  - discriminate.
  - reflexivity.
  - reflexivity.
  - reflexivity.
  - reflexivity.
  - reflexivity.
  - discriminate.
  - vm_compute. split; [discriminate|reflexivity].
  - exists s', d'. split; [exact Hrun|]. split; [exact Hl|].
    split; [exact Hfs|]. rewrite Hls, Hfs. reflexivity.
Defined.

(** ** The rest of the code on the test double *)

#[local] Existing Instance test_services.

(** X1 at INT_MAX: the increment wraps to INT_MIN and the decrement
    comes back. *)
Lemma atomic_add_sub_round_trip_witness :
  atomic_sub (atomic_add INT_MAX 1) 1 = INT_MAX /\
  atomic_add (atomic_sub INT_MAX 1) 1 = INT_MAX /\
  atomic_dec (atomic_inc INT_MAX) = INT_MAX /\
  atomic_inc (atomic_dec INT_MAX) = INT_MAX.
Proof.
  apply (atomic_add_sub_round_trip INT_MAX 1).
  vm_compute. split; discriminate.
Defined.

(** X2 at INT_MIN + INT_MIN, which wraps to zero. *)
Lemma atomic_tests_for_zero_witness :
  (fst (atomic_add_and_test INT_MIN INT_MIN) = true
   <-> INT_MIN + INT_MIN = 0 \/ (INT_MIN = INT_MIN /\ INT_MIN = INT_MIN)) /\
  (fst (atomic_sub_and_test INT_MIN INT_MIN) = true <-> INT_MIN = INT_MIN) /\
  (fst (atomic_inc_and_test INT_MIN) = true <-> INT_MIN = -1) /\
  (fst (atomic_dec_and_test INT_MIN) = true <-> INT_MIN = 1).
Proof.
  apply (atomic_tests_for_zero INT_MIN INT_MIN);
    vm_compute; split; discriminate.
Defined.

(** X3: the address 4100 is not aligned to 8 bytes and 4096 is; the
    mask 2^33 - 1 is cut to 2^32 - 1, for which the address 2^32 is
    aligned. *)
Lemma aligned_power_of_two_witness :
  aligned 4100 (2 ^ 3 - 1) = 0 /\
  aligned 4096 (2 ^ 3 - 1) = 1 /\
  aligned (2 ^ 32) (2 ^ 33 - 1) = 1.
Proof.
  split; [|split].
  - exact (aligned_power_of_two 4100 3 ltac:(discriminate)
             ltac:(discriminate)).
  - exact (aligned_power_of_two 4096 3 ltac:(discriminate)
             ltac:(discriminate)).
  - exact (aligned_power_of_two (2 ^ 32) 33 ltac:(discriminate)
             ltac:(discriminate)).
Defined.

(** X6: with FIPS forced on, a CPU rate of 1000 is cut to 256 and the
    Jitter RNG rate, at its default 16, is raised to 256. *)
Lemma esdm_config_init_rates_witness :
  exists s',
    esdm_config_init
      (set_mgr_config
         (set_force_fips esdm_config_force_fips_enabled
            (set_cpu_rate 1000 (@esdm_config_initial test_definitions)))
         (test_mgr 1 (test_drng 0 (Some 0) (2 ^ 20) 0 true false) None false))
      = Ok 0 s' /\
    esdm_es_cpu_entropy_rate_bits (mgr_config s') = 256 /\
    esdm_es_jent_entropy_rate_bits (mgr_config s') = 256.
Proof.
  destruct (esdm_config_init_rates
              (set_mgr_config
                 (set_force_fips esdm_config_force_fips_enabled
                    (set_cpu_rate 1000
                       (@esdm_config_initial test_definitions)))
                 (test_mgr 1 (test_drng 0 (Some 0) (2 ^ 20) 0 true false)
                    None false)))
    as (s' & Hrun & Hcpu & _ & _ & _ & _ & Hjent & _).
  - vm_compute. split; [discriminate|reflexivity].
  - exists s'. split; [exact Hrun|]. split; [exact Hcpu|].
    apply Hjent; [reflexivity| |reflexivity].
    vm_compute. split; [reflexivity|discriminate].
Defined.

(** X7 on a fully seeded DRNG. *)
Lemma esdm_drng_reset_must_reseed_witness :
  exists s' d',
    (esdm_drng_reset init_ptr;; esdm_drng_must_reseed init_ptr)
      (test_mgr 1 (test_drng 0 (Some 0) 5 7 true false) None false)
      = Ok true s' /\
    load_drng init_ptr s' = Ok d' s' /\
    requests d' = 2 ^ 20 - 1 /\
    fully_seeded d' = false /\
    force_reseed d' = true /\
    ticks s' = 1%nat.
Proof.
  destruct (esdm_drng_reset_must_reseed init_ptr
              (test_mgr 1 (test_drng 0 (Some 0) 5 7 true false) None false)
              (test_drng 0 (Some 0) 5 7 true false) eq_refl)
    as (s' & d' & Hrun & Hl & Hreq & Hfs & Hfr & Htk).
  exists s', d'. split; [exact Hrun|]. split; [exact Hl|].
  split; [exact Hreq|]. by repeat split.
Defined.

(** X8: the seed is one second old when the test reads the clock. *)
Lemma esdm_drng_inject_then_must_reseed_witness :
  exists b s',
    (esdm_drng_inject init_ptr [] true;; esdm_drng_must_reseed init_ptr)
      (test_mgr 1 (test_drng 0 (Some 0) 5 7 false true) None false)
      = Ok b s' /\
    (b = true <-> 1001 + 600 < 1002).
Proof.
  destruct (esdm_drng_inject_then_must_reseed init_ptr
              (test_mgr 1 (test_drng 0 (Some 0) 5 7 false true) None false)
              (test_drng 0 (Some 0) 5 7 false true)
              0 (test_drng_cb 0) [] true 0 1
              eq_refl eq_refl eq_refl eq_refl (Z.le_refl 0))
    as (b & s' & Hrun & Hiff).
  - vm_compute. split; discriminate.
  - discriminate.
  - discriminate.
  - discriminate.
  - discriminate.
  - exists b, s'. split; [exact Hrun|exact Hiff].
Defined.

(** X9: an allocation that succeeds. *)
Lemma esdm_drng_alloc_common_outcomes_witness :
  exists s' d',
    esdm_drng_alloc_common init_ptr (Some (test_drng_cb 0))
      (test_mgr 0 test_drng_static None false) = Ok 0 s' /\
    load_drng init_ptr s' = Ok d' s' /\
    drng d' = Some 0 /\
    requests d' = 2 ^ 20 /\
    last_seeded d' = 1000 /\
    fully_seeded d' = false /\
    force_reseed d' = true.
Proof.
  destruct (esdm_drng_alloc_common_outcomes init_ptr
              (test_mgr 0 test_drng_static None false)
              test_drng_static (test_drng_cb 0) 0 (Some 0)
              eq_refl eq_refl)
    as (_ & _ & Hok).
  destruct (Hok (Z.le_refl 0))
    as (s' & d' & Hrun & Hl & Hd & _ & _ & Hreq & _ & Hls & Hfs & Hfr & _).
  exists s', d'. by repeat split.
Defined.

(** X10: the initialisation of the test double. *)
Lemma esdm_drng_mgr_initalize_success_witness :
  exists s1,
    esdm_drng_mgr_initalize (test_mgr 0 test_drng_static None false)
      = esdm_drng_mgr_selftest s1 /\
    esdm_get_available s1 = Ok true s1 /\
    drng (esdm_drng_init s1) = Some 0 /\
    fully_seeded (esdm_drng_init s1) = false /\
    force_reseed (esdm_drng_init s1) = true /\
    esdm_drng_mgr_initalize s1 = Ok 0 s1.
Proof.
  destruct (@esdm_drng_mgr_initalize_success test_definitions
              Z bool bool test_collaborators
              (test_mgr 0 test_drng_static None false) 0 (Some 0)
              eq_refl eq_refl (Z.le_refl 0))
    as (s1 & Hrun & Hav & Hd & _ & _ & _ & _ & _ & Hfs & Hfr & _ & Hagain).
  exists s1. by repeat split.
Defined.

(** X11: the allocation fails with -ENOMEM. *)
Lemma esdm_drng_mgr_initalize_alloc_failure_witness :
  exists s',
    @esdm_drng_mgr_initalize test_definitions Z bool bool
      test_collaborators_alloc_failing
      (test_mgr 0 test_drng_static None false) = Ok (-12) s' /\
    @esdm_get_available Z bool s' = Ok false s' /\
    @esdm_drng_get test_definitions Z bool bool
      test_collaborators_alloc_failing 8 init_ptr (Some []) 16 s'
    = Ok (- EOPNOTSUPP, []) s'.
Proof.
  destruct (@esdm_drng_mgr_initalize_alloc_failure test_definitions
              Z bool bool test_collaborators_alloc_failing
              (test_mgr 0 test_drng_static None false) (-12) None
              eq_refl eq_refl eq_refl)
    as (s' & Hrun & Hav & _ & _ & Hget).
  exists s'. split; [exact Hrun|]. split; [exact Hav|].
  apply Hget. discriminate.
Defined.

(** X13: 64 bytes from the test double. *)
Lemma esdm_drng_get_all_or_error_witness :
  exists r data s',
    esdm_drng_get 64 init_ptr (Some []) 64
      (test_mgr 1 (test_drng 0 (Some 0) (2 ^ 20) 0 false true) None true)
      = Ok (r, data) s' /\
    (r = - EFAULT \/ (r = 64 /\ Z.of_nat (length data) = r)).
Proof.
  apply (esdm_drng_get_all_or_error 64 init_ptr [] 64
           (test_mgr 1 (test_drng 0 (Some 0) (2 ^ 20) 0 false true)
              None true)
           (test_drng 0 (Some 0) (2 ^ 20) 0 false true) (test_drng_cb 0)
           eq_refl eq_refl).
  - intros st n. cbn. split; [lia|]. intros Hn.
    rewrite length_replicate. lia.
  - discriminate.
  - vm_compute. split; reflexivity.
  - vm_compute. lia.
Defined.

(** X14: node 0 is fully seeded and node 1 is not: the pass seeds
    node 1. *)
Lemma esdm_drng_seed_work_first_unseeded_witness :
  __esdm_drng_seed_work
    (test_mgr 1 (test_drng 0 (Some 0) (2 ^ 20) 0 true false)
       (Some [Some (test_drng 0 (Some 0) (2 ^ 20) 0 true false);
              Some (test_drng 0 (Some 0) (2 ^ 20) 0 false true)])
       true)
  = esdm_drng_seed_work_one (node_ptr 1) 1
      (test_mgr 1 (test_drng 0 (Some 0) (2 ^ 20) 0 true false)
         (Some [Some (test_drng 0 (Some 0) (2 ^ 20) 0 true false);
                Some (test_drng 0 (Some 0) (2 ^ 20) 0 false true)])
         true).
Proof.
  destruct (esdm_drng_seed_work_first_unseeded
              (test_mgr 1 (test_drng 0 (Some 0) (2 ^ 20) 0 true false)
                 (Some [Some (test_drng 0 (Some 0) (2 ^ 20) 0 true false);
                        Some (test_drng 0 (Some 0) (2 ^ 20) 0 false true)])
                 true)
              [Some (test_drng 0 (Some 0) (2 ^ 20) 0 true false);
               Some (test_drng 0 (Some 0) (2 ^ 20) 0 false true)]
              eq_refl)
    as [Hfirst _].
  apply (Hfirst 1%nat (test_drng 0 (Some 0) (2 ^ 20) 0 false true)).
  - vm_compute. lia.
  - intros i Hi. assert (i = 0%nat) as -> by lia. reflexivity.
  - reflexivity.
  - reflexivity.
Defined.

(** X15: the steady state of the test double. *)
Lemma esdm_drng_seed_work_steady_witness :
  esdm_drng_seed_work 1
    (test_mgr 1 (test_drng 0 (Some 0) (2 ^ 20) 0 true false) None true)
  = Ok tt
      (test_mgr 1 (test_drng 0 (Some 0) (2 ^ 20) 0 true false) None true).
Proof.
  exact (esdm_drng_seed_work_steady 0
           (test_mgr 1 (test_drng 0 (Some 0) (2 ^ 20) 0 true false)
              None true)
           eq_refl eq_refl eq_refl).
Defined.

(** X16: the reset of a fully seeded initial DRNG. *)
Lemma esdm_reset_init_only_witness :
  exists s',
    _esdm_reset
      (test_mgr 1 (test_drng 0 (Some 0) 5 7 true false) None true)
      = Ok 0 s' /\
    fully_seeded (esdm_drng_init s') = false /\
    force_reseed (esdm_drng_init s') = true /\
    requests (esdm_drng_init s') = 2 ^ 20 /\
    drng (esdm_drng_init s') = Some 0.
Proof.
  destruct (esdm_reset_init_only
              (test_mgr 1 (test_drng 0 (Some 0) 5 7 true false) None true)
              eq_refl)
    as (s' & Hrun & Hinit & _).
  exists s'. split; [exact Hrun|]. by rewrite Hinit.
Defined.

(** X17: the reset of an array with one instance and one empty slot. *)
Lemma esdm_reset_all_nodes_witness :
  exists s' arr',
    _esdm_reset
      (test_mgr 1 (test_drng 0 (Some 0) (2 ^ 20) 0 true false)
         (Some [Some (test_drng 0 (Some 0) 5 7 true false); None]) true)
      = Ok 0 s' /\
    esdm_drng_instances s' = Some arr' /\
    (exists d',
       arr' !! 0%nat = Some (Some d') /\
       requests d' = 2 ^ 20 /\
       fully_seeded d' = false /\
       force_reseed d' = true) /\
    arr' !! 1%nat = Some None.
Proof.
  destruct (esdm_reset_all_nodes
              (test_mgr 1 (test_drng 0 (Some 0) (2 ^ 20) 0 true false)
                 (Some [Some (test_drng 0 (Some 0) 5 7 true false); None])
                 true)
              [Some (test_drng 0 (Some 0) 5 7 true false); None]
              eq_refl)
    as (s' & arr' & Hrun & Ha & _ & Hin & Hnone & _).
  - vm_compute. lia.
  - exists s', arr'. split; [exact Hrun|]. split; [exact Ha|]. split.
    + destruct (Hin 0%nat (test_drng 0 (Some 0) 5 7 true false))
        as (t & d' & Hlk & Hreq & _ & _ & _ & Hfs & Hfr & _);
        [vm_compute; lia|reflexivity|].
      exists d'. by repeat split.
    + by apply Hnone.
Defined.

(** X18 without a per-node array: the initial DRNG is not fully seeded,
    and its pending [force_reseed] is cleared. *)
Lemma esdm_drng_force_reseed_init_only_witness :
  exists s',
    esdm_drng_force_reseed
      (test_mgr 1 (test_drng 0 (Some 0) (2 ^ 20) 0 false true) None true)
      = Ok tt s' /\
    force_reseed (esdm_drng_init s') = false /\
    esdm_drng_atomic s' = test_drng 0 (Some 0) (2 ^ 20) 0 false false.
Proof.
  destruct (esdm_drng_force_reseed_init_only
              (test_mgr 1 (test_drng 0 (Some 0) (2 ^ 20) 0 false true)
                 None true)
              (or_introl eq_refl))
    as (s' & Hrun & Hfr & _ & _ & Hat & _).
  exists s'. by repeat split.
Defined.

(** X19: a seeding before the initialisation. *)
Lemma esdm_drng_seed_unavailable_witness :
  exists s',
    esdm_drng_seed init_ptr (test_mgr 0 test_drng_static None true)
      = Ok tt s' /\
    esdm_drng_init s' = test_drng_static /\
    esdm_avail s' = 0.
Proof.
  destruct (esdm_drng_seed_unavailable init_ptr
              (test_mgr 0 test_drng_static None true) eq_refl)
    as (s' & Hrun & Hinit & _ & _ & Hav & _).
  exists s'. by repeat split.
Defined.
